(** * KolamAI front end ([static/main.js]): a shallow embedding

    The script is browser glue around three pieces of module-level state
    ([kolamData], [animationState], [lastFrameTime]).  Every function of
    the script is embedded as a function on a [World]: the three globals
    together with the part of the browser the script reads and writes
    (canvas context, element texts and classes, the set of pending
    animation-frame callbacks, alerts, downloads, issued requests).

    - JavaScript numbers are IEEE-754 binary64 values; they are embedded
      as [spec_float] with the operations of [SpecFloat] at precision 53,
      so that [50 / speed] and [timestamp - lastFrameTime] round,
      overflow and produce infinities and NaN as the script's arithmetic
      does.  The two cursors only ever hold small integers and are kept
      in [Z].
    - An [async] function is cut at its awaits: [f] is the part that runs
      at the call, [f_then] the part that runs when the awaited request
      has settled; other events may come in between.
    - The elements the script looks up by id are taken to exist.  The
      canvas is the one element whose absence the script tests for
      ([ctx] may be [null]).
    - An exception that no handler catches ends the running handler; the
      world keeps what was written before it. *)

From Stdlib Require Import ZArith String Ascii Bool Lia.
From Stdlib Require Import Floats.SpecFloat.
From stdpp Require Import gmap strings list fin_maps pretty.

Open Scope Z_scope.

(** ** JavaScript numbers *)

Module Number.

Definition num : Type := spec_float.

Definition prec : Z := 53.
Definition emax : Z := 1024.

(** An integer literal of the script. *)
Definition of_Z (z : Z) : num := binary_normalize prec emax z 0 false.

Definition sub : num -> num -> num := SFsub prec emax.
Definition div : num -> num -> num := SFdiv prec emax.
Definition mul : num -> num -> num := SFmul prec emax.

(** [x < y] and [x <= y]; both are false as soon as one side is NaN. *)
Definition ltb : num -> num -> bool := SFltb.
Definition leb : num -> num -> bool := SFleb.

Definition NaN : num := S754_nan.
Definition Infinity : num := S754_infinity false.
Definition zero : num := S754_zero false.

(** [Math.PI], the binary64 number nearest to pi. *)
Definition PI : num := S754_finite false 7074237752028440 (-51).

Definition isNaN (x : num) : bool :=
  match x with S754_nan => true | _ => false end.

(** [Number.isFinite]. *)
Definition isFinite (x : num) : bool :=
  match x with
  | S754_zero _ | S754_finite _ _ _ => true
  | S754_infinity _ | S754_nan => false
  end.

(** The sign bit is clear and the value is a number: [+0], a positive
    finite number or [+Infinity]. *)
Definition nonneg (x : num) : bool :=
  match x with
  | S754_zero _ | S754_finite false _ _ | S754_infinity false => true
  | _ => false
  end.

End Number.

(** The arithmetic is evaluated by [vm_compute] where a value is needed
    and left alone by [simpl]. *)
Arguments Number.of_Z : simpl never.
Arguments Number.sub : simpl never.
Arguments Number.div : simpl never.
Arguments Number.mul : simpl never.
Arguments Number.ltb : simpl never.
Arguments Number.leb : simpl never.

Abbreviation num := Number.num.

(** [array[i]] for an index held in a number variable: [undefined]
    ([None]) outside [0 .. length - 1]. *)
Definition js_index {A : Type} (l : list A) (i : Z) : option A :=
  if i <? 0 then None else l !! Z.to_nat i.

(** ** The 2-D canvas context *)

Module Canvas.

(** The drawing attributes the script assigns. *)
Record Pen : Type := {
  fillStyle : string;
  strokeStyle : string;
  lineWidth : num;
  lineCap : string;
  lineJoin : string;
  shadowBlur : num;
  shadowColor : string
}.

Inductive PathCmd : Type :=
  | MoveTo (x y : num)
  | LineTo (x y : num)
  | Arc (x y radius startAngle endAngle : num).

(** What has been put on the surface, oldest first; each entry records
    the attributes in force when it was painted. *)
Inductive Paint : Type :=
  | FillRect (p : Pen) (x y w h : num)
  | Fill (p : Pen) (shape : list PathCmd)
  | Stroke (p : Pen) (shape : list PathCmd).

Record Context2D : Type := {
  width : num;
  height : num;
  pen : Pen;
  subpath : list PathCmd;
  painted : list Paint
}.

Definition with_pen (f : Pen -> Pen) (c : Context2D) : Context2D :=
  {| width := width c; height := height c; pen := f (pen c);
     subpath := subpath c; painted := painted c |}.

Definition set_fillStyle (s : string) : Context2D -> Context2D :=
  with_pen (fun p =>
    {| fillStyle := s; strokeStyle := strokeStyle p; lineWidth := lineWidth p;
       lineCap := lineCap p; lineJoin := lineJoin p;
       shadowBlur := shadowBlur p; shadowColor := shadowColor p |}).

Definition set_strokeStyle (s : string) : Context2D -> Context2D :=
  with_pen (fun p =>
    {| fillStyle := fillStyle p; strokeStyle := s; lineWidth := lineWidth p;
       lineCap := lineCap p; lineJoin := lineJoin p;
       shadowBlur := shadowBlur p; shadowColor := shadowColor p |}).

Definition set_lineWidth (x : num) : Context2D -> Context2D :=
  with_pen (fun p =>
    {| fillStyle := fillStyle p; strokeStyle := strokeStyle p; lineWidth := x;
       lineCap := lineCap p; lineJoin := lineJoin p;
       shadowBlur := shadowBlur p; shadowColor := shadowColor p |}).

Definition set_lineCap (s : string) : Context2D -> Context2D :=
  with_pen (fun p =>
    {| fillStyle := fillStyle p; strokeStyle := strokeStyle p;
       lineWidth := lineWidth p; lineCap := s; lineJoin := lineJoin p;
       shadowBlur := shadowBlur p; shadowColor := shadowColor p |}).

Definition set_lineJoin (s : string) : Context2D -> Context2D :=
  with_pen (fun p =>
    {| fillStyle := fillStyle p; strokeStyle := strokeStyle p;
       lineWidth := lineWidth p; lineCap := lineCap p; lineJoin := s;
       shadowBlur := shadowBlur p; shadowColor := shadowColor p |}).

Definition set_shadowBlur (x : num) : Context2D -> Context2D :=
  with_pen (fun p =>
    {| fillStyle := fillStyle p; strokeStyle := strokeStyle p;
       lineWidth := lineWidth p; lineCap := lineCap p; lineJoin := lineJoin p;
       shadowBlur := x; shadowColor := shadowColor p |}).

Definition set_shadowColor (s : string) : Context2D -> Context2D :=
  with_pen (fun p =>
    {| fillStyle := fillStyle p; strokeStyle := strokeStyle p;
       lineWidth := lineWidth p; lineCap := lineCap p; lineJoin := lineJoin p;
       shadowBlur := shadowBlur p; shadowColor := s |}).

Definition with_subpath (sp : list PathCmd) (c : Context2D) : Context2D :=
  {| width := width c; height := height c; pen := pen c;
     subpath := sp; painted := painted c |}.

Definition put (x : Paint) (c : Context2D) : Context2D :=
  {| width := width c; height := height c; pen := pen c;
     subpath := subpath c; painted := painted c ++ [x] |}.

Definition beginPath (c : Context2D) : Context2D := with_subpath [] c.

Definition moveTo (x y : num) (c : Context2D) : Context2D :=
  with_subpath (subpath c ++ [MoveTo x y]) c.

Definition lineTo (x y : num) (c : Context2D) : Context2D :=
  with_subpath (subpath c ++ [LineTo x y]) c.

Definition arc (x y r a0 a1 : num) (c : Context2D) : Context2D :=
  with_subpath (subpath c ++ [Arc x y r a0 a1]) c.

Definition stroke (c : Context2D) : Context2D :=
  put (Stroke (pen c) (subpath c)) c.

Definition fill (c : Context2D) : Context2D :=
  put (Fill (pen c) (subpath c)) c.

Definition fillRect (x y w h : num) (c : Context2D) : Context2D :=
  put (FillRect (pen c) x y w h) c.

(** A context as [getContext('2d')] first hands it out. *)
Definition fresh (w h : num) : Context2D :=
  {| width := w; height := h;
     pen := {| fillStyle := "#000000"; strokeStyle := "#000000";
               lineWidth := Number.of_Z 1; lineCap := "butt";
               lineJoin := "miter"; shadowBlur := Number.zero;
               shadowColor := "rgba(0, 0, 0, 0)" |};
     subpath := []; painted := [] |}.

End Canvas.

(** ** Data model *)

(** A point is the two-element array [[x, y]]. *)
Definition Point : Type := (num * num)%type.

Record Grid : Type := {
  grid_type : string;          (* [grid.type] *)
  dimensions : num * num;
  dots : list Point
}.

Record Equations : Type := {
  x_function : string;
  y_function : string;
  domain : num * num;
  r_squared : num
}.

(** The payload of a successful analysis, held in [kolamData]. *)
Record PatternRecord : Type := {
  id : string;
  type : string;
  symmetry : string;
  complexity : string;
  grid : Grid;
  equations : Equations;
  paths : list (list Point)
}.

(** [animationId] is [null] ([None]) or the handle that
    [requestAnimationFrame] returned last. *)
Record AnimationState : Type := {
  isPlaying : bool;
  currentPathIndex : Z;
  currentPointIndex : Z;
  speed : num;
  animationId : option Z
}.

(** ** The browser side *)

Record File : Type := { file_name : string; file_type : string }.

(** JSON text, by its parse tree. *)
#[warnings="-register-all"]
Inductive Json : Type :=
  | JNull
  | JNumber (x : num)
  | JString (s : string)
  | JArray (items : list Json)
  | JObject (members : list (string * Json)).

Inductive Body : Type :=
  | FormData (fields : list (string * File))
  | JsonText (j : Json).

Record Request : Type := {
  url : string;
  method : string;
  headers : list (string * string);
  body : Body
}.

Record Download : Type := {
  filename : string;
  mime : string;
  content : string
}.

(** What the two awaits of a request ([fetch], then [response.json()])
    end in: the parsed body, or a rejection that lands in [catch]. *)
Inductive Settled (A : Type) : Type :=
  | Fulfilled (result : A)
  | Rejected (reason : string).
Arguments Fulfilled {A} result.
Arguments Rejected {A} reason.

(** [{ success, data?, error? }] of [/analyze]. *)
Record AnalyzeResult : Type := {
  analyze_success : bool;
  analyze_data : option PatternRecord;
  analyze_error : option string
}.

(** [{ success, svg?, error? }] of [/export-svg]. *)
Record ExportResult : Type := {
  export_success : bool;
  export_svg : option string;
  export_error : option string
}.

(** String conversion of a member that may be missing. *)
Definition str_or_undefined (o : option string) : string :=
  default "undefined" o.

(** ** The world *)

Record World : Type := {
  (* the script's globals *)
  kolamData : option PatternRecord;
  animationState : AnimationState;
  lastFrameTime : num;
  (* [ctx]: [None] when the page has no canvas element *)
  ctx : option Canvas.Context2D;
  (* the document: [textContent] by element id, (id, class) pairs of the
     class lists, the value of the file input *)
  textContent : gmap string string;
  classes : gset (string * string);
  fileInputValue : string;
  (* the frame scheduler: handles of the callbacks still to run, and the
     handle the next [requestAnimationFrame] returns *)
  pendingFrames : gset Z;
  nextFrameId : Z;
  (* what the user and the network have seen, oldest first *)
  alerts : list string;
  downloads : list Download;
  requests : list Request;
  console : list string;
  (* errors no handler caught *)
  uncaught : list string
}.

Definition with_kolamData (v : option PatternRecord) (w : World) : World :=
  {| kolamData := v; animationState := animationState w;
     lastFrameTime := lastFrameTime w; ctx := ctx w;
     textContent := textContent w; classes := classes w;
     fileInputValue := fileInputValue w; pendingFrames := pendingFrames w;
     nextFrameId := nextFrameId w; alerts := alerts w;
     downloads := downloads w; requests := requests w;
     console := console w; uncaught := uncaught w |}.

Definition with_animationState (v : AnimationState) (w : World) : World :=
  {| kolamData := kolamData w; animationState := v;
     lastFrameTime := lastFrameTime w; ctx := ctx w;
     textContent := textContent w; classes := classes w;
     fileInputValue := fileInputValue w; pendingFrames := pendingFrames w;
     nextFrameId := nextFrameId w; alerts := alerts w;
     downloads := downloads w; requests := requests w;
     console := console w; uncaught := uncaught w |}.

Definition with_lastFrameTime (v : num) (w : World) : World :=
  {| kolamData := kolamData w; animationState := animationState w;
     lastFrameTime := v; ctx := ctx w;
     textContent := textContent w; classes := classes w;
     fileInputValue := fileInputValue w; pendingFrames := pendingFrames w;
     nextFrameId := nextFrameId w; alerts := alerts w;
     downloads := downloads w; requests := requests w;
     console := console w; uncaught := uncaught w |}.

Definition with_ctx (v : option Canvas.Context2D) (w : World) : World :=
  {| kolamData := kolamData w; animationState := animationState w;
     lastFrameTime := lastFrameTime w; ctx := v;
     textContent := textContent w; classes := classes w;
     fileInputValue := fileInputValue w; pendingFrames := pendingFrames w;
     nextFrameId := nextFrameId w; alerts := alerts w;
     downloads := downloads w; requests := requests w;
     console := console w; uncaught := uncaught w |}.

Definition with_textContent (v : gmap string string) (w : World) : World :=
  {| kolamData := kolamData w; animationState := animationState w;
     lastFrameTime := lastFrameTime w; ctx := ctx w;
     textContent := v; classes := classes w;
     fileInputValue := fileInputValue w; pendingFrames := pendingFrames w;
     nextFrameId := nextFrameId w; alerts := alerts w;
     downloads := downloads w; requests := requests w;
     console := console w; uncaught := uncaught w |}.

Definition with_classes (v : gset (string * string)) (w : World) : World :=
  {| kolamData := kolamData w; animationState := animationState w;
     lastFrameTime := lastFrameTime w; ctx := ctx w;
     textContent := textContent w; classes := v;
     fileInputValue := fileInputValue w; pendingFrames := pendingFrames w;
     nextFrameId := nextFrameId w; alerts := alerts w;
     downloads := downloads w; requests := requests w;
     console := console w; uncaught := uncaught w |}.

Definition with_fileInputValue (v : string) (w : World) : World :=
  {| kolamData := kolamData w; animationState := animationState w;
     lastFrameTime := lastFrameTime w; ctx := ctx w;
     textContent := textContent w; classes := classes w;
     fileInputValue := v; pendingFrames := pendingFrames w;
     nextFrameId := nextFrameId w; alerts := alerts w;
     downloads := downloads w; requests := requests w;
     console := console w; uncaught := uncaught w |}.

Definition with_frames (p : gset Z) (n : Z) (w : World) : World :=
  {| kolamData := kolamData w; animationState := animationState w;
     lastFrameTime := lastFrameTime w; ctx := ctx w;
     textContent := textContent w; classes := classes w;
     fileInputValue := fileInputValue w; pendingFrames := p;
     nextFrameId := n; alerts := alerts w;
     downloads := downloads w; requests := requests w;
     console := console w; uncaught := uncaught w |}.

Definition with_alerts (v : list string) (w : World) : World :=
  {| kolamData := kolamData w; animationState := animationState w;
     lastFrameTime := lastFrameTime w; ctx := ctx w;
     textContent := textContent w; classes := classes w;
     fileInputValue := fileInputValue w; pendingFrames := pendingFrames w;
     nextFrameId := nextFrameId w; alerts := v;
     downloads := downloads w; requests := requests w;
     console := console w; uncaught := uncaught w |}.

Definition with_downloads (v : list Download) (w : World) : World :=
  {| kolamData := kolamData w; animationState := animationState w;
     lastFrameTime := lastFrameTime w; ctx := ctx w;
     textContent := textContent w; classes := classes w;
     fileInputValue := fileInputValue w; pendingFrames := pendingFrames w;
     nextFrameId := nextFrameId w; alerts := alerts w;
     downloads := v; requests := requests w;
     console := console w; uncaught := uncaught w |}.

Definition with_requests (v : list Request) (w : World) : World :=
  {| kolamData := kolamData w; animationState := animationState w;
     lastFrameTime := lastFrameTime w; ctx := ctx w;
     textContent := textContent w; classes := classes w;
     fileInputValue := fileInputValue w; pendingFrames := pendingFrames w;
     nextFrameId := nextFrameId w; alerts := alerts w;
     downloads := downloads w; requests := v;
     console := console w; uncaught := uncaught w |}.

Definition with_console (v : list string) (w : World) : World :=
  {| kolamData := kolamData w; animationState := animationState w;
     lastFrameTime := lastFrameTime w; ctx := ctx w;
     textContent := textContent w; classes := classes w;
     fileInputValue := fileInputValue w; pendingFrames := pendingFrames w;
     nextFrameId := nextFrameId w; alerts := alerts w;
     downloads := downloads w; requests := requests w;
     console := v; uncaught := uncaught w |}.

Definition with_uncaught (v : list string) (w : World) : World :=
  {| kolamData := kolamData w; animationState := animationState w;
     lastFrameTime := lastFrameTime w; ctx := ctx w;
     textContent := textContent w; classes := classes w;
     fileInputValue := fileInputValue w; pendingFrames := pendingFrames w;
     nextFrameId := nextFrameId w; alerts := alerts w;
     downloads := downloads w; requests := requests w;
     console := console w; uncaught := v |}.

(** Assignments to the fields of [animationState]. *)
Definition set_isPlaying (b : bool) (w : World) : World :=
  let a := animationState w in
  with_animationState
    {| isPlaying := b; currentPathIndex := currentPathIndex a;
       currentPointIndex := currentPointIndex a; speed := speed a;
       animationId := animationId a |} w.

Definition set_currentPathIndex (i : Z) (w : World) : World :=
  let a := animationState w in
  with_animationState
    {| isPlaying := isPlaying a; currentPathIndex := i;
       currentPointIndex := currentPointIndex a; speed := speed a;
       animationId := animationId a |} w.

Definition set_currentPointIndex (i : Z) (w : World) : World :=
  let a := animationState w in
  with_animationState
    {| isPlaying := isPlaying a; currentPathIndex := currentPathIndex a;
       currentPointIndex := i; speed := speed a;
       animationId := animationId a |} w.

Definition set_speed (v : num) (w : World) : World :=
  let a := animationState w in
  with_animationState
    {| isPlaying := isPlaying a; currentPathIndex := currentPathIndex a;
       currentPointIndex := currentPointIndex a; speed := v;
       animationId := animationId a |} w.

Definition set_animationId (h : option Z) (w : World) : World :=
  let a := animationState w in
  with_animationState
    {| isPlaying := isPlaying a; currentPathIndex := currentPathIndex a;
       currentPointIndex := currentPointIndex a; speed := speed a;
       animationId := h |} w.

(** [document.getElementById(el).textContent = s] *)
Definition setText (el s : string) (w : World) : World :=
  with_textContent (<[el := s]> (textContent w)) w.

(** [classList.add] and [classList.remove] *)
Definition addClass (el cls : string) (w : World) : World :=
  with_classes (classes w ∪ {[ (el, cls) ]}) w.

Definition removeClass (el cls : string) (w : World) : World :=
  with_classes (classes w ∖ {[ (el, cls) ]}) w.

Definition alert (s : string) (w : World) : World :=
  with_alerts (alerts w ++ [s]) w.

Definition console_error (s : string) (w : World) : World :=
  with_console (console w ++ [s]) w.

(** [fetch]: the request leaves; its answer arrives as a later event. *)
Definition fetch (r : Request) (w : World) : World :=
  with_requests (requests w ++ [r]) w.

(** A blob handed to the browser as a download: the object URL, the
    temporary anchor, its click and its removal. *)
Definition download (d : Download) (w : World) : World :=
  with_downloads (downloads w ++ [d]) w.

(** An exception that reaches the event loop ends the running handler. *)
Definition throw (e : string) (w : World) : World :=
  with_uncaught (uncaught w ++ [e]) w.

(** [requestAnimationFrame(animate)]: the handle returned, and the world
    with that callback pending. *)
Definition requestAnimationFrame (w : World) : Z * World :=
  (nextFrameId w,
   with_frames (pendingFrames w ∪ {[ nextFrameId w ]}) (nextFrameId w + 1) w).

Definition cancelAnimationFrame (h : Z) (w : World) : World :=
  with_frames (pendingFrames w ∖ {[ h ]}) (nextFrameId w) w.

(** The glyphs of the play control. *)
Definition glyph_play : string := "▶".
Definition glyph_pause : string := "⏸".

(** ** The script *)

(** [frameDelay]: base delay in ms between points. *)
Definition frameDelay : num := Number.of_Z 50.

(** [Math.PI * 2] *)
Definition two_pi : num := Number.mul Number.PI (Number.of_Z 2).

Definition TypeError : string := "TypeError".

Arguments frameDelay : simpl never.
Arguments two_pi : simpl never.

(** How a call inside a [try] block ends. *)
Inductive Completion : Type :=
  | Normal (w : World)
  | Throws (e : string) (w : World).

Section Script.

(** String conversion of a number ([String(x)], template interpolation,
    assignment to [textContent]).  The script only ever pastes the result
    into texts, so the conversion is left abstract. *)
Variable Number_toString : num -> string.

(** *** Upload *)

(** [handleFileUpload] up to its first [await]. *)
Definition handleFileUpload (file : File) (w : World) : World :=
  fetch {| url := "http://localhost:5000/analyze"; method := "POST";
           headers := []; body := FormData [("image", file)] |}
        (removeClass "uploadStatus" "hidden" w).

(** One filled disk: [beginPath(); arc(x, y, r, 0, Math.PI * 2); fill()]. *)
Definition disk (radius : Z) (p : Point) (c : Canvas.Context2D)
  : Canvas.Context2D :=
  Canvas.fill
    (Canvas.arc (fst p) (snd p) (Number.of_Z radius) (Number.of_Z 0) two_pi
       (Canvas.beginPath c)).

(** [drawGridDots].  [!kolamData.grid.dots] is false for every array, the
    empty one included.  The function is only called from
    [initializeCanvas], after its test of [ctx]. *)
Definition drawGridDots (w : World) : World :=
  match kolamData w with
  | None => w
  | Some r =>
    match ctx w with
    | None => throw TypeError w
    | Some c =>
      with_ctx
        (Some (foldl (fun c dot => disk 4 dot c)
                 (Canvas.set_fillStyle "#FF6347" c) (dots (grid r)))) w
    end
  end.

Definition initializeCanvas (w : World) : World :=
  match ctx w with
  | None => w
  | Some c =>
    let w :=
      with_ctx
        (Some (Canvas.fillRect (Number.of_Z 0) (Number.of_Z 0)
                 (Canvas.width c) (Canvas.height c)
                 (Canvas.set_fillStyle "#000" c))) w in
    let w := drawGridDots w in
    let w := set_currentPathIndex 0 w in
    let w := set_currentPointIndex 0 w in
    let w := set_isPlaying false w in
    setText "playIcon" glyph_play w
  end.

(** [`${a} × ${b}`] *)
Definition times_text (p : num * num) : string :=
  Number_toString (fst p) +:+ " × " +:+ Number_toString (snd p).

(** [displayResults].  The two screens are switched before [kolamData] is
    first read; reading a member of a missing record throws. *)
Definition displayResults (w : World) : Completion :=
  let w := removeClass "uploadScreen" "active" w in
  let w := addClass "resultsScreen" "active" w in
  match kolamData w with
  | None => Throws TypeError w
  | Some r =>
    let w := setText "patternType" (type r) w in
    let w := setText "symmetry" (symmetry r) w in
    let w := setText "gridSize" (times_text (dimensions (grid r))) w in
    let w := setText "complexity" (complexity r) w in
    let w := setText "xEquation" (x_function (equations r)) w in
    let w := setText "yEquation" (y_function (equations r)) w in
    let w :=
      setText "domain"
        ("[" +:+ Number_toString (fst (domain (equations r))) +:+ ", "
         +:+ Number_toString (snd (domain (equations r))) +:+ "]") w in
    let w := setText "rSquared" (Number_toString (r_squared (equations r))) w in
    let w := setText "gridType" (grid_type (grid r)) w in
    let w := setText "gridDimensions" (times_text (dimensions (grid r))) w in
    let w :=
      setText "totalPoints"
        (Number_toString (Number.of_Z (Z.of_nat (length (dots (grid r)))))) w in
    Normal (initializeCanvas w)
  end.

(** The [catch] block of [handleFileUpload]. *)
Definition upload_failed (w : World) : World :=
  addClass "uploadStatus" "hidden"
    (alert "Failed to connect to server. Make sure the Flask backend is running on port 5000."
       (console_error "Upload error:" w)).

(** [handleFileUpload] from the point where both awaits have settled. *)
Definition handleFileUpload_then (s : Settled AnalyzeResult) (w : World)
  : World :=
  match s with
  | Rejected _ => upload_failed w
  | Fulfilled result =>
    if analyze_success result then
      match displayResults (with_kolamData (analyze_data result) w) with
      | Normal w' => w'
      | Throws _ w' => upload_failed w'
      end
    else
      addClass "uploadStatus" "hidden"
        (alert ("Error analyzing image: "
                +:+ str_or_undefined (analyze_error result)) w)
  end.

(** The listeners of [initializeUpload]. *)
Definition onDragOver (w : World) : World :=
  addClass "uploadArea" "drag-over" w.

Definition onDragLeave (w : World) : World :=
  removeClass "uploadArea" "drag-over" w.

Definition onDrop (file : option File) (w : World) : World :=
  let w := removeClass "uploadArea" "drag-over" w in
  match file with
  | Some f =>
    if String.prefix "image/" (file_type f) then handleFileUpload f w else w
  | None => w
  end.

Definition onFileInputChange (file : option File) (w : World) : World :=
  match file with
  | Some f => handleFileUpload f w
  | None => w
  end.

(** *** Animation *)

(** [animationState.animationId = requestAnimationFrame(animate)] *)
Definition schedule (w : World) : World :=
  let (h, w') := requestAnimationFrame w in
  set_animationId (Some h) w'.

(** [if (animationState.animationId) cancelAnimationFrame(...)]: a handle
    is truthy when it is neither [null] nor [0]. *)
Definition cancel_pending (w : World) : World :=
  match animationId (animationState w) with
  | Some h => if h =? 0 then w else cancelAnimationFrame h w
  | None => w
  end.

(** The two places where [animate] ends the run: not playing any more,
    play glyph shown, nothing rescheduled. *)
Definition complete (w : World) : World :=
  setText "playIcon" glyph_play (set_isPlaying false w).

(** The attributes of a segment, up to [beginPath()]. *)
Definition segment_pen (c : Canvas.Context2D) : Canvas.Context2D :=
  Canvas.beginPath
    (Canvas.set_shadowColor "#FFA500"
       (Canvas.set_shadowBlur (Number.of_Z 10)
          (Canvas.set_lineJoin "round"
             (Canvas.set_lineCap "round"
                (Canvas.set_lineWidth (Number.of_Z 3)
                   (Canvas.set_strokeStyle "#fff" c)))))).

(** From [stroke()] to the highlight at the end point. *)
Definition stroke_and_highlight (e : Point) (c : Canvas.Context2D)
  : Canvas.Context2D :=
  disk 6 e
    (Canvas.set_fillStyle "#FF6347"
       (Canvas.set_shadowBlur (Number.of_Z 0) (Canvas.stroke c))).

(** [timestamp - lastFrameTime < frameDelay / animationState.speed] *)
Definition throttled (timestamp : num) (w : World) : bool :=
  Number.ltb (Number.sub timestamp (lastFrameTime w))
             (Number.div frameDelay (speed (animationState w))).

Definition animate (timestamp : num) (w : World) : World :=
  if negb (isPlaying (animationState w)) then w
  else if throttled timestamp w then schedule w
  else
    let w := with_lastFrameTime timestamp w in
    match kolamData w with
    | None => throw TypeError w
    | Some r =>
      let a := animationState w in
      match js_index (paths r) (currentPathIndex a) with
      | None => complete w
      | Some currentPath =>
        if currentPointIndex a <? Z.of_nat (length currentPath) - 1 then
          match ctx w with
          | None => throw TypeError w
          | Some c =>
            let c := segment_pen c in
            match js_index currentPath (currentPointIndex a) with
            | None => throw TypeError (with_ctx (Some c) w)
            | Some start =>
              let c := Canvas.moveTo (fst start) (snd start) c in
              match js_index currentPath (currentPointIndex a + 1) with
              | None => throw TypeError (with_ctx (Some c) w)
              | Some e =>
                let c := Canvas.lineTo (fst e) (snd e) c in
                let w := with_ctx (Some (stroke_and_highlight e c)) w in
                schedule
                  (set_currentPointIndex (currentPointIndex a + 1) w)
              end
            end
          end
        else
          let w := set_currentPathIndex (currentPathIndex a + 1) w in
          let w := set_currentPointIndex 0 w in
          if currentPathIndex (animationState w)
               >=? Z.of_nat (length (paths r))
          then complete w
          else schedule w
      end
    end.

(** [animate()] gets [timestamp = 0]. *)
Definition togglePlayPause (w : World) : World :=
  let w := set_isPlaying (negb (isPlaying (animationState w))) w in
  if isPlaying (animationState w) then
    animate (Number.of_Z 0) (setText "playIcon" glyph_pause w)
  else
    cancel_pending (setText "playIcon" glyph_play w).

Definition resetAnimation (w : World) : World :=
  let w := cancel_pending w in
  let w := set_isPlaying false w in
  let w := set_currentPathIndex 0 w in
  let w := set_currentPointIndex 0 w in
  let w := setText "playIcon" glyph_play w in
  initializeCanvas w.

(** The listener of the speed slider; [v] is [parseFloat(e.target.value)]. *)
Definition onSpeedInput (v : num) (w : World) : World :=
  setText "speedValue" (Number_toString v +:+ "x") (set_speed v w).

(** *** Export *)

(** [JSON.stringify] of a number: [NaN] and the infinities are written
    [null], and [-0] is written [0]. *)
Definition json_of_number (x : num) : Json :=
  match x with
  | S754_zero _ => JNumber Number.zero
  | S754_finite _ _ _ => JNumber x
  | S754_infinity _ | S754_nan => JNull
  end.

Definition json_of_point (p : Point) : Json :=
  JArray [json_of_number (fst p); json_of_number (snd p)].

Definition json_of_points (l : list Point) : Json :=
  JArray (json_of_point <$> l).

(** [JSON.stringify({ paths: kolamData.paths, grid_dots: kolamData.grid.dots })] *)
Definition export_payload (r : PatternRecord) : Json :=
  JObject [("paths", JArray (json_of_points <$> paths r));
           ("grid_dots", json_of_points (dots (grid r)))].

(** [exportSVG] up to its first [await]. *)
Definition exportSVG (w : World) : World :=
  match kolamData w with
  | None => w
  | Some r =>
    fetch {| url := "http://localhost:5000/export-svg"; method := "POST";
             headers := [("Content-Type", "application/json")];
             body := JsonText (export_payload r) |} w
  end.

(** The [catch] block of [exportSVG]. *)
Definition export_failed (w : World) : World :=
  alert "Failed to export SVG" (console_error "Export error:" w).

(** [exportSVG] from the point where both awaits have settled.
    [kolamData] is read again here, for the file name; if the record is
    gone by then the read throws inside the [try]. *)
Definition exportSVG_then (s : Settled ExportResult) (w : World) : World :=
  match s with
  | Rejected _ => export_failed w
  | Fulfilled result =>
    if export_success result then
      match kolamData w with
      | None => export_failed w
      | Some r =>
        alert "SVG exported successfully!"
          (download {| filename := "kolam_" +:+ id r +:+ ".svg";
                       mime := "image/svg+xml";
                       content := str_or_undefined (export_svg result) |} w)
      end
    else
      alert ("Export failed: " +:+ str_or_undefined (export_error result)) w
  end.

Definition nl : string := String (ascii_of_nat 10) EmptyString.

(** The text template of [saveEquation]; [now] is
    [new Date().toLocaleString()]. *)
Definition equationData (now : string) (r : PatternRecord) : string :=
  "Kolam Pattern Equations" +:+ nl +:+
  "========================" +:+ nl +:+
  "Pattern ID: " +:+ id r +:+ nl +:+
  "Type: " +:+ type r +:+ nl +:+
  "Complexity: " +:+ complexity r +:+ nl +:+
  "Symmetry: " +:+ symmetry r +:+ nl +:+
  nl +:+
  "Parametric Equations:" +:+ nl +:+
  "x(t) = " +:+ x_function (equations r) +:+ nl +:+
  "y(t) = " +:+ y_function (equations r) +:+ nl +:+
  nl +:+
  "Domain: [" +:+ Number_toString (fst (domain (equations r))) +:+ ", "
    +:+ Number_toString (snd (domain (equations r))) +:+ "]" +:+ nl +:+
  "R² = " +:+ Number_toString (r_squared (equations r)) +:+ nl +:+
  nl +:+
  "Grid Configuration:" +:+ nl +:+
  "Type: " +:+ grid_type (grid r) +:+ nl +:+
  "Dimensions: " +:+ times_text (dimensions (grid r)) +:+ nl +:+
  "Total Points: "
    +:+ Number_toString (Number.of_Z (Z.of_nat (length (dots (grid r)))))
    +:+ nl +:+
  nl +:+
  "Generated: " +:+ now +:+ nl.

Definition saveEquation (now : string) (w : World) : World :=
  match kolamData w with
  | None => w
  | Some r =>
    alert "Equation file saved successfully!"
      (download {| filename := "kolam_equations_" +:+ id r +:+ ".txt";
                   mime := "text/plain";
                   content := equationData now r |} w)
  end.

(** *** Back to the upload screen *)

Definition resetApp (w : World) : World :=
  let w := cancel_pending w in
  let w := set_isPlaying false w in
  let w := set_currentPathIndex 0 w in
  let w := set_currentPointIndex 0 w in
  let w := with_kolamData None w in
  let w := removeClass "resultsScreen" "active" w in
  let w := addClass "uploadScreen" "active" w in
  let w := addClass "uploadStatus" "hidden" w in
  with_fileInputValue "" w.

(** ** The animation machine *)

(** What can happen to the animation once a record is on display: the
    browser runs a pending frame callback with a timestamp, or the user
    clicks play/pause, clicks reset, or moves the speed slider. *)
Inductive Event : Type :=
  | EvFrame (h : Z) (timestamp : num)
  | EvPlayPause
  | EvReset
  | EvSpeed (v : num).

(** A callback runs only while its handle is pending, and is no longer
    pending once it runs. *)
Definition step (e : Event) (w : World) : World :=
  match e with
  | EvFrame h timestamp =>
    if decide (h ∈ pendingFrames w)
    then animate timestamp
           (with_frames (pendingFrames w ∖ {[ h ]}) (nextFrameId w) w)
    else w
  | EvPlayPause => togglePlayPause w
  | EvReset => resetAnimation w
  | EvSpeed v => onSpeedInput v w
  end.

Definition run (es : list Event) (w : World) : World :=
  foldl (fun w e => step e w) w es.

End Script.

(** The state the script's top level leaves behind on a page whose canvas
    context is [c]. *)
Definition script_start (c : option Canvas.Context2D) : World :=
  {| kolamData := None;
     animationState :=
       {| isPlaying := false; currentPathIndex := 0; currentPointIndex := 0;
          speed := Number.of_Z 1; animationId := None |};
     lastFrameTime := Number.of_Z 0;
     ctx := c;
     textContent := ∅; classes := ∅; fileInputValue := "";
     pendingFrames := ∅; nextFrameId := 1;
     alerts := []; downloads := []; requests := [];
     console := []; uncaught := [] |}.

(** ** Observations *)

(** The animation cursor: (path index, point index). *)
Definition cursor (w : World) : Z * Z :=
  (currentPathIndex (animationState w), currentPointIndex (animationState w)).

(** What is on the canvas. *)
Definition surface (w : World) : list Canvas.Paint :=
  match ctx w with
  | Some c => Canvas.painted c
  | None => []
  end.

Definition playing (w : World) : bool := isPlaying (animationState w).

Definition playIcon (w : World) : option string := textContent w !! "playIcon".

(** [s] occurs in [t]. *)
Definition occurs_in (s t : string) : Prop :=
  exists pre post : string, t = pre +:+ s +:+ post.

(** Exactly one frame callback at most is pending, it is the one whose
    handle [animationId] holds, and none is pending unless playing. *)
Definition frames_tracked (w : World) : Prop :=
  0 < nextFrameId w /\
  (pendingFrames w = ∅ \/
   exists h : Z,
     pendingFrames w = {[ h ]} /\
     animationId (animationState w) = Some h /\ h <> 0 /\
     playing w = true).

(** The range the cursor keeps to for the record [r]: the path index
    within [0 .. paths.length], the point index non-negative and, while a
    current path exists, at most [max 0 (currentPath.length - 1)]. *)
Definition cursor_in_range (r : PatternRecord) (w : World) : Prop :=
  let a := animationState w in
  0 <= currentPathIndex a <= Z.of_nat (length (paths r)) /\
  0 <= currentPointIndex a /\
  forall currentPath : list Point,
    js_index (paths r) (currentPathIndex a) = Some currentPath ->
    currentPointIndex a <= Z.max 0 (Z.of_nat (length currentPath) - 1).

(** The events of a list are all frame callbacks whose timestamps
    satisfy [P]. *)
Definition frames_only (P : num -> Prop) (es : list Event) : Prop :=
  Forall (fun e => match e with EvFrame _ t => P t | _ => False end) es.

(** The paints of a redraw on the context [c]: the black rectangle over
    the whole canvas, then one disk of radius 4 per grid dot. *)
Definition clear_paint (c : Canvas.Context2D) : Canvas.Paint :=
  Canvas.FillRect (Canvas.pen (Canvas.set_fillStyle "#000" c))
    (Number.of_Z 0) (Number.of_Z 0) (Canvas.width c) (Canvas.height c).

Definition dot_paints (c : Canvas.Context2D) (ds : list Point)
  : list Canvas.Paint :=
  (fun d : Point =>
     Canvas.Fill (Canvas.pen (Canvas.set_fillStyle "#FF6347" c))
       [Canvas.Arc (fst d) (snd d) (Number.of_Z 4) (Number.of_Z 0) two_pi])
  <$> ds.

Definition redrawn (w : World) (c : Canvas.Context2D) : list Canvas.Paint :=
  Canvas.painted c ++
  clear_paint c ::
  match kolamData w with
  | Some r => dot_paints c (dots (grid r))
  | None => []
  end.

(** A coordinate that [JSON.stringify] writes without loss: finite, and
    not [-0]. *)
Definition plain_number (x : num) : Prop :=
  match x with
  | S754_zero s => s = false
  | S754_finite _ _ _ => True
  | S754_infinity _ | S754_nan => False
  end.

Definition plain_point (p : Point) : Prop :=
  plain_number (fst p) /\ plain_number (snd p).


(** Of the paints [extra] put on the canvas since some moment, the
    first one, if there is one, is the stroke from [p0] to [p1]. *)
Definition starts_with_segment (p0 p1 : Point) (extra : list Canvas.Paint)
  : Prop :=
  extra = [] \/
  exists (pen : Canvas.Pen) (more : list Canvas.Paint),
    extra =
    Canvas.Stroke pen [Canvas.MoveTo (fst p0) (snd p0);
                       Canvas.LineTo (fst p1) (snd p1)] :: more.

(** Projections of updated worlds reduce by [simpl]; the setters are
    never unfolded wholesale. *)
Ltac unfold_world :=
  unfold playing, cursor, surface, playIcon in *; simpl in *.

(** ** Further observations *)

(** The browser running the frame callback once per timestamp. *)
Definition frames (tss : list num) (w : World) : World :=
  foldl (fun w t => animate t w) w tss.

(** Timestamps none of which is closer than [delay] to the one before
    it, [last] being the one before the first. *)
Fixpoint paced (delay last : num) (tss : list num) : Prop :=
  match tss with
  | [] => True
  | t :: rest =>
    Number.ltb (Number.sub t last) delay = false /\ paced delay t rest
  end.

(** The pairs of consecutive points of a path, and of all paths in
    order. *)
Definition segments_of (path : list Point) : list (Point * Point) :=
  zip path (tail path).

Definition all_segments (ps : list (list Point)) : list (Point * Point) :=
  concat (segments_of <$> ps).

(** The end points of the line segments stroked, oldest first. *)
Definition strokes (l : list Canvas.Paint) : list (Point * Point) :=
  omap (fun x =>
          match x with
          | Canvas.Stroke _ [Canvas.MoveTo a b; Canvas.LineTo c d] =>
            Some ((a, b), (c, d))
          | _ => None
          end) l.

(** Accepted frames it takes to play every path: one per segment and
    one more to leave each path. *)
Definition frames_needed (ps : list (list Point)) : nat :=
  sum_list ((fun p : list Point => Nat.max (length p) 1) <$> ps).

(** The cursor [b] is not behind the cursor [a]. *)
Definition cursor_le (a b : Z * Z) : Prop :=
  fst a < fst b \/ (fst a = fst b /\ snd a <= snd b).

(** The request [handleFileUpload] sends for [f]. *)
Definition analyze_request (f : File) : Request :=
  {| url := "http://localhost:5000/analyze"; method := "POST";
     headers := []; body := FormData [("image", f)] |}.

(** The request [exportSVG] sends for [r]. *)
Definition export_request (r : PatternRecord) : Request :=
  {| url := "http://localhost:5000/export-svg"; method := "POST";
     headers := [("Content-Type", "application/json")];
     body := JsonText (export_payload r) |}.

Definition connect_alert : string :=
  "Failed to connect to server. Make sure the Flask backend is running on port 5000.".

(** The parts of the world that belong to the upload and export side:
    the record, the alerts, the downloads, the requests, the class
    lists. *)
Definition untouched (w w' : World) : Prop :=
  kolamData w' = kolamData w /\
  alerts w' = alerts w /\
  downloads w' = downloads w /\
  requests w' = requests w /\
  classes w' = classes w.

(** ** Sample data *)

Definition pt (x y : Z) : Point := (Number.of_Z x, Number.of_Z y).

(** A rendering of numbers for the examples: the decimal numeral of an
    integer, a quotient by a power of two otherwise. *)
Definition sample_toString (x : num) : string :=
  match x with
  | S754_nan => "NaN"
  | S754_infinity false => "Infinity"
  | S754_infinity true => "-Infinity"
  | S754_zero _ => "0"
  | S754_finite s m e =>
    (if s then "-" else "") +:+
    (if 0 <=? e then pretty (Z.pos m * 2 ^ e)
     else if Z.pos m mod 2 ^ (- e) =? 0 then pretty (Z.pos m / 2 ^ (- e))
     else pretty (Z.pos m) +:+ "/2^" +:+ pretty (- e))
  end.

Definition sample_grid : Grid :=
  {| grid_type := "square";
     dimensions := (Number.of_Z 5, Number.of_Z 5);
     dots := [pt 10 10; pt 20 10; pt 10 20] |}.

Definition sample_equations : Equations :=
  {| x_function := "3*cos(t) + cos(3*t)";
     y_function := "3*sin(t) - sin(3*t)";
     domain := (Number.of_Z 0, Number.of_Z 6);
     r_squared := Number.of_Z 1 |}.

(** Two paths: one segment, then a single point. *)
Definition sample_record : PatternRecord :=
  {| id := "abc123"; type := "sikku"; symmetry := "rotational";
     complexity := "medium"; grid := sample_grid;
     equations := sample_equations;
     paths := [[pt 0 0; pt 10 0]; [pt 5 5]] |}.

(** The same record with an empty second path. *)
Definition sample_record_empty_path : PatternRecord :=
  {| id := "abc124"; type := "sikku"; symmetry := "rotational";
     complexity := "medium"; grid := sample_grid;
     equations := sample_equations;
     paths := [[pt 0 0; pt 10 0]; []] |}.

Definition sample_canvas : Canvas.Context2D :=
  Canvas.fresh (Number.of_Z 400) (Number.of_Z 400).

Definition sample_file : File :=
  {| file_name := "kolam.png"; file_type := "image/png" |}.

(** The page after an upload that the service answered with [r]. *)
Definition sample_loaded (r : PatternRecord) : World :=
  handleFileUpload_then sample_toString
    (Fulfilled {| analyze_success := true; analyze_data := Some r;
                  analyze_error := None |})
    (handleFileUpload sample_file (script_start (Some sample_canvas))).

(** Play, then the first three frames: the segment of the first path is
    drawn, the first path is left, the second path is left. *)
Definition sample_three_frames : list Event :=
  [EvPlayPause;
   EvFrame 1 (Number.of_Z 100);
   EvFrame 2 (Number.of_Z 200);
   EvFrame 3 (Number.of_Z 300)].

(** In the middle of the animation: after play and one accepted frame. *)
Definition sample_midway : World :=
  run sample_toString [EvPlayPause; EvFrame 1 (Number.of_Z 100)]
    (sample_loaded sample_record).

(** The animation of [sample_record] run to its end. *)
Definition sample_complete : World :=
  run sample_toString sample_three_frames (sample_loaded sample_record).

(** Just after the play click: playing, the first frame pending. *)
Definition sample_playing : World :=
  run sample_toString [EvPlayPause] (sample_loaded sample_record).

(** A play click once the animation has run to its end. *)
Definition sample_replayed : World :=
  run sample_toString (sample_three_frames ++ [EvPlayPause])
    (sample_loaded sample_record).

(** The slider at 0, then play. *)
Definition sample_zero_speed : World :=
  run sample_toString [EvSpeed (Number.of_Z 0); EvPlayPause]
    (sample_loaded sample_record).

(** The speed set to -1. *)
Definition sample_negative_speed : World :=
  run sample_toString [EvSpeed (Number.of_Z (-1))]
    (sample_loaded sample_record).

(** The record with an empty second path, played until the first path
    has been left. *)
Definition sample_on_empty_path : World :=
  run sample_toString
    [EvPlayPause; EvFrame 1 (Number.of_Z 100); EvFrame 2 (Number.of_Z 200)]
    (sample_loaded sample_record_empty_path).

Definition sample_failure : AnalyzeResult :=
  {| analyze_success := false; analyze_data := None;
     analyze_error := Some "No kolam pattern found" |}.

Definition sample_export_ok : ExportResult :=
  {| export_success := true; export_svg := Some "<svg></svg>";
     export_error := None |}.


(** A page without a canvas, after the same upload and a play click. *)
Definition sample_no_canvas : World :=
  run sample_toString [EvPlayPause]
    (handleFileUpload_then sample_toString
       (Fulfilled {| analyze_success := true;
                     analyze_data := Some sample_record;
                     analyze_error := None |})
       (handleFileUpload sample_file (script_start None))).

(** A play click on a page that has no record yet. *)
Definition sample_no_record : World :=
  togglePlayPause (script_start (Some sample_canvas)).

(** The slider handing over [NaN], as [parseFloat] does for an empty
    value. *)
Definition sample_nan_speed : World :=
  run sample_toString [EvSpeed Number.NaN; EvPlayPause]
    (sample_loaded sample_record).

Definition sample_success (r : PatternRecord) : AnalyzeResult :=
  {| analyze_success := true; analyze_data := Some r;
     analyze_error := None |}.

Definition sample_success_no_data : AnalyzeResult :=
  {| analyze_success := true; analyze_data := None;
     analyze_error := None |}.

Definition sample_text_file : File :=
  {| file_name := "notes.txt"; file_type := "text/plain" |}.

(** Timestamps 100, 200, 300: each 100 after the one before. *)
Definition sample_timestamps : list num :=
  [Number.of_Z 100; Number.of_Z 200; Number.of_Z 300].


(** Timestamps 200, 300, 400. *)
Definition sample_later_timestamps : list num :=
  [Number.of_Z 200; Number.of_Z 300; Number.of_Z 400].

(** The canvas as it is in the middle of the animation. *)
Definition sample_midway_canvas : Canvas.Context2D :=
  default sample_canvas (ctx sample_midway).

(** Two files sent before the first answer arrives; play after the
    first answer; then the second answer. *)
Definition sample_second_answer : World :=
  handleFileUpload_then sample_toString
    (Fulfilled (sample_success sample_record))
    (togglePlayPause
       (handleFileUpload_then sample_toString
          (Fulfilled (sample_success sample_record))
          (handleFileUpload sample_file
             (handleFileUpload sample_file
                (script_start (Some sample_canvas)))))).

(** Play again after the second answer. *)
Definition sample_two_pending : World := togglePlayPause sample_second_answer.

(** * Properties *)

(** ** Facts of binary64 arithmetic used below *)

Module NumberFacts.

Lemma compare_antisym (x y : num) :
  SFcompare y x = CompOpp <$> SFcompare x y.
Proof.
  destruct x as [sx|sx| |sx mx ex], y as [sy|sy| |sy my ey]; simpl;
    repeat match goal with b : bool |- _ => destruct b end;
    simpl; try reflexivity;
    rewrite (Z.compare_antisym ex ey); destruct (ex ?= ey); simpl;
    try reflexivity;
    rewrite (Pos.compare_cont_antisym mx my Eq); simpl;
    try rewrite CompOpp_involutive; reflexivity.
Qed.

Lemma compare_defined (x y : num) :
  Number.isNaN x = false -> Number.isNaN y = false ->
  exists c, SFcompare x y = Some c.
Proof.
  destruct x, y; simpl; intros Hx Hy; try discriminate; eauto.
Qed.

(** Where neither side is NaN, [x < y] fails exactly when [y <= x]. *)
Lemma ltb_false_leb (x y : num) :
  Number.isNaN x = false -> Number.isNaN y = false ->
  Number.ltb x y = false <-> Number.leb y x = true.
Proof.
  intros Hx Hy. unfold Number.ltb, Number.leb, SFltb, SFleb.
  rewrite (compare_antisym x y).
  destruct (compare_defined x y Hx Hy) as [c ->]; simpl.
  destruct c; simpl; split; congruence.
Qed.

(** Every finite number, and [-Infinity], is below [Infinity]. *)
Lemma ltb_Infinity (x : num) :
  Number.isFinite x = true -> Number.ltb x Number.Infinity = true.
Proof.
  destruct x as [s|s| |s m e]; simpl; try discriminate; intros _;
    destruct s; reflexivity.
Qed.

(** ... and nothing else is, apart from [-Infinity]. *)
Lemma ltb_Infinity_inv (x : num) :
  Number.ltb x Number.Infinity = true ->
  Number.isFinite x = true \/ x = S754_infinity true.
Proof.
  destruct x as [s|s| |s m e]; simpl; try discriminate; auto.
  destruct s; [auto | discriminate].
Qed.

(** Rounding keeps the sign it is given. *)
Lemma round_sign (sx : bool) (mx ex : Z) (lx : location) :
  match binary_round_aux Number.prec Number.emax sx mx ex lx with
  | S754_zero s | S754_infinity s | S754_finite s _ _ => s = sx
  | S754_nan => True
  end.
Proof.
  unfold binary_round_aux.
  destruct (shr_fexp Number.prec Number.emax mx ex lx) as [mrs' e'].
  destruct (shr_fexp Number.prec Number.emax _ e' loc_Exact) as [mrs'' e''].
  destruct (shr_m mrs''); [reflexivity| |exact I].
  destruct (e'' <=? Number.emax - Number.prec); reflexivity.
Qed.

Lemma shr_1_nonneg (mrs : shr_record) :
  0 <= shr_m mrs -> 0 <= shr_m (shr_1 mrs).
Proof.
  destruct mrs as [m r s]; simpl.
  destruct m as [|p|p]; simpl; [lia| |lia].
  destruct p; simpl; lia.
Qed.

Lemma iter_shr_1_nonneg (p : positive) : forall mrs : shr_record,
  0 <= shr_m mrs -> 0 <= shr_m (SpecFloat.iter_pos shr_1 p mrs).
Proof.
  induction p as [p IH|p IH|]; intros mrs H; simpl.
  - apply IH, IH, shr_1_nonneg, H.
  - apply IH, IH, H.
  - apply shr_1_nonneg, H.
Qed.

Lemma shr_fexp_nonneg (m e : Z) (l : location) :
  0 <= m -> 0 <= shr_m (fst (shr_fexp Number.prec Number.emax m e l)).
Proof.
  intros Hm. unfold shr_fexp, shr.
  assert (H0 : 0 <= shr_m (shr_record_of_loc m l)).
  { destruct l as [|[]]; simpl; exact Hm. }
  destruct (fexp Number.prec Number.emax (Zdigits2 m + e) - e);
    simpl; try exact H0.
  apply iter_shr_1_nonneg, H0.
Qed.

Lemma round_nearest_even_nonneg (m : Z) (l : location) :
  0 <= m -> 0 <= round_nearest_even m l.
Proof.
  intros Hm. destruct l as [|[]]; simpl; try lia.
  destruct (Z.even m); lia.
Qed.

(** Rounding a non-negative mantissa never yields NaN. *)
Lemma round_not_nan (sx : bool) (mx ex : Z) (lx : location) :
  0 <= mx ->
  Number.isNaN (binary_round_aux Number.prec Number.emax sx mx ex lx) = false.
Proof.
  intros Hm. unfold binary_round_aux.
  pose proof (shr_fexp_nonneg mx ex lx Hm) as H1.
  destruct (shr_fexp Number.prec Number.emax mx ex lx) as [mrs' e'];
    simpl in H1.
  pose proof (shr_fexp_nonneg
                (round_nearest_even (shr_m mrs') (loc_of_shr_record mrs'))
                e' loc_Exact (round_nearest_even_nonneg _ _ H1)) as H2.
  destruct (shr_fexp Number.prec Number.emax _ e' loc_Exact) as [mrs'' e''];
    simpl in H2.
  destruct (shr_m mrs''); [reflexivity| |lia].
  destruct (e'' <=? Number.emax - Number.prec); reflexivity.
Qed.

Lemma div_core_nonneg (m1 m2 : positive) (e1 e2 : Z) :
  0 <= fst (fst (SFdiv_core_binary Number.prec Number.emax
                   (Z.pos m1) e1 (Z.pos m2) e2)).
Proof.
  unfold SFdiv_core_binary.
  set (s := _ - _ - _).
  set (m' := match s with
             | Z0 => Z.pos m1
             | Zpos _ => Z.shiftl (Z.pos m1) s
             | Zneg _ => 0
             end).
  assert (Hm' : 0 <= m').
  { subst m'. destruct s; try lia. apply Z.shiftl_nonneg. lia. }
  pose proof (Z_div_mod m' (Z.pos m2) eq_refl) as H.
  destruct (Z.div_eucl m' (Z.pos m2)) as [q r]; simpl.
  destruct H as [H1 H2]. nia.
Qed.

(** The quotient of two finite non-zero numbers is a number, and its
    sign is the product of their signs. *)
Lemma div_finite (sx sy : bool) (mx my : positive) (ex ey : Z) :
  match Number.div (S754_finite sx mx ex) (S754_finite sy my ey) with
  | S754_zero s | S754_infinity s | S754_finite s _ _ => s = xorb sx sy
  | S754_nan => False
  end.
Proof.
  unfold Number.div; simpl.
  pose proof (div_core_nonneg mx my ex ey) as H.
  destruct (SFdiv_core_binary Number.prec Number.emax
              (Z.pos mx) ex (Z.pos my) ey) as [[mz ez] lz].
  simpl in H.
  pose proof (round_sign (xorb sx sy) mz ez lz) as Hs.
  pose proof (round_not_nan (xorb sx sy) mz ez lz H) as Hn.
  destruct (binary_round_aux _ _ _ mz ez lz); try exact Hs.
  discriminate Hn.
Qed.

(** The difference of two finite numbers is a number. *)
Lemma sub_finite_not_nan (x y : num) :
  Number.isFinite x = true -> Number.isFinite y = true ->
  Number.isNaN (Number.sub x y) = false.
Proof.
  unfold Number.sub.
  destruct x as [sx|sx| |sx mx ex], y as [sy|sy| |sy my ey]; simpl;
    try discriminate; intros _ _; try reflexivity.
  - destruct sx, sy; reflexivity.
  - unfold binary_normalize.
    destruct (_ - _); [reflexivity| |]; unfold binary_round;
      destruct (shl_align _ _ _) as [mz ez]; apply round_not_nan; lia.
Qed.

Lemma frameDelay_value : frameDelay = S754_finite false 7036874417766400 (-47).
Proof. vm_compute. reflexivity. Qed.

(** For a positive speed the threshold [50 / speed] is a number and is
    not negative. *)
Lemma delay_of_positive_speed (s : num) :
  Number.ltb Number.zero s = true ->
  Number.nonneg (Number.div frameDelay s) = true.
Proof.
  rewrite frameDelay_value.
  destruct s as [sg|sg| |sg m e]; try discriminate.
  - destruct sg; [discriminate | reflexivity].
  - destruct sg; [discriminate | intros _].
    pose proof (div_finite false false 7036874417766400 m (-47) e) as H.
    destruct (Number.div _ _) as [s'|s'| |s' m' e']; simpl in H;
      try contradiction; subst s'; reflexivity.
Qed.

(** For a negative speed the threshold is NaN-free and carries the sign
    bit, so no non-negative elapsed time is below it. *)
Lemma delay_of_negative_speed (s x : num) :
  Number.ltb s Number.zero = true ->
  Number.nonneg x = true ->
  Number.ltb x (Number.div frameDelay s) = false.
Proof.
  rewrite frameDelay_value.
  destruct s as [sg|sg| |sg m e]; try discriminate.
  - destruct sg; [intros _ | discriminate].
    destruct x as [[]|[]| |[] ? ?]; cbv; intros; congruence.
  - destruct sg; [intros _ | discriminate].
    pose proof (div_finite false true 7036874417766400 m (-47) e) as H.
    destruct (Number.div _ _) as [s'|s'| |s' m' e']; simpl in H;
      try contradiction; subst s';
      destruct x as [[]|[]| |[] ? ?]; cbv; intros; congruence.
Qed.

Lemma nonneg_not_nan (x : num) :
  Number.nonneg x = true -> Number.isNaN x = false.
Proof. destruct x as [?|[]| |[] ? ?]; simpl; congruence. Qed.

End NumberFacts.

(** ** The frame procedure, case by case *)

#[local] Set Warnings "-clear-no-such-hyp".

Section Properties.

Variable Number_toString : num -> string.

Lemma animate_paused (ts : num) (w : World) :
  playing w = false -> animate ts w = w.
Proof. unfold animate, playing. intros ->. reflexivity. Qed.

Lemma animate_throttled (ts : num) (w : World) :
  playing w = true -> throttled ts w = true -> animate ts w = schedule w.
Proof. unfold animate, playing. intros -> ->. reflexivity. Qed.

(** What no call of [animate] touches. *)
Lemma animate_frame (ts : num) (w : World) :
  kolamData (animate ts w) = kolamData w /\
  speed (animationState (animate ts w)) = speed (animationState w) /\
  alerts (animate ts w) = alerts w /\
  downloads (animate ts w) = downloads w /\
  requests (animate ts w) = requests w /\
  classes (animate ts w) = classes w.
Proof.
  unfold animate.
  repeat case_match; unfold_world; repeat split; reflexivity.
Qed.

(** An accepted frame becomes the new baseline. *)
Lemma animate_baseline (ts : num) (w : World) :
  playing w = true -> throttled ts w = false ->
  lastFrameTime (animate ts w) = ts.
Proof.
  unfold animate, playing. intros -> ->. simpl.
  repeat case_match; unfold_world; reflexivity.
Qed.

(** [animate] only ever adds to what is on the canvas. *)
Lemma animate_surface_grows (ts : num) (w : World) :
  exists more, surface (animate ts w) = surface w ++ more.
Proof.
  unfold animate.
  repeat case_match; unfold_world;
    repeat match goal with H : ?x = _ |- context [?x] => rewrite H end;
    try (exists []; rewrite app_nil_r; reflexivity).
  eexists. unfold stroke_and_highlight, disk, segment_pen. simpl.
  rewrite <- app_assoc. reflexivity.
Qed.

(** ** C2: frame-rate throttling *)

(** C2.  While playing, a frame callback whose elapsed time since the
    last accepted frame is below [50 / speed] only reschedules itself:
    nothing is drawn, the cursor and the baseline [lastFrameTime] stay as
    they are.  Hence, for a positive speed and finite timestamps, a frame
    is accepted exactly when [50 / speed <= timestamp - lastFrameTime],
    and an accepted frame becomes the baseline of the next comparison.
    At speed 1 the threshold is 50, at speed 2 it is 25, half of it. *)
Theorem animate_throttle :
  (forall (w : World) (ts : num),
     playing w = true -> throttled ts w = true ->
     animate ts w = schedule w /\
     surface (animate ts w) = surface w /\
     cursor (animate ts w) = cursor w /\
     lastFrameTime (animate ts w) = lastFrameTime w /\
     playing (animate ts w) = true /\
     pendingFrames (animate ts w) = pendingFrames w ∪ {[ nextFrameId w ]} /\
     animationId (animationState (animate ts w)) = Some (nextFrameId w)) /\
  (forall (w : World) (ts : num),
     playing w = true ->
     Number.ltb Number.zero (speed (animationState w)) = true ->
     Number.isFinite ts = true ->
     Number.isFinite (lastFrameTime w) = true ->
     (throttled ts w = false <->
      Number.leb (Number.div frameDelay (speed (animationState w)))
                 (Number.sub ts (lastFrameTime w)) = true) /\
     (throttled ts w = false -> lastFrameTime (animate ts w) = ts)) /\
  Number.div frameDelay (Number.of_Z 1) = Number.of_Z 50 /\
  Number.div frameDelay (Number.of_Z 2) = Number.of_Z 25 /\
  Number.div frameDelay (Number.of_Z 2)
  = Number.div (Number.div frameDelay (Number.of_Z 1)) (Number.of_Z 2).
Proof.
  split; [|split; [|repeat split; vm_compute; reflexivity]].
  - intros w ts Hp Ht. rewrite (animate_throttled ts w Hp Ht).
    unfold playing in Hp. unfold_world. rewrite Hp.
    repeat split; reflexivity.
  - intros w ts Hp Hs Hts Hlast. split.
    + unfold throttled. apply NumberFacts.ltb_false_leb.
      * apply NumberFacts.sub_finite_not_nan; assumption.
      * apply NumberFacts.nonneg_not_nan,
          NumberFacts.delay_of_positive_speed, Hs.
    + apply animate_baseline, Hp.
Qed.

Lemma js_index_bound {A : Type} (l : list A) (i : Z) (x : A) :
  js_index l i = Some x -> 0 <= i < Z.of_nat (length l).
Proof.
  unfold js_index. destruct (Z.ltb_spec i 0) as [|Hi]; [discriminate|].
  intros H. apply lookup_lt_Some in H. lia.
Qed.

Lemma js_index_is_Some {A : Type} (l : list A) (i : Z) :
  0 <= i < Z.of_nat (length l) -> is_Some (js_index l i).
Proof.
  intros Hi. unfold js_index.
  destruct (Z.ltb_spec i 0) as [|_]; [lia|].
  apply lookup_lt_is_Some. lia.
Qed.

Lemma js_index_None {A : Type} (l : list A) (i : Z) :
  js_index l i = None <-> i < 0 \/ Z.of_nat (length l) <= i.
Proof.
  unfold js_index. destruct (Z.ltb_spec i 0) as [|Hi].
  - split; [intros _; lia | reflexivity].
  - rewrite lookup_ge_None. lia.
Qed.

(** The three ways an accepted frame goes on, as equations. *)
Lemma animate_no_path (ts : num) (w : World) (r : PatternRecord) :
  playing w = true -> throttled ts w = false -> kolamData w = Some r ->
  js_index (paths r) (currentPathIndex (animationState w)) = None ->
  animate ts w = complete (with_lastFrameTime ts w).
Proof.
  unfold animate, playing. intros -> -> Hk Hnone. simpl.
  rewrite Hk, Hnone. reflexivity.
Qed.

Lemma animate_draw (ts : num) (w : World) (r : PatternRecord)
    (currentPath : list Point) (c : Canvas.Context2D) (start e : Point) :
  let a := animationState w in
  playing w = true -> throttled ts w = false -> kolamData w = Some r ->
  js_index (paths r) (currentPathIndex a) = Some currentPath ->
  currentPointIndex a < Z.of_nat (length currentPath) - 1 ->
  ctx w = Some c ->
  js_index currentPath (currentPointIndex a) = Some start ->
  js_index currentPath (currentPointIndex a + 1) = Some e ->
  animate ts w =
  schedule
    (set_currentPointIndex (currentPointIndex a + 1)
       (with_ctx
          (Some (stroke_and_highlight e
                   (Canvas.lineTo (fst e) (snd e)
                      (Canvas.moveTo (fst start) (snd start)
                         (segment_pen c)))))
          (with_lastFrameTime ts w))).
Proof.
  intros a. subst a. unfold animate, playing.
  intros -> -> Hk Hpath Hlt Hc Hs He. simpl. rewrite Hk, Hpath.
  destruct (Z.ltb_spec (currentPointIndex (animationState w))
              (Z.of_nat (length currentPath) - 1)) as [_|]; [|lia].
  rewrite Hc, Hs, He. reflexivity.
Qed.

Lemma animate_next_path (ts : num) (w : World) (r : PatternRecord)
    (currentPath : list Point) :
  let a := animationState w in
  let w1 :=
    set_currentPointIndex 0
      (set_currentPathIndex (currentPathIndex a + 1)
         (with_lastFrameTime ts w)) in
  playing w = true -> throttled ts w = false -> kolamData w = Some r ->
  js_index (paths r) (currentPathIndex a) = Some currentPath ->
  ~ currentPointIndex a < Z.of_nat (length currentPath) - 1 ->
  animate ts w =
  if currentPathIndex a + 1 >=? Z.of_nat (length (paths r))
  then complete w1 else schedule w1.
Proof.
  intros a w1. subst a w1. unfold animate, playing.
  intros -> -> Hk Hpath Hge. simpl. rewrite Hk, Hpath.
  destruct (Z.ltb_spec (currentPointIndex (animationState w))
              (Z.of_nat (length currentPath) - 1)) as [|_]; [lia|].
  reflexivity.
Qed.

(** ** C1: what an accepted frame does *)

(** C1 (amended).  For every accepted frame while playing, with a record
    on display and a non-negative point index, the timestamp becomes the
    baseline and:
    - if a current path exists and has a next point, and the page has a
      canvas, the segment from the current point to the next one is
      stroked (white, width 3, round caps and joins, orange glow of blur
      10), a disk of radius 6 is filled at the end point, the point
      index goes up by one, the path index stays, and the next frame is
      scheduled;
    - if a current path exists and has no next point, nothing is drawn,
      the path index goes up by one and the point index returns to zero;
      when that exhausts the paths, playback stops with the play glyph
      and nothing is scheduled, otherwise the next frame is scheduled;
    - in particular a path of fewer than two points is left in this one
      frame with nothing drawn;
    - if no current path exists (the path index already equals the
      number of paths), playback stops with the play glyph, nothing is
      drawn, nothing is scheduled and the cursor does not move. *)
Theorem animate_accepted_frame
    (w : World) (ts : num) (r : PatternRecord) :
  playing w = true ->
  throttled ts w = false ->
  kolamData w = Some r ->
  0 <= currentPointIndex (animationState w) ->
  let a := animationState w in
  let w' := animate ts w in
  lastFrameTime w' = ts /\
  (forall (currentPath : list Point) (c : Canvas.Context2D),
     js_index (paths r) (currentPathIndex a) = Some currentPath ->
     currentPointIndex a < Z.of_nat (length currentPath) - 1 ->
     ctx w = Some c ->
     exists (start e : Point) (p1 p2 : Canvas.Pen),
       js_index currentPath (currentPointIndex a) = Some start /\
       js_index currentPath (currentPointIndex a + 1) = Some e /\
       surface w' =
         surface w ++
         [Canvas.Stroke p1 [Canvas.MoveTo (fst start) (snd start);
                            Canvas.LineTo (fst e) (snd e)];
          Canvas.Fill p2 [Canvas.Arc (fst e) (snd e) (Number.of_Z 6)
                            (Number.of_Z 0) two_pi]] /\
       Canvas.strokeStyle p1 = "#fff" /\
       Canvas.lineWidth p1 = Number.of_Z 3 /\
       Canvas.lineCap p1 = "round" /\
       Canvas.lineJoin p1 = "round" /\
       Canvas.shadowBlur p1 = Number.of_Z 10 /\
       Canvas.shadowColor p1 = "#FFA500" /\
       Canvas.fillStyle p2 = "#FF6347" /\
       Canvas.shadowBlur p2 = Number.of_Z 0 /\
       cursor w' = (currentPathIndex a, currentPointIndex a + 1) /\
       playing w' = true /\
       pendingFrames w' = pendingFrames w ∪ {[ nextFrameId w ]}) /\
  (forall currentPath : list Point,
     js_index (paths r) (currentPathIndex a) = Some currentPath ->
     ~ currentPointIndex a < Z.of_nat (length currentPath) - 1 ->
     cursor w' = (currentPathIndex a + 1, 0) /\
     surface w' = surface w /\
     (Z.of_nat (length (paths r)) <= currentPathIndex a + 1 ->
      playing w' = false /\ playIcon w' = Some glyph_play /\
      pendingFrames w' = pendingFrames w) /\
     (currentPathIndex a + 1 < Z.of_nat (length (paths r)) ->
      playing w' = true /\
      pendingFrames w' = pendingFrames w ∪ {[ nextFrameId w ]})) /\
  (forall currentPath : list Point,
     js_index (paths r) (currentPathIndex a) = Some currentPath ->
     (length currentPath < 2)%nat ->
     cursor w' = (currentPathIndex a + 1, 0) /\ surface w' = surface w) /\
  (js_index (paths r) (currentPathIndex a) = None ->
   cursor w' = cursor w /\ surface w' = surface w /\
   playing w' = false /\ playIcon w' = Some glyph_play /\
   pendingFrames w' = pendingFrames w).
Proof.
  intros Hp Ht Hk Hpt a w'. subst a w'.
  assert (Hnext : forall currentPath : list Point,
    js_index (paths r) (currentPathIndex (animationState w)) = Some currentPath ->
    ~ currentPointIndex (animationState w) < Z.of_nat (length currentPath) - 1 ->
    cursor (animate ts w) = (currentPathIndex (animationState w) + 1, 0) /\
    surface (animate ts w) = surface w /\
    (Z.of_nat (length (paths r)) <= currentPathIndex (animationState w) + 1 ->
     playing (animate ts w) = false /\
     playIcon (animate ts w) = Some glyph_play /\
     pendingFrames (animate ts w) = pendingFrames w) /\
    (currentPathIndex (animationState w) + 1 < Z.of_nat (length (paths r)) ->
     playing (animate ts w) = true /\
     pendingFrames (animate ts w) = pendingFrames w ∪ {[ nextFrameId w ]})).
  { intros currentPath Hpath Hge.
    rewrite (animate_next_path ts w r currentPath Hp Ht Hk Hpath Hge).
    unfold playing in Hp.
    destruct (Z.geb_spec (currentPathIndex (animationState w) + 1)
                (Z.of_nat (length (paths r)))) as [Hend|Hmore];
      unfold_world; rewrite ?Hp; repeat split; try reflexivity; try lia;
      apply lookup_insert_eq. }
  split; [apply animate_baseline; assumption|].
  split; [|split; [exact Hnext|split]].
  - intros currentPath c Hpath Hlt Hc.
    destruct (js_index_is_Some currentPath
                (currentPointIndex (animationState w))) as [start Hs]; [lia|].
    destruct (js_index_is_Some currentPath
                (currentPointIndex (animationState w) + 1)) as [e He]; [lia|].
    rewrite (animate_draw ts w r currentPath c start e Hp Ht Hk Hpath Hlt Hc Hs He).
    exists start, e. unfold playing in Hp.
    unfold_world. rewrite Hc, Hp.
    unfold stroke_and_highlight, disk, segment_pen. simpl.
    do 2 eexists.
    split; [exact Hs|]. split; [exact He|].
    split; [rewrite <- app_assoc; reflexivity|].
    repeat split; reflexivity.
  - intros currentPath Hpath Hshort.
    destruct (Hnext currentPath Hpath) as (H1 & H2 & _); [lia|].
    split; assumption.
  - intros Hnone. rewrite (animate_no_path ts w r Hp Ht Hk Hnone).
    unfold_world. repeat split; try reflexivity.
    apply lookup_insert_eq.
Qed.

(** ** Invariants of the animation machine *)

(** What redrawing leaves alone. *)
Lemma drawGridDots_frame (w : World) :
  kolamData (drawGridDots w) = kolamData w /\
  animationState (drawGridDots w) = animationState w /\
  pendingFrames (drawGridDots w) = pendingFrames w /\
  nextFrameId (drawGridDots w) = nextFrameId w /\
  textContent (drawGridDots w) = textContent w /\
  lastFrameTime (drawGridDots w) = lastFrameTime w.
Proof.
  unfold drawGridDots. repeat case_match; simpl; repeat split; congruence.
Qed.

Lemma initializeCanvas_frame (w : World) :
  kolamData (initializeCanvas w) = kolamData w /\
  pendingFrames (initializeCanvas w) = pendingFrames w /\
  nextFrameId (initializeCanvas w) = nextFrameId w /\
  animationId (animationState (initializeCanvas w))
  = animationId (animationState w) /\
  speed (animationState (initializeCanvas w)) = speed (animationState w) /\
  lastFrameTime (initializeCanvas w) = lastFrameTime w.
Proof.
  unfold initializeCanvas. destruct (ctx w) as [c|]; [|repeat split; reflexivity].
  simpl.
  match goal with |- context [drawGridDots ?x] =>
    destruct (drawGridDots_frame x) as (-> & -> & -> & -> & _ & ->) end.
  simpl. repeat split; reflexivity.
Qed.

Lemma initializeCanvas_cursor (w : World) (c : Canvas.Context2D) :
  ctx w = Some c ->
  cursor (initializeCanvas w) = (0, 0) /\
  playing (initializeCanvas w) = false /\
  playIcon (initializeCanvas w) = Some glyph_play.
Proof.
  intros Hc. unfold initializeCanvas. rewrite Hc. unfold_world.
  repeat split; try reflexivity. apply lookup_insert_eq.
Qed.

Lemma resetAnimation_cursor (w : World) :
  cursor (resetAnimation w) = (0, 0) /\
  playing (resetAnimation w) = false /\
  playIcon (resetAnimation w) = Some glyph_play.
Proof.
  unfold resetAnimation. cbv zeta.
  set (w1 := setText "playIcon" glyph_play _).
  assert (H1 : cursor w1 = (0, 0) /\ playing w1 = false /\
               playIcon w1 = Some glyph_play).
  { subst w1. unfold_world. repeat split; try reflexivity.
    apply lookup_insert_eq. }
  clearbody w1.
  destruct (ctx w1) as [c|] eqn:Hc.
  - exact (initializeCanvas_cursor w1 c Hc).
  - unfold initializeCanvas. rewrite Hc. exact H1.
Qed.

Lemma cancel_pending_frame (w : World) :
  kolamData (cancel_pending w) = kolamData w /\
  animationState (cancel_pending w) = animationState w /\
  nextFrameId (cancel_pending w) = nextFrameId w /\
  ctx (cancel_pending w) = ctx w /\
  textContent (cancel_pending w) = textContent w /\
  lastFrameTime (cancel_pending w) = lastFrameTime w.
Proof.
  unfold cancel_pending. repeat case_match; simpl; repeat split; congruence.
Qed.

(** Cancelling the tracked handle leaves nothing pending. *)
Lemma cancel_pending_clears (w : World) :
  (pendingFrames w = ∅ \/
   exists h : Z,
     pendingFrames w = {[ h ]} /\
     animationId (animationState w) = Some h /\ h <> 0) ->
  pendingFrames (cancel_pending w) = ∅.
Proof.
  intros [Hnone|(h & Hone & Hid & Hh)]; unfold cancel_pending.
  - repeat case_match; simpl; rewrite ?Hnone; set_solver.
  - rewrite Hid. destruct (Z.eqb_spec h 0) as [|_]; [contradiction|].
    simpl. rewrite Hone. set_solver.
Qed.

Lemma tracked_handle (w : World) :
  frames_tracked w ->
  pendingFrames w = ∅ \/
  exists h : Z,
    pendingFrames w = {[ h ]} /\
    animationId (animationState w) = Some h /\ h <> 0.
Proof.
  intros [_ [Hnone|(h & Hone & Hid & Hh & _)]]; [left|right]; eauto.
Qed.

Lemma animate_tracked (ts : num) (w : World) :
  0 < nextFrameId w -> pendingFrames w = ∅ ->
  frames_tracked (animate ts w).
Proof.
  intros Hn He. unfold animate, frames_tracked.
  repeat case_match; unfold_world;
    (split; [lia|]);
    try (left; assumption);
    right; exists (nextFrameId w); rewrite He;
    (split; [set_solver|]); (split; [reflexivity|]); (split; [lia|]);
    match goal with H : negb _ = false |- _ =>
      apply negb_false_iff in H; exact H end.
Qed.

Lemma togglePlayPause_tracked (w : World) :
  frames_tracked w -> frames_tracked (togglePlayPause w).
Proof.
  intros Hw. unfold togglePlayPause. simpl.
  destruct (isPlaying (animationState w)) eqn:Hp; simpl.
  - split.
    + destruct (cancel_pending_frame
                  (setText "playIcon" glyph_play (set_isPlaying false w)))
        as (_ & _ & -> & _).
      simpl. apply Hw.
    + left. apply cancel_pending_clears. simpl.
      exact (tracked_handle w Hw).
  - apply animate_tracked; simpl; [apply Hw|].
    destruct Hw as [_ [Hnone|(h & _ & _ & _ & Hplay)]]; [exact Hnone|].
    unfold playing in Hplay. congruence.
Qed.

Lemma resetAnimation_frames (w : World) :
  pendingFrames (resetAnimation w) = pendingFrames (cancel_pending w) /\
  nextFrameId (resetAnimation w) = nextFrameId w /\
  kolamData (resetAnimation w) = kolamData w /\
  speed (animationState (resetAnimation w)) = speed (animationState w) /\
  lastFrameTime (resetAnimation w) = lastFrameTime w.
Proof.
  unfold resetAnimation. cbv zeta.
  match goal with |- context [initializeCanvas ?x] =>
    destruct (initializeCanvas_frame x) as (-> & -> & -> & _ & -> & ->) end.
  simpl.
  destruct (cancel_pending_frame w) as (-> & -> & -> & _ & _ & ->).
  repeat split; reflexivity.
Qed.

Lemma resetAnimation_tracked (w : World) :
  frames_tracked w -> frames_tracked (resetAnimation w).
Proof.
  intros Hw. destruct (resetAnimation_frames w) as (Hp & Hn & _).
  split; [rewrite Hn; apply Hw|].
  left. rewrite Hp. apply cancel_pending_clears, tracked_handle, Hw.
Qed.

Lemma step_tracked (e : Event) (w : World) :
  frames_tracked w -> frames_tracked (step Number_toString e w).
Proof.
  intros Hw. destruct e as [h ts| | |v]; simpl.
  - case_decide as Hin; [|exact Hw].
    apply animate_tracked; simpl; [apply Hw|].
    destruct Hw as [_ [Hnone|(h' & Hone & _)]].
    + rewrite Hnone. set_solver.
    + rewrite Hone in *. set_solver.
  - apply togglePlayPause_tracked, Hw.
  - apply resetAnimation_tracked, Hw.
  - exact Hw.
Qed.

Lemma run_snoc (es : list Event) (e : Event) (w : World) :
  run Number_toString (es ++ [e]) w
  = step Number_toString e (run Number_toString es w).
Proof. unfold run. rewrite foldl_app. reflexivity. Qed.

Lemma run_cons (es : list Event) (e : Event) (w : World) :
  run Number_toString (e :: es) w
  = run Number_toString es (step Number_toString e w).
Proof. reflexivity. Qed.

(** The tracking of the pending frame survives every run of the
    animation machine. *)
Lemma run_tracked (es : list Event) : forall w : World,
  frames_tracked w -> frames_tracked (run Number_toString es w).
Proof.
  induction es as [|e es IH]; intros w Hw; [exact Hw|].
  rewrite run_cons. apply IH, step_tracked, Hw.
Qed.

Lemma script_start_tracked (c : option Canvas.Context2D) :
  frames_tracked (script_start c).
Proof. split; [reflexivity | left; reflexivity]. Qed.

Lemma togglePlayPause_kolamData (w : World) :
  kolamData (togglePlayPause w) = kolamData w.
Proof.
  unfold togglePlayPause. cbv zeta. case_match.
  - destruct (animate_frame (Number.of_Z 0)
                (setText "playIcon" glyph_pause
                   (set_isPlaying (negb (isPlaying (animationState w))) w)))
      as (-> & _). reflexivity.
  - match goal with |- context [cancel_pending ?x] =>
      destruct (cancel_pending_frame x) as (-> & _) end. reflexivity.
Qed.

Lemma step_kolamData (e : Event) (w : World) :
  kolamData (step Number_toString e w) = kolamData w.
Proof.
  destruct e as [h ts| | |v]; simpl.
  - case_decide; [|reflexivity].
    match goal with |- context [animate ts ?x] =>
      destruct (animate_frame ts x) as (-> & _) end. reflexivity.
  - apply togglePlayPause_kolamData.
  - apply resetAnimation_frames.
  - reflexivity.
Qed.

Lemma run_kolamData (es : list Event) : forall w : World,
  kolamData (run Number_toString es w) = kolamData w.
Proof.
  induction es as [|e es IH]; intros w; [reflexivity|].
  rewrite run_cons, IH. apply step_kolamData.
Qed.

Lemma displayResults_frames (w : World) :
  match displayResults Number_toString w with
  | Normal w' | Throws _ w' =>
    pendingFrames w' = pendingFrames w /\ nextFrameId w' = nextFrameId w
  end.
Proof.
  unfold displayResults. cbv zeta. simpl.
  destruct (kolamData w) as [r|]; simpl; [|split; reflexivity].
  match goal with |- context [initializeCanvas ?x] =>
    destruct (initializeCanvas_frame x) as (_ & -> & -> & _) end.
  split; reflexivity.
Qed.

Lemma handleFileUpload_then_frames (s : Settled AnalyzeResult) (w : World) :
  pendingFrames (handleFileUpload_then Number_toString s w) = pendingFrames w /\
  nextFrameId (handleFileUpload_then Number_toString s w) = nextFrameId w.
Proof.
  unfold handleFileUpload_then.
  destruct s as [result|reason]; [|split; reflexivity].
  destruct (analyze_success result); [|split; reflexivity].
  pose proof (displayResults_frames
                (with_kolamData (analyze_data result) w)) as H.
  destruct (displayResults Number_toString _) as [w'|e w']; exact H.
Qed.

(** On a fresh page, after any answer to an upload, and from there
    through every run of the animation machine, the pending frame is the
    tracked one. *)
Lemma page_run_tracked
    (c : option Canvas.Context2D) (f : File) (s : Settled AnalyzeResult)
    (es : list Event) :
  frames_tracked
    (run Number_toString es
       (handleFileUpload_then Number_toString s
          (handleFileUpload f (script_start c)))).
Proof.
  apply run_tracked.
  destruct (handleFileUpload_then_frames s
              (handleFileUpload f (script_start c))) as (Hp & Hn).
  split; [rewrite Hn; reflexivity | left; rewrite Hp; reflexivity].
Qed.

(** The play click's own call of [animate], at timestamp 0, is throttled
    for every positive speed once a frame with a positive timestamp has
    been accepted, and on a fresh page at the initial speed 1. *)
Lemma play_click_throttled (w : World) :
  Number.ltb Number.zero (speed (animationState w)) = true ->
  Number.ltb Number.zero (lastFrameTime w) = true ->
  Number.isFinite (lastFrameTime w) = true ->
  throttled (Number.of_Z 0) w = true.
Proof.
  intros Hs Hl Hf. unfold throttled.
  pose proof (NumberFacts.delay_of_positive_speed _ Hs) as Hd.
  destruct (lastFrameTime w) as [sg|sg| |sg m e]; try discriminate.
  destruct sg; [discriminate|].
  replace (Number.sub (Number.of_Z 0) (S754_finite false m e))
    with (S754_finite true m e) by reflexivity.
  destruct (Number.div frameDelay (speed (animationState w)))
    as [[]|[]| |[] ? ?]; try discriminate; reflexivity.
Qed.

Lemma first_play_click_throttled (w : World) :
  speed (animationState w) = Number.of_Z 1 ->
  lastFrameTime w = Number.of_Z 0 ->
  throttled (Number.of_Z 0) w = true.
Proof.
  intros Hs Hl. unfold throttled. rewrite Hs, Hl. vm_compute. reflexivity.
Qed.

(** *** The cursor range *)

Lemma animate_in_range (r : PatternRecord) (ts : num) (w : World) :
  kolamData w = Some r ->
  cursor_in_range r w -> cursor_in_range r (animate ts w).
Proof.
  intros Hk Hw. pose proof Hw as (Hpath & Hpt & Hlen). unfold animate.
  destruct (negb (isPlaying (animationState w))); [exact Hw|].
  destruct (throttled ts w); [exact Hw|].
  simpl. rewrite Hk.
  destruct (js_index (paths r) (currentPathIndex (animationState w)))
    as [currentPath|] eqn:Hcur; [|exact Hw].
  destruct (Z.ltb_spec (currentPointIndex (animationState w))
              (Z.of_nat (length currentPath) - 1)) as [Hlt|Hge].
  - repeat case_match; try exact Hw; unfold cursor_in_range; simpl.
    split; [assumption|]. split; [lia|].
    intros cp Hcp. assert (cp = currentPath) as -> by congruence. lia.
  - pose proof (js_index_bound _ _ _ Hcur) as Hb.
    case_match; unfold cursor_in_range; simpl;
      (split; [lia|]); (split; [lia|]); intros; lia.
Qed.

Lemma togglePlayPause_in_range (r : PatternRecord) (w : World) :
  kolamData w = Some r ->
  cursor_in_range r w -> cursor_in_range r (togglePlayPause w).
Proof.
  intros Hk Hw. unfold togglePlayPause. cbv zeta. case_match.
  - apply animate_in_range; [exact Hk | exact Hw].
  - unfold cursor_in_range.
    match goal with |- context [cancel_pending ?x] =>
      destruct (cancel_pending_frame x) as (_ & -> & _) end.
    exact Hw.
Qed.

Lemma start_in_range (r : PatternRecord) (w : World) :
  cursor w = (0, 0) -> cursor_in_range r w.
Proof.
  unfold cursor, cursor_in_range. intros [= -> ->].
  repeat split; intros; lia.
Qed.

Lemma step_in_range (r : PatternRecord) (e : Event) (w : World) :
  kolamData w = Some r ->
  cursor_in_range r w -> cursor_in_range r (step Number_toString e w).
Proof.
  intros Hk Hw. destruct e as [h ts| | |v]; simpl.
  - case_decide; [|exact Hw]. apply animate_in_range; [exact Hk | exact Hw].
  - apply togglePlayPause_in_range; assumption.
  - apply start_in_range, resetAnimation_cursor.
  - exact Hw.
Qed.

Lemma run_in_range (r : PatternRecord) (es : list Event) : forall w : World,
  kolamData w = Some r ->
  cursor_in_range r w -> cursor_in_range r (run Number_toString es w).
Proof.
  induction es as [|e es IH]; intros w Hk Hw; [exact Hw|].
  rewrite run_cons. apply IH.
  - rewrite step_kolamData. exact Hk.
  - apply step_in_range; assumption.
Qed.

(** ** C4: the cursor invariant *)

(** C4 (amended).  For every record and every sequence of frame
    callbacks, play/pause clicks, resets and speed changes, starting
    from the cursor at (0, 0) with that record on display: the record
    stays on display, [currentPathIndex] stays within
    [0 .. paths.length], [currentPointIndex] never goes below zero, and
    while a current path exists [currentPointIndex] is at most
    [max 0 (currentPath.length - 1)]; so it lies within
    [0 .. currentPath.length - 1] whenever the current path is not
    empty, and is 0 on an empty path. *)
Theorem cursor_stays_in_range
    (r : PatternRecord) (w : World) (es : list Event) :
  kolamData w = Some r ->
  cursor w = (0, 0) ->
  let w' := run Number_toString es w in
  let a := animationState w' in
  kolamData w' = Some r /\
  0 <= currentPathIndex a <= Z.of_nat (length (paths r)) /\
  0 <= currentPointIndex a /\
  (forall currentPath : list Point,
     js_index (paths r) (currentPathIndex a) = Some currentPath ->
     currentPointIndex a <= Z.max 0 (Z.of_nat (length currentPath) - 1) /\
     (currentPath <> [] ->
      0 <= currentPointIndex a <= Z.of_nat (length currentPath) - 1) /\
     (currentPath = [] -> currentPointIndex a = 0)).
Proof.
  intros Hk H0 w' a. subst a w'.
  destruct (run_in_range r es w Hk (start_in_range r w H0)) as (Hp & Hq & Hl).
  split; [rewrite run_kolamData; exact Hk|].
  split; [exact Hp|]. split; [exact Hq|].
  intros currentPath Hcur. specialize (Hl currentPath Hcur).
  split; [exact Hl|]. split.
  - intros Hne. destruct currentPath; [contradiction|]. simpl length in *. lia.
  - intros ->. simpl in Hl. lia.
Qed.

(** ** C3: reset *)

Lemma dots_painted (ds : list Point) : forall c : Canvas.Context2D,
  Canvas.painted (foldl (fun c dot => disk 4 dot c) c ds)
  = Canvas.painted c ++
    ((fun d : Point =>
        Canvas.Fill (Canvas.pen c)
          [Canvas.Arc (fst d) (snd d) (Number.of_Z 4) (Number.of_Z 0) two_pi])
     <$> ds).
Proof.
  induction ds as [|d ds IH]; intros c; simpl.
  - rewrite app_nil_r. reflexivity.
  - rewrite IH. simpl. rewrite <- app_assoc. reflexivity.
Qed.

Lemma initializeCanvas_surface (w : World) (c : Canvas.Context2D) :
  ctx w = Some c -> surface (initializeCanvas w) = redrawn w c.
Proof.
  intros Hc. unfold initializeCanvas, redrawn. rewrite Hc. unfold surface.
  simpl. unfold drawGridDots. simpl.
  destruct (kolamData w) as [r|]; simpl.
  - rewrite dots_painted. simpl. rewrite <- app_assoc. reflexivity.
  - reflexivity.
Qed.

Lemma initializeCanvas_ctx (w : World) :
  is_Some (ctx w) -> is_Some (ctx (initializeCanvas w)).
Proof.
  intros [c Hc]. unfold initializeCanvas. rewrite Hc. simpl.
  unfold drawGridDots. simpl. destruct (kolamData w); simpl; eauto.
Qed.

Lemma resetAnimation_surface (w : World) (c : Canvas.Context2D) :
  ctx w = Some c -> surface (resetAnimation w) = redrawn w c.
Proof.
  intros Hc. unfold resetAnimation. cbv zeta.
  set (w1 := setText "playIcon" glyph_play _).
  assert (Hc1 : ctx w1 = Some c).
  { subst w1. simpl.
    destruct (cancel_pending_frame w) as (_ & _ & _ & -> & _). exact Hc. }
  assert (Hk1 : kolamData w1 = kolamData w).
  { subst w1. simpl. apply cancel_pending_frame. }
  clearbody w1. rewrite (initializeCanvas_surface w1 c Hc1).
  unfold redrawn. rewrite Hk1. reflexivity.
Qed.

Lemma resetAnimation_ctx (w : World) :
  is_Some (ctx w) -> is_Some (ctx (resetAnimation w)).
Proof.
  intros Hc. unfold resetAnimation. cbv zeta. apply initializeCanvas_ctx.
  simpl. destruct (cancel_pending_frame w) as (_ & _ & _ & -> & _). exact Hc.
Qed.

(** The result of a reset does not depend on where the cursor was. *)
Lemma resetAnimation_forgets_cursor (w : World) (i j : Z) :
  resetAnimation (set_currentPointIndex j (set_currentPathIndex i w))
  = resetAnimation w.
Proof.
  destruct w as [k a l c t cl f p n al d rq co u].
  destruct a as [pl pa po sp [h|]];
    unfold resetAnimation, cancel_pending; simpl.
  - destruct (h =? 0); reflexivity.
  - reflexivity.
Qed.

(** The state in which the first segment of the first path is still to
    be drawn, or has been drawn first. *)
Lemma animate_first_segment
    (r : PatternRecord) (p0 p1 : Point) (rest : list Point)
    (others : list (list Point)) (base : list Canvas.Paint)
    (ts : num) (w : World) :
  paths r = (p0 :: p1 :: rest) :: others ->
  kolamData w = Some r ->
  (cursor w = (0, 0) /\ surface w = base /\ is_Some (ctx w)) \/
  (exists extra, surface w = base ++ extra /\ extra <> [] /\
                 starts_with_segment p0 p1 extra) ->
  (cursor (animate ts w) = (0, 0) /\ surface (animate ts w) = base /\
   is_Some (ctx (animate ts w))) \/
  (exists extra, surface (animate ts w) = base ++ extra /\ extra <> [] /\
                 starts_with_segment p0 p1 extra).
Proof.
  intros Hpaths Hk [(Hcur & Hsurf & [c Hc])|(extra & Hsurf & Hne & Hseg)].
  - destruct (playing w) eqn:Hp; [|rewrite animate_paused by exact Hp; eauto].
    destruct (throttled ts w) eqn:Ht.
    { rewrite animate_throttled by assumption. left.
      unfold_world. rewrite Hc in *. eauto. }
    right. unfold cursor in Hcur. injection Hcur as Hpi Hpo.
    assert (Hpath : js_index (paths r) (currentPathIndex (animationState w))
                    = Some (p0 :: p1 :: rest)).
    { rewrite Hpi, Hpaths. reflexivity. }
    rewrite (animate_draw ts w r (p0 :: p1 :: rest) c p0 p1 Hp Ht Hk Hpath).
    + unfold surface in *. simpl. rewrite Hc in Hsurf. subst base.
      eexists. split; [rewrite <- app_assoc; reflexivity|].
      split; [discriminate|]. right. eauto.
    + rewrite Hpo. simpl length. lia.
    + exact Hc.
    + rewrite Hpo. reflexivity.
    + rewrite Hpo. reflexivity.
  - right. destruct (animate_surface_grows ts w) as [more Hmore].
    exists (extra ++ more). rewrite Hmore, Hsurf, app_assoc.
    split; [reflexivity|]. split.
    + destruct extra; [contradiction | discriminate].
    + destruct Hseg as [->|(pen & more' & ->)]; [contradiction|].
      right. exists pen, (more' ++ more). reflexivity.
Qed.

Lemma frames_first_segment
    (r : PatternRecord) (p0 p1 : Point) (rest : list Point)
    (others : list (list Point)) (base : list Canvas.Paint)
    (es : list Event) : forall w : World,
  paths r = (p0 :: p1 :: rest) :: others ->
  frames_only (fun _ => True) es ->
  kolamData w = Some r ->
  (cursor w = (0, 0) /\ surface w = base /\ is_Some (ctx w)) \/
  (exists extra, surface w = base ++ extra /\ extra <> [] /\
                 starts_with_segment p0 p1 extra) ->
  let w' := run Number_toString es w in
  (cursor w' = (0, 0) /\ surface w' = base /\ is_Some (ctx w')) \/
  (exists extra, surface w' = base ++ extra /\ extra <> [] /\
                 starts_with_segment p0 p1 extra).
Proof.
  induction es as [|e es IH]; intros w Hpaths Hes Hk HJ; [exact HJ|].
  apply Forall_cons in Hes as [He Hes].
  destruct e as [h ts| | |v]; try contradiction.
  rewrite run_cons. apply IH; try assumption.
  - rewrite step_kolamData. exact Hk.
  - simpl. case_decide; [|exact HJ].
    eapply animate_first_segment; eauto.
Qed.

(** An accepted frame at the start of a first path with two points or
    more paints its first segment and moves on to its second point. *)
Lemma animate_draws_first_segment
    (r : PatternRecord) (p0 p1 : Point) (rest : list Point)
    (others : list (list Point)) (ts : num) (w : World) :
  paths r = (p0 :: p1 :: rest) :: others ->
  kolamData w = Some r -> is_Some (ctx w) -> cursor w = (0, 0) ->
  playing w = true -> throttled ts w = false ->
  cursor (animate ts w) = (0, 1) /\
  playing (animate ts w) = true /\
  exists extra : list Canvas.Paint,
    surface (animate ts w) = surface w ++ extra /\ extra <> [] /\
    starts_with_segment p0 p1 extra.
Proof.
  intros Hpaths Hk [c Hc] Hcur Hp Ht.
  unfold cursor in Hcur. injection Hcur as Hpi Hpo.
  assert (Hpath : js_index (paths r) (currentPathIndex (animationState w))
                  = Some (p0 :: p1 :: rest)).
  { rewrite Hpi, Hpaths. reflexivity. }
  rewrite (animate_draw ts w r (p0 :: p1 :: rest) c p0 p1 Hp Ht Hk Hpath).
  - unfold playing in Hp. unfold_world. rewrite Hc, Hp, Hpi, Hpo.
    split; [reflexivity|]. split; [reflexivity|].
    eexists. split; [rewrite <- app_assoc; reflexivity|].
    split; [discriminate|]. right. eauto.
  - rewrite Hpo. simpl length. lia.
  - exact Hc.
  - rewrite Hpo. reflexivity.
  - rewrite Hpo. reflexivity.
Qed.

(** What scheduling a frame, and taking a frame off the pending ones,
    leave alone. *)
Lemma schedule_frame (w : World) :
  kolamData (schedule w) = kolamData w /\
  ctx (schedule w) = ctx w /\
  cursor (schedule w) = cursor w /\
  playing (schedule w) = playing w /\
  surface (schedule w) = surface w /\
  pendingFrames (schedule w) = pendingFrames w ∪ {[ nextFrameId w ]} /\
  forall ts : num, throttled ts (schedule w) = throttled ts w.
Proof. repeat split. Qed.

Lemma with_frames_frame (p : gset Z) (n : Z) (w : World) :
  kolamData (with_frames p n w) = kolamData w /\
  ctx (with_frames p n w) = ctx w /\
  cursor (with_frames p n w) = cursor w /\
  playing (with_frames p n w) = playing w /\
  surface (with_frames p n w) = surface w /\
  forall ts : num, throttled ts (with_frames p n w) = throttled ts w.
Proof. repeat split. Qed.

(** The play click after a reset, before [animate] runs. *)
Lemma play_after_reset (w : World) :
  exists wp : World,
    togglePlayPause (resetAnimation w) = animate (Number.of_Z 0) wp /\
    kolamData wp = kolamData w /\
    (is_Some (ctx w) -> is_Some (ctx wp)) /\
    cursor wp = (0, 0) /\ playing wp = true /\
    surface wp = surface (resetAnimation w) /\
    pendingFrames wp = pendingFrames (resetAnimation w) /\
    nextFrameId wp = nextFrameId w /\
    (forall ts : num, throttled ts wp = throttled ts w).
Proof.
  destruct (resetAnimation_cursor w) as (Hcur & Hplay & _).
  destruct (resetAnimation_frames w) as (_ & Hn & Hk & Hsp & Hl).
  pose proof (resetAnimation_ctx w) as Hc.
  set (wr := resetAnimation w) in *. clearbody wr.
  exists (setText "playIcon" glyph_pause (set_isPlaying true wr)).
  split.
  { unfold togglePlayPause. cbv zeta. unfold playing in Hplay.
    rewrite Hplay. reflexivity. }
  unfold cursor, playing, surface, throttled in *. simpl.
  rewrite Hsp, Hl. injection Hcur as -> ->.
  repeat split; assumption.
Qed.

(** After a reset, the play click and the frame it may schedule. *)
Lemma play_after_reset_draws
    (w : World) (r : PatternRecord) (p0 p1 : Point) (rest : list Point)
    (others : list (list Point)) :
  kolamData w = Some r ->
  is_Some (ctx w) ->
  paths r = (p0 :: p1 :: rest) :: others ->
  let w' := resetAnimation w in
  let w1 := togglePlayPause w' in
  (throttled (Number.of_Z 0) w = false ->
   playing w1 = true /\ cursor w1 = (0, 1) /\
   exists extra : list Canvas.Paint,
     surface w1 = surface w' ++ extra /\ extra <> [] /\
     starts_with_segment p0 p1 extra) /\
  (throttled (Number.of_Z 0) w = true ->
   playing w1 = true /\ cursor w1 = (0, 0) /\
   surface w1 = surface w' /\
   pendingFrames w1 = pendingFrames w' ∪ {[ nextFrameId w ]} /\
   forall ts : num,
     throttled ts w = false ->
     let w2 := step Number_toString (EvFrame (nextFrameId w) ts) w1 in
     playing w2 = true /\ cursor w2 = (0, 1) /\
     exists extra : list Canvas.Paint,
       surface w2 = surface w' ++ extra /\ extra <> [] /\
       starts_with_segment p0 p1 extra).
Proof.
  intros Hr Hc Hpaths w' w1. subst w1 w'.
  destruct (play_after_reset w)
    as (wp & -> & Hkp & Hcp & Hcurp & Hpp & Hsp & Hpdp & Hnp & Hthp).
  rewrite Hr in Hkp. specialize (Hcp Hc).
  rewrite <- Hsp, <- Hpdp, <- Hnp.
  clear Hsp Hpdp Hnp.
  split.
  - intros Ht. rewrite <- Hthp in Ht.
    destruct (animate_draws_first_segment r p0 p1 rest others
                (Number.of_Z 0) wp Hpaths Hkp Hcp Hcurp Hpp Ht)
      as (A1 & A2 & A3).
    split; [exact A2|]. split; [exact A1 | exact A3].
  - intros Ht. rewrite <- Hthp in Ht.
    rewrite (animate_throttled (Number.of_Z 0) wp Hpp Ht).
    destruct (schedule_frame wp) as (S1 & S2 & S3 & S4 & S5 & S6 & S7).
    split; [rewrite S4; exact Hpp|]. split; [rewrite S3; exact Hcurp|].
    split; [exact S5|]. split; [exact S6|].
    intros ts Hts w2. subst w2. unfold step.
    rewrite decide_True by (rewrite S6; set_solver).
    match goal with |- context [animate ts ?x] => set (wf := x) end.
    destruct (with_frames_frame
                (pendingFrames (schedule wp) ∖ {[ nextFrameId wp ]})
                (nextFrameId (schedule wp)) (schedule wp))
      as (F1 & F2 & F3 & F4 & F5 & F6).
    fold wf in F1, F2, F3, F4, F5, F6.
    rewrite S1, Hkp in F1. rewrite S2 in F2. rewrite S3, Hcurp in F3.
    rewrite S4, Hpp in F4. rewrite S5 in F5.
    specialize (F6 ts). rewrite S7, Hthp, Hts in F6.
    clearbody wf. rewrite <- F2 in Hcp.
    destruct (animate_draws_first_segment r p0 p1 rest others
                ts wf Hpaths F1 Hcp F3 F4 F6)
      as (A1 & A2 & A3).
    rewrite F5 in A3.
    split; [exact A2|]. split; [exact A1 | exact A3].
Qed.

(** C3 (amended).  From every state, [resetAnimation] cancels the frame
    whose handle [animationId] held when reset was called, before it
    changes anything else, so that no frame is left pending wherever
    the pending frame is the tracked one (as it is throughout every run
    of the animation machine after one upload on a freshly loaded page,
    [page_run_tracked]); it puts the cursor at (0, 0), stops playback
    and shows the play glyph; on a page with a canvas it repaints the
    black background and the grid dots.  The outcome does not depend on
    the cursor before the reset.  A following play click starts
    playback at the first point of the first path: whatever frames
    follow, the first thing painted is the segment from the first to
    the second point of the first path, and the first accepted frame
    (the click's own call of [animate] when it is not throttled, the
    frame it schedules otherwise) does paint it and moves the cursor
    to (0, 1). *)
Theorem resetAnimation_restarts (w : World) :
  let w' := resetAnimation w in
  cursor w' = (0, 0) /\
  playing w' = false /\
  playIcon w' = Some glyph_play /\
  pendingFrames w' = pendingFrames (cancel_pending w) /\
  (forall h : Z,
     animationId (animationState w) = Some h -> h <> 0 ->
     h ∉ pendingFrames w') /\
  (frames_tracked w -> pendingFrames w' = ∅) /\
  (forall c : Canvas.Context2D,
     ctx w = Some c -> surface w' = redrawn w c) /\
  (forall i j : Z,
     resetAnimation (set_currentPointIndex j (set_currentPathIndex i w))
     = w') /\
  (forall (r : PatternRecord) (p0 p1 : Point) (rest : list Point)
          (others : list (list Point)) (es : list Event),
     kolamData w = Some r ->
     is_Some (ctx w) ->
     paths r = (p0 :: p1 :: rest) :: others ->
     frames_only (fun _ => True) es ->
     let w2 := run Number_toString es (togglePlayPause w') in
     exists extra : list Canvas.Paint,
       surface w2 = surface w' ++ extra /\
       starts_with_segment p0 p1 extra /\
       (extra = [] -> cursor w2 = (0, 0))) /\
  (forall (r : PatternRecord) (p0 p1 : Point) (rest : list Point)
          (others : list (list Point)),
     kolamData w = Some r ->
     is_Some (ctx w) ->
     paths r = (p0 :: p1 :: rest) :: others ->
     let w1 := togglePlayPause w' in
     (throttled (Number.of_Z 0) w = false ->
      playing w1 = true /\ cursor w1 = (0, 1) /\
      exists extra : list Canvas.Paint,
        surface w1 = surface w' ++ extra /\ extra <> [] /\
        starts_with_segment p0 p1 extra) /\
     (throttled (Number.of_Z 0) w = true ->
      playing w1 = true /\ cursor w1 = (0, 0) /\
      surface w1 = surface w' /\
      pendingFrames w1 = pendingFrames w' ∪ {[ nextFrameId w ]} /\
      forall ts : num,
        throttled ts w = false ->
        let w2 := step Number_toString (EvFrame (nextFrameId w) ts) w1 in
        playing w2 = true /\ cursor w2 = (0, 1) /\
        exists extra : list Canvas.Paint,
          surface w2 = surface w' ++ extra /\ extra <> [] /\
          starts_with_segment p0 p1 extra)).
Proof.
  intros w'. subst w'.
  destruct (resetAnimation_cursor w) as (Hcur & Hplay & Hicon).
  destruct (resetAnimation_frames w) as (Hpend & _ & Hk & _).
  split; [exact Hcur|]. split; [exact Hplay|]. split; [exact Hicon|].
  split; [exact Hpend|]. split; [|split; [|split; [|split; [|split]]]].
  - intros h Hid Hh. rewrite Hpend. unfold cancel_pending. rewrite Hid.
    destruct (Z.eqb_spec h 0) as [|_]; [contradiction|]. simpl. set_solver.
  - intros Hw. rewrite Hpend. apply cancel_pending_clears, tracked_handle, Hw.
  - intros c Hc. apply resetAnimation_surface, Hc.
  - intros i j. apply resetAnimation_forgets_cursor.
  - intros r p0 p1 rest others es Hr Hc Hpaths Hes w2. subst w2.
    assert (Hk' : kolamData (resetAnimation w) = Some r) by congruence.
    pose proof (resetAnimation_ctx w Hc) as Hc'.
    set (wr := resetAnimation w) in *. clearbody wr.
    assert (HJ :
      (cursor (togglePlayPause wr) = (0, 0) /\
       surface (togglePlayPause wr) = surface wr /\
       is_Some (ctx (togglePlayPause wr))) \/
      (exists extra, surface (togglePlayPause wr) = surface wr ++ extra /\
                     extra <> [] /\ starts_with_segment p0 p1 extra)).
    { unfold togglePlayPause. cbv zeta. unfold playing in Hplay.
      simpl. rewrite Hplay. simpl.
      eapply animate_first_segment; eauto. }
    destruct (frames_first_segment r p0 p1 rest others (surface wr) es
                (togglePlayPause wr) Hpaths Hes
                ltac:(rewrite togglePlayPause_kolamData; exact Hk') HJ)
      as [(Hc2 & Hs2 & _)|(extra & Hs2 & Hne & Hseg)].
    + exists []. rewrite app_nil_r. split; [exact Hs2|].
      split; [left; reflexivity | intros _; exact Hc2].
    + exists extra. split; [exact Hs2|]. split; [exact Hseg|].
      intros ->. contradiction.
  - intros r p0 p1 rest others Hr Hc Hpaths.
    exact (play_after_reset_draws w r p0 p1 rest others Hr Hc Hpaths).
Qed.

(** ** C6: play/pause *)

(** C6 (amended).  A click while not playing sets [isPlaying], shows the
    pause glyph and calls [animate] with timestamp 0 at once, wherever
    the cursor is; when that call is throttled (as it is at any
    positive speed once a frame with a positive timestamp has been
    accepted, and on a fresh page at speed 1) it schedules the next
    frame and changes nothing else.  A click while playing clears
    [isPlaying], shows the play glyph and cancels the frame whose handle
    [animationId] holds, which leaves no frame pending wherever the
    pending frame is the tracked one.  A click with the cursor at the
    end therefore does enter the playing state; the frame it schedules,
    once accepted, stops playback again without drawing, without moving
    the cursor and without scheduling another frame. *)
Theorem togglePlayPause_transitions (w : World) :
  (playing w = false ->
   togglePlayPause w
   = animate (Number.of_Z 0)
       (setText "playIcon" glyph_pause (set_isPlaying true w)) /\
   (throttled (Number.of_Z 0) w = true ->
    let w1 := togglePlayPause w in
    playing w1 = true /\ playIcon w1 = Some glyph_pause /\
    cursor w1 = cursor w /\ surface w1 = surface w /\
    lastFrameTime w1 = lastFrameTime w /\
    pendingFrames w1 = pendingFrames w ∪ {[ nextFrameId w ]} /\
    animationId (animationState w1) = Some (nextFrameId w))) /\
  (playing w = true ->
   let w1 := togglePlayPause w in
   playing w1 = false /\ playIcon w1 = Some glyph_play /\
   cursor w1 = cursor w /\ surface w1 = surface w /\
   pendingFrames w1 = pendingFrames (cancel_pending w) /\
   (forall h : Z,
      animationId (animationState w) = Some h -> h <> 0 ->
      h ∉ pendingFrames w1) /\
   (frames_tracked w -> pendingFrames w1 = ∅)) /\
  (forall (r : PatternRecord) (ts : num),
     playing w = false ->
     kolamData w = Some r ->
     js_index (paths r) (currentPathIndex (animationState w)) = None ->
     throttled (Number.of_Z 0) w = true ->
     let w1 := togglePlayPause w in
     playing w1 = true /\
     nextFrameId w ∈ pendingFrames w1 /\
     (throttled ts w = false ->
      let w2 := step Number_toString (EvFrame (nextFrameId w) ts) w1 in
      playing w2 = false /\ playIcon w2 = Some glyph_play /\
      cursor w2 = cursor w /\ surface w2 = surface w /\
      pendingFrames w2 = pendingFrames w ∖ {[ nextFrameId w ]})) /\
  (Number.ltb Number.zero (speed (animationState w)) = true ->
   Number.ltb Number.zero (lastFrameTime w) = true ->
   Number.isFinite (lastFrameTime w) = true ->
   throttled (Number.of_Z 0) w = true) /\
  (speed (animationState w) = Number.of_Z 1 ->
   lastFrameTime w = Number.of_Z 0 ->
   throttled (Number.of_Z 0) w = true).
Proof.
  assert (Hplay : playing w = false ->
    togglePlayPause w
    = animate (Number.of_Z 0)
        (setText "playIcon" glyph_pause (set_isPlaying true w))).
  { unfold playing, togglePlayPause. cbv zeta. simpl. intros ->. reflexivity. }
  assert (Hthr : playing w = false -> throttled (Number.of_Z 0) w = true ->
    togglePlayPause w
    = schedule (setText "playIcon" glyph_pause (set_isPlaying true w))).
  { intros Hp Ht. rewrite (Hplay Hp). apply animate_throttled; [reflexivity|].
    exact Ht. }
  split; [|split; [|split; [|split;
    [apply play_click_throttled | apply first_play_click_throttled]]]].
  - intros Hp. split; [exact (Hplay Hp)|].
    intros Ht w1. subst w1. rewrite (Hthr Hp Ht). unfold_world.
    repeat split; try reflexivity. apply lookup_insert_eq.
  - intros Hp w1. subst w1. unfold playing in Hp.
    unfold togglePlayPause. cbv zeta. simpl. rewrite Hp. simpl.
    set (w0 := setText "playIcon" glyph_play (set_isPlaying false w)).
    assert (Hc : cancel_pending w0
                 = match animationId (animationState w) with
                   | Some h => if h =? 0 then w0 else cancelAnimationFrame h w0
                   | None => w0
                   end) by reflexivity.
    assert (Hpend : pendingFrames (cancel_pending w0)
                    = pendingFrames (cancel_pending w)).
    { rewrite Hc. unfold cancel_pending.
      destruct (animationId (animationState w)) as [h|]; [|reflexivity].
      destruct (h =? 0); reflexivity. }
    split; [|split; [|split; [|split; [|split; [exact Hpend|split]]]]].
    + rewrite Hc. repeat case_match; reflexivity.
    + rewrite Hc. unfold playIcon.
      repeat case_match; simpl; apply lookup_insert_eq.
    + rewrite Hc. repeat case_match; reflexivity.
    + rewrite Hc. repeat case_match; reflexivity.
    + intros h Hid Hh. rewrite Hpend. unfold cancel_pending. rewrite Hid.
      destruct (Z.eqb_spec h 0) as [|_]; [contradiction|]. simpl. set_solver.
    + intros Hw. rewrite Hpend.
      apply cancel_pending_clears, tracked_handle, Hw.
  - intros r ts Hp Hk Hend Ht w1. subst w1. rewrite (Hthr Hp Ht).
    split; [reflexivity|]. split; [simpl; set_solver|].
    intros Hts w2. subst w2. simpl.
    case_decide as Hin; [|exfalso; apply Hin; set_solver].
    match goal with |- context [animate ts ?x] =>
      rewrite (animate_no_path ts x r) end;
      [|reflexivity|exact Hts|exact Hk|exact Hend].
    unfold_world. repeat split; try reflexivity.
    + apply lookup_insert_eq.
    + set_solver.
Qed.

(** ** C7: speeds outside the precondition *)

Lemma zero_speed_throttles (ts : num) (w : World) :
  speed (animationState w) = Number.zero ->
  Number.isFinite (Number.sub ts (lastFrameTime w)) = true ->
  throttled ts w = true.
Proof.
  intros Hs Hf. unfold throttled. rewrite Hs.
  replace (Number.div frameDelay Number.zero) with Number.Infinity
    by (vm_compute; reflexivity).
  apply NumberFacts.ltb_Infinity, Hf.
Qed.

Lemma zero_speed_stalls (es : list Event) : forall w : World,
  speed (animationState w) = Number.zero ->
  frames_only
    (fun ts => Number.isFinite (Number.sub ts (lastFrameTime w)) = true) es ->
  let w' := run Number_toString es w in
  cursor w' = cursor w /\ surface w' = surface w /\
  lastFrameTime w' = lastFrameTime w.
Proof.
  induction es as [|e es IH]; intros w Hs Hes; [repeat split|].
  apply Forall_cons in Hes as [He Hes].
  destruct e as [h ts| | |v]; try contradiction.
  rewrite run_cons. cbv zeta.
  assert (Hstep :
    let w1 := step Number_toString (EvFrame h ts) w in
    speed (animationState w1) = Number.zero /\
    cursor w1 = cursor w /\ surface w1 = surface w /\
    lastFrameTime w1 = lastFrameTime w).
  { simpl. case_decide; [|repeat split; exact Hs].
    set (w0 := with_frames _ _ w).
    destruct (playing w0) eqn:Hp.
    - rewrite (animate_throttled ts w0 Hp); [repeat split; exact Hs|].
      apply zero_speed_throttles; [exact Hs | exact He].
    - rewrite (animate_paused ts w0 Hp). repeat split; exact Hs. }
  cbv zeta in Hstep. destruct Hstep as (Hs1 & Hc1 & Hu1 & Hl1).
  specialize (IH (step Number_toString (EvFrame h ts) w) Hs1).
  rewrite Hl1 in IH. destruct (IH Hes) as (H1 & H2 & H3).
  rewrite H1, H2, H3. auto.
Qed.

(** C7 (amended).  At speed [+0] the threshold [50 / speed] is
    [+Infinity]: no frame whose elapsed time is finite is accepted, and
    over any sequence of such frames the cursor, the canvas and the
    baseline stay as they are.  At a negative speed the threshold is
    negative or [-0]: every frame whose elapsed time is not negative is
    accepted, so the loop is not stalled but unthrottled.  The loop
    takes the speed as the slider handler stored it, for every number,
    and never changes it. *)
Theorem speed_outside_precondition :
  (forall (w : World) (es : list Event),
     speed (animationState w) = Number.zero ->
     frames_only
       (fun ts => Number.isFinite (Number.sub ts (lastFrameTime w)) = true)
       es ->
     let w' := run Number_toString es w in
     cursor w' = cursor w /\ surface w' = surface w /\
     lastFrameTime w' = lastFrameTime w) /\
  (forall (w : World) (ts : num),
     Number.ltb (speed (animationState w)) Number.zero = true ->
     Number.nonneg (Number.sub ts (lastFrameTime w)) = true ->
     throttled ts w = false) /\
  (forall (w : World) (v : num),
     speed (animationState (onSpeedInput Number_toString v w)) = v) /\
  (forall (w : World) (ts : num),
     speed (animationState (animate ts w)) = speed (animationState w)).
Proof.
  split; [|split; [|split]].
  - intros w es. apply zero_speed_stalls.
  - intros w ts Hs He. unfold throttled.
    apply NumberFacts.delay_of_negative_speed; assumption.
  - reflexivity.
  - intros w ts. apply animate_frame.
Qed.

(** ** Occurrences in texts *)


Lemma append_assoc (s t u : string) : (s +:+ t) +:+ u = s +:+ t +:+ u.
Proof.
  induction s as [|a s IH]; [reflexivity|].
  change (String a ((s +:+ t) +:+ u) = String a (s +:+ t +:+ u)).
  f_equal. exact IH.
Qed.

Lemma occurs_here (s post : string) : occurs_in s (s +:+ post).
Proof. exists "", post. reflexivity. Qed.


Lemma occurs_skip (a s t : string) : occurs_in s t -> occurs_in s (a +:+ t).
Proof.
  intros (pre & post & ->). exists (a +:+ pre), post.
  rewrite append_assoc. reflexivity.
Qed.

Lemma occurs_here2 (a b post : string) :
  occurs_in (a +:+ b) (a +:+ b +:+ post).
Proof. rewrite <- append_assoc. apply occurs_here. Qed.

Lemma occurs_here3 (a b c post : string) :
  occurs_in (a +:+ b +:+ c) (a +:+ b +:+ c +:+ post).
Proof. rewrite <- !append_assoc. apply occurs_here. Qed.

Lemma occurs_here5 (a b c d e post : string) :
  occurs_in (a +:+ b +:+ c +:+ d +:+ e) (a +:+ b +:+ c +:+ d +:+ e +:+ post).
Proof.
  exists "", post. simpl. rewrite !append_assoc. reflexivity.
Qed.

(** ** C5: an upload the service reports as failed *)

Lemma upload_failed_kolamData (w : World) :
  kolamData (upload_failed w) = kolamData w.
Proof. reflexivity. Qed.

(** C5.  When the answer to an upload says [success: false] with an
    error message, the message is shown in an alert, the busy indicator
    is hidden, no request is issued, and [kolamData] and everything
    else (animation state, canvas, texts, pending frames, downloads) is
    left as it was.  For any answer at all, [kolamData] is assigned only
    if the answer is a parsed response with [success] true. *)
Theorem upload_failure_surfaced
    (w : World) (result : AnalyzeResult) (msg : string) :
  analyze_success result = false ->
  analyze_error result = Some msg ->
  let w' := handleFileUpload_then Number_toString (Fulfilled result) w in
  alerts w' = alerts w ++ ["Error analyzing image: " +:+ msg] /\
  ("uploadStatus", "hidden") ∈ classes w' /\
  requests w' = requests w /\
  kolamData w' = kolamData w /\
  animationState w' = animationState w /\
  lastFrameTime w' = lastFrameTime w /\
  ctx w' = ctx w /\
  textContent w' = textContent w /\
  pendingFrames w' = pendingFrames w /\
  downloads w' = downloads w /\
  (forall (s : Settled AnalyzeResult) (w0 : World),
     kolamData (handleFileUpload_then Number_toString s w0) <> kolamData w0 ->
     exists res : AnalyzeResult,
       s = Fulfilled res /\ analyze_success res = true).
Proof.
  intros Hs He w'. subst w'. unfold handleFileUpload_then.
  rewrite Hs, He. simpl.
  repeat split; try reflexivity; [set_solver|].
  intros s w0 Hne. destruct s as [res|reason]; [|contradiction].
  destruct (analyze_success res) eqn:Hres; [eauto | contradiction].
Qed.

(** *** The export payload determines the data it was made from *)

Lemma json_of_number_inj (x y : num) :
  plain_number x -> plain_number y ->
  json_of_number x = json_of_number y -> x = y.
Proof.
  destruct x as [sx|sx| |sx mx ex], y as [sy|sy| |sy my ey]; simpl;
    try contradiction; intros Hx Hy H; try discriminate; subst;
    try reflexivity.
  congruence.
Qed.

Lemma json_of_point_inj (p q : Point) :
  plain_point p -> plain_point q ->
  json_of_point p = json_of_point q -> p = q.
Proof.
  destruct p as [px py], q as [qx qy]. intros [Hp1 Hp2] [Hq1 Hq2] H.
  unfold json_of_point in H. simpl in *. injection H as H1 H2.
  f_equal; apply json_of_number_inj; assumption.
Qed.




(** ** C8: SVG export *)


(** ** C9: equation export *)

(** C9.  With a record in [kolamData], [saveEquation] issues no request
    and hands the browser one download, a [text/plain] file named
    [kolam_equations_<id>.txt] whose text contains the record's
    [x_function] and [y_function], the string conversions of both
    domain endpoints and of [r_squared], each on its labelled line of
    the template.  For the id [abc123] the file is named
    [kolam_equations_abc123.txt]. *)
Theorem saveEquation_contract
    (now : string) (w : World) (r : PatternRecord) :
  kolamData w = Some r ->
  let w' := saveEquation Number_toString now w in
  let e := equations r in
  requests w' = requests w /\
  exists d : Download,
    downloads w' = downloads w ++ [d] /\
    filename d = "kolam_equations_" +:+ id r +:+ ".txt" /\
    mime d = "text/plain" /\
    content d = equationData Number_toString now r /\
    occurs_in (x_function e) (content d) /\
    occurs_in (y_function e) (content d) /\
    occurs_in (Number_toString (fst (domain e))) (content d) /\
    occurs_in (Number_toString (snd (domain e))) (content d) /\
    occurs_in (Number_toString (r_squared e)) (content d) /\
    occurs_in ("x(t) = " +:+ x_function e +:+ nl) (content d) /\
    occurs_in ("y(t) = " +:+ y_function e +:+ nl) (content d) /\
    occurs_in ("Domain: [" +:+ Number_toString (fst (domain e)) +:+ ", "
               +:+ Number_toString (snd (domain e)) +:+ "]") (content d) /\
    occurs_in ("R² = " +:+ Number_toString (r_squared e) +:+ nl) (content d) /\
    (id r = "abc123" -> filename d = "kolam_equations_abc123.txt").
Proof.
  intros Hk w' e. subst w' e. unfold saveEquation. rewrite Hk.
  split; [reflexivity|]. eexists. split; [reflexivity|]. simpl.
  split; [reflexivity|]. split; [reflexivity|]. split; [reflexivity|].
  unfold equationData.
  repeat split; try (intros ->; reflexivity);
    repeat first
      [ apply occurs_here5 | apply occurs_here3 | apply occurs_here2
      | apply occurs_here | apply occurs_skip ].
Qed.

(** ** C10: exports without a record *)

(** C10.  While [kolamData] is [null], [exportSVG] and [saveEquation]
    return at once and leave the world exactly as it was: no request,
    no download, no alert, no change of state. *)
Theorem exports_without_record (w : World) (now : string) :
  kolamData w = None ->
  exportSVG w = w /\
  saveEquation Number_toString now w = w /\
  requests (exportSVG w) = requests w /\
  downloads (exportSVG w) = downloads w /\
  alerts (exportSVG w) = alerts w /\
  downloads (saveEquation Number_toString now w) = downloads w /\
  alerts (saveEquation Number_toString now w) = alerts w /\
  requests (saveEquation Number_toString now w) = requests w.
Proof.
  intros Hk. unfold exportSVG, saveEquation. rewrite Hk.
  repeat split; reflexivity.
Qed.


(** * Further properties of the script *)

(** ** Playing a record to its end *)

Lemma js_index_nat {A : Type} (l : list A) (n : nat) :
  js_index l (Z.of_nat n) = l !! n.
Proof.
  unfold js_index. destruct (Z.ltb_spec (Z.of_nat n) 0) as [|_]; [lia|].
  rewrite Nat2Z.id. reflexivity.
Qed.

Lemma strokes_app (l l' : list Canvas.Paint) :
  strokes (l ++ l') = strokes l ++ strokes l'.
Proof. apply omap_app. Qed.

Lemma segments_of_length (p : list Point) :
  length (segments_of p) = (length p - 1)%nat.
Proof.
  unfold segments_of. rewrite length_zip_with.
  destruct p as [|a p]; [reflexivity|].
  change (tail (a :: p)) with p. simpl length. lia.
Qed.

Lemma segments_of_drop (p : list Point) (j : nat) (a b : Point) :
  p !! j = Some a -> p !! S j = Some b ->
  drop j (segments_of p) = (a, b) :: drop (S j) (segments_of p).
Proof.
  intros Ha Hb. apply drop_S. unfold segments_of.
  rewrite lookup_zip_with, Ha. simpl.
  rewrite lookup_tail, Hb. reflexivity.
Qed.

(** One accepted frame with a next point on the current path. *)
Lemma frame_draws
    (r : PatternRecord) (done todo : list (list Point)) (p : list Point)
    (j : nat) (t : num) (w : World) :
  paths r = done ++ p :: todo ->
  kolamData w = Some r -> playing w = true -> is_Some (ctx w) ->
  cursor w = (Z.of_nat (length done), Z.of_nat j) ->
  throttled t w = false ->
  (S j < length p)%nat ->
  exists a b : Point,
    p !! j = Some a /\ p !! S j = Some b /\
    kolamData (animate t w) = Some r /\
    playing (animate t w) = true /\
    is_Some (ctx (animate t w)) /\
    cursor (animate t w) = (Z.of_nat (length done), Z.of_nat (S j)) /\
    strokes (surface (animate t w)) = strokes (surface w) ++ [(a, b)] /\
    speed (animationState (animate t w)) = speed (animationState w) /\
    lastFrameTime (animate t w) = t.
Proof.
  intros Hpaths Hk Hp [c Hc] Hcur Ht Hj.
  unfold cursor in Hcur. injection Hcur as Hpi Hpo.
  destruct (lookup_lt_is_Some_2 p j) as [a Ha]; [lia|].
  destruct (lookup_lt_is_Some_2 p (S j)) as [b Hb]; [lia|].
  exists a, b. split; [exact Ha|]. split; [exact Hb|].
  assert (Hpath : js_index (paths r) (currentPathIndex (animationState w))
                  = Some p).
  { rewrite Hpi, js_index_nat, Hpaths. apply list_lookup_middle. reflexivity. }
  rewrite (animate_draw t w r p c a b Hp Ht Hk Hpath).
  - unfold playing in Hp. unfold_world. rewrite Hc, Hp, Hpo.
    split; [exact Hk|]. split; [reflexivity|]. split; [eauto|].
    split; [f_equal; lia|]. split; [|split; reflexivity].
    rewrite !strokes_app. destruct a as [ax ay], b as [bx by']. simpl.
    rewrite app_nil_r. reflexivity.
  - rewrite Hpo. lia.
  - exact Hc.
  - rewrite Hpo, js_index_nat. exact Ha.
  - rewrite Hpo. replace (Z.of_nat j + 1) with (Z.of_nat (S j)) by lia.
    rewrite js_index_nat. exact Hb.
Qed.

(** One accepted frame at the end of the current path. *)
Lemma frame_leaves_path
    (r : PatternRecord) (done todo : list (list Point)) (p : list Point)
    (j : nat) (t : num) (w : World) :
  paths r = done ++ p :: todo ->
  kolamData w = Some r -> playing w = true ->
  cursor w = (Z.of_nat (length done), Z.of_nat j) ->
  throttled t w = false ->
  (length p <= S j)%nat ->
  kolamData (animate t w) = Some r /\
  ctx (animate t w) = ctx w /\
  cursor (animate t w) = (Z.of_nat (length done) + 1, 0) /\
  speed (animationState (animate t w)) = speed (animationState w) /\
  lastFrameTime (animate t w) = t /\
  (todo = [] ->
   playing (animate t w) = false /\
   playIcon (animate t w) = Some glyph_play) /\
  (todo <> [] -> playing (animate t w) = true).
Proof.
  intros Hpaths Hk Hp Hcur Ht Hj.
  unfold cursor in Hcur. injection Hcur as Hpi Hpo.
  assert (Hpath : js_index (paths r) (currentPathIndex (animationState w))
                  = Some p).
  { rewrite Hpi, js_index_nat, Hpaths. apply list_lookup_middle. reflexivity. }
  rewrite (animate_next_path t w r p Hp Ht Hk Hpath) by (rewrite Hpo; lia).
  assert (Hlen : length (paths r) = (length done + S (length todo))%nat).
  { rewrite Hpaths, length_app. reflexivity. }
  unfold playing in Hp.
  destruct (Z.geb_spec (currentPathIndex (animationState w) + 1)
              (Z.of_nat (length (paths r)))) as [Hend|Hmore];
    unfold_world; rewrite ?Hp, Hpi;
    (split; [exact Hk|]); (split; [reflexivity|]);
    (split; [reflexivity|]); (split; [reflexivity|]);
    (split; [reflexivity|]).
  - split.
    + intros _. split; [reflexivity | apply lookup_insert_eq].
    + intros Hne. destruct todo; [contradiction | simpl in Hlen; lia].
  - split.
    + intros ->. simpl in Hlen. lia.
    + reflexivity.
Qed.

Lemma frames_cons (t : num) (tss : list num) (w : World) :
  frames (t :: tss) w = frames tss (animate t w).
Proof. reflexivity. Qed.

Lemma frames_play (r : PatternRecord) (tss : list num) :
  forall (w : World) (done todo : list (list Point)) (p : list Point)
         (j : nat),
  paths r = done ++ p :: todo ->
  kolamData w = Some r -> playing w = true -> is_Some (ctx w) ->
  cursor w = (Z.of_nat (length done), Z.of_nat j) ->
  paced (Number.div frameDelay (speed (animationState w)))
        (lastFrameTime w) tss ->
  length tss = (Nat.max (length p - j) 1 + frames_needed todo)%nat ->
  strokes (surface (frames tss w))
  = strokes (surface w) ++ drop j (segments_of p) ++ all_segments todo /\
  cursor (frames tss w) = (Z.of_nat (length (paths r)), 0) /\
  playing (frames tss w) = false /\
  playIcon (frames tss w) = Some glyph_play.
Proof.
  induction tss as [|t rest IH];
    intros w done todo p j Hpaths Hk Hp Hc Hcur Hpaced Hlen.
  { simpl in Hlen. lia. }
  destruct Hpaced as [Ht Hrest]. change (throttled t w = false) in Ht.
  rewrite frames_cons. simpl length in Hlen.
  destruct (decide (S j < length p)%nat) as [Hj|Hj].
  - destruct (frame_draws r done todo p j t w Hpaths Hk Hp Hc Hcur Ht Hj)
      as (a & b & Ha & Hb & Hk1 & Hp1 & Hc1 & Hcur1 & Hs1 & Hsp1 & Hl1).
    destruct (IH (animate t w) done todo p (S j) Hpaths Hk1 Hp1 Hc1 Hcur1)
      as (Hs & Hcu & Hpl & Hic).
    + rewrite Hsp1, Hl1. exact Hrest.
    + lia.
    + split; [|auto]. rewrite Hs, Hs1, (segments_of_drop p j a b Ha Hb).
      rewrite <- app_assoc. reflexivity.
  - destruct (frame_leaves_path r done todo p j t w Hpaths Hk Hp Hcur Ht)
      as (Hk1 & Hc1 & Hcur1 & Hsp1 & Hl1 & Hlast & Hmore); [lia|].
    assert (Hdrop : drop j (segments_of p) = []).
    { apply drop_ge. rewrite segments_of_length. lia. }
    assert (Hsurf : surface (animate t w) = surface w).
    { unfold surface. rewrite Hc1. reflexivity. }
    rewrite Hdrop. simpl.
    destruct todo as [|q todo'].
    + destruct (Hlast eq_refl) as [Hpl Hic].
      assert (rest = []) as ->.
      { apply length_zero_iff_nil.
        change (frames_needed []) with 0%nat in Hlen. lia. }
      simpl. rewrite Hsurf, app_nil_r.
      split; [reflexivity|]. split; [|auto].
      rewrite Hcur1, Hpaths, length_app. simpl. f_equal. lia.
    + assert (Hpaths' : paths r = (done ++ [p]) ++ q :: todo').
      { rewrite <- app_assoc. exact Hpaths. }
      destruct (IH (animate t w) (done ++ [p]) todo' q 0%nat Hpaths' Hk1)
        as (Hs & Hcu & Hpl & Hic).
      * apply Hmore. discriminate.
      * rewrite Hc1. exact Hc.
      * rewrite Hcur1, length_app. simpl. f_equal. lia.
      * rewrite Hsp1, Hl1. exact Hrest.
      * rewrite Nat.sub_0_r.
        change (frames_needed (q :: todo'))
          with (Nat.max (length q) 1 + frames_needed todo')%nat in Hlen.
        lia.
      * split; [|auto]. rewrite Hs, Hsurf. reflexivity.
Qed.

(** X1.  With a record on display, a canvas, playback on and the cursor
    at the start, any timestamps that are each at least [50 / speed]
    after the one before, as many as it takes (one per segment and one
    more to leave each path), play the record to its end: the line
    segments stroked are exactly the pairs of consecutive points of
    every path, in order; the path index ends at the number of paths,
    the point index at 0; and unless there is no path at all, playback
    has stopped with the play glyph. *)
Theorem animation_draws_every_segment
    (w : World) (r : PatternRecord) (tss : list num) :
  kolamData w = Some r ->
  playing w = true ->
  is_Some (ctx w) ->
  cursor w = (0, 0) ->
  paced (Number.div frameDelay (speed (animationState w)))
        (lastFrameTime w) tss ->
  length tss = frames_needed (paths r) ->
  strokes (surface (frames tss w))
  = strokes (surface w) ++ all_segments (paths r) /\
  cursor (frames tss w) = (Z.of_nat (length (paths r)), 0) /\
  (paths r <> [] ->
   playing (frames tss w) = false /\
   playIcon (frames tss w) = Some glyph_play).
Proof.
  intros Hk Hp Hc Hcur Hpaced Hlen.
  destruct (paths r) as [|p todo] eqn:Hpaths.
  - apply length_zero_iff_nil in Hlen. subst tss. simpl.
    rewrite app_nil_r. split; [reflexivity|]. split; [exact Hcur|].
    intros Hne. contradiction.
  - destruct (frames_play r tss w [] todo p 0%nat Hpaths Hk Hp Hc Hcur Hpaced)
      as (Hs & Hcu & Hpl & Hic).
    + rewrite Hlen, Nat.sub_0_r. reflexivity.
    + rewrite Hpaths in Hcu. split; [|split; [exact Hcu | auto]].
      rewrite Hs. reflexivity.
Qed.

(** ** The pending frame *)

(** X2.  On a page that has just been loaded, after any answer to one
    upload and any sequence of frame callbacks, play/pause clicks,
    resets and speed changes, at most one frame callback is pending; if
    one is, its handle is the one in [animationId], it is not 0, and
    playback is on. *)
Theorem one_pending_frame
    (c : option Canvas.Context2D) (f : File) (s : Settled AnalyzeResult)
    (es : list Event) :
  let w :=
    run Number_toString es
      (handleFileUpload_then Number_toString s
         (handleFileUpload f (script_start c))) in
  (size (pendingFrames w) <= 1)%nat /\
  forall h : Z,
    h ∈ pendingFrames w ->
    animationId (animationState w) = Some h /\ h <> 0 /\ playing w = true.
Proof.
  intros w. destruct (page_run_tracked c f s es) as [_ H]. fold w in H.
  destruct H as [Hnone|(h0 & Hone & Hid & Hh & Hp)].
  - rewrite Hnone. split; [rewrite size_empty; lia|].
    intros h Hin. set_solver.
  - rewrite Hone. split; [rewrite size_singleton; lia|].
    intros h Hin. assert (h = h0) as -> by set_solver. auto.
Qed.

(** ** The cursor only moves forward *)

Lemma cursor_le_refl (a : Z * Z) : cursor_le a a.
Proof. right. split; [reflexivity | lia]. Qed.

Lemma cursor_le_trans (a b c : Z * Z) :
  cursor_le a b -> cursor_le b c -> cursor_le a c.
Proof. unfold cursor_le. intros [?|[? ?]] [?|[? ?]]; [left|left|left|right]; lia. Qed.

Lemma animate_cursor_le (t : num) (w : World) :
  cursor_le (cursor w) (cursor (animate t w)).
Proof.
  unfold animate.
  repeat case_match; unfold cursor_le, cursor; simpl;
    try (right; split; [reflexivity | lia]); left; lia.
Qed.

Lemma togglePlayPause_cursor_le (w : World) :
  cursor_le (cursor w) (cursor (togglePlayPause w)).
Proof.
  unfold togglePlayPause. cbv zeta. case_match.
  - match goal with |- context [animate ?t ?x] =>
      exact (animate_cursor_le t x) end.
  - unfold cursor.
    match goal with |- context [cancel_pending ?x] =>
      destruct (cancel_pending_frame x) as (_ & -> & _) end.
    apply cursor_le_refl.
Qed.

(** X3.  Frame callbacks, play/pause clicks and speed changes never move
    the cursor backwards: over any sequence of them the path index does
    not decrease, and while it stays the same the point index does not
    decrease.  Only a reset rewinds. *)
Theorem cursor_never_goes_back (es : list Event) (w : World) :
  Forall (fun e => e <> EvReset) es ->
  cursor_le (cursor w) (cursor (run Number_toString es w)).
Proof.
  revert w. induction es as [|e es IH]; intros w Hes.
  - apply cursor_le_refl.
  - apply Forall_cons in Hes as [He Hes]. rewrite run_cons.
    eapply cursor_le_trans; [|apply IH, Hes].
    destruct e as [h t| | |v]; simpl.
    + case_decide; [|apply cursor_le_refl].
      match goal with |- context [animate t ?x] =>
        exact (animate_cursor_le t x) end.
    + apply togglePlayPause_cursor_le.
    + contradiction.
    + apply cursor_le_refl.
Qed.

(** ** The animation keeps to itself *)

Lemma untouched_refl (w : World) : untouched w w.
Proof. repeat split. Qed.

Lemma untouched_trans (w1 w2 w3 : World) :
  untouched w1 w2 -> untouched w2 w3 -> untouched w1 w3.
Proof.
  unfold untouched. intros (-> & -> & -> & -> & ->) H. exact H.
Qed.

Lemma animate_untouched (t : num) (w : World) : untouched w (animate t w).
Proof.
  destruct (animate_frame t w) as (H1 & _ & H2 & H3 & H4 & H5).
  repeat split; assumption.
Qed.

Lemma cancel_pending_untouched (w : World) : untouched w (cancel_pending w).
Proof. unfold cancel_pending. repeat case_match; repeat split. Qed.

Lemma drawGridDots_untouched (w : World) : untouched w (drawGridDots w).
Proof.
  unfold drawGridDots. repeat case_match; repeat split; simpl; congruence.
Qed.

Lemma initializeCanvas_untouched (w : World) :
  untouched w (initializeCanvas w).
Proof.
  unfold initializeCanvas. destruct (ctx w) as [c|]; [|apply untouched_refl].
  cbv zeta.
  match goal with |- context [drawGridDots ?x] =>
    pose proof (drawGridDots_untouched x) as H; set (w1 := drawGridDots x) in *
  end.
  clearbody w1. destruct H as (H1 & H2 & H3 & H4 & H5).
  repeat split; simpl; assumption.
Qed.

Lemma togglePlayPause_untouched (w : World) :
  untouched w (togglePlayPause w).
Proof.
  unfold togglePlayPause. cbv zeta. case_match.
  - match goal with |- context [animate ?t ?x] =>
      exact (animate_untouched t x) end.
  - match goal with |- context [cancel_pending ?x] =>
      exact (cancel_pending_untouched x) end.
Qed.

Lemma resetAnimation_untouched (w : World) : untouched w (resetAnimation w).
Proof.
  unfold resetAnimation. cbv zeta.
  eapply untouched_trans; [apply (cancel_pending_untouched w)|].
  set (w0 := cancel_pending w). clearbody w0.
  match goal with |- context [initializeCanvas ?x] =>
    exact (initializeCanvas_untouched x) end.
Qed.

Lemma step_untouched (e : Event) (w : World) :
  untouched w (step Number_toString e w).
Proof.
  destruct e as [h t| | |v]; simpl.
  - case_decide; [|apply untouched_refl].
    match goal with |- context [animate t ?x] =>
      exact (animate_untouched t x) end.
  - apply togglePlayPause_untouched.
  - apply resetAnimation_untouched.
  - unfold onSpeedInput. repeat split.
Qed.

Lemma run_untouched (es : list Event) : forall w : World,
  untouched w (run Number_toString es w).
Proof.
  induction es as [|e es IH]; intros w; [apply untouched_refl|].
  rewrite run_cons. eapply untouched_trans; [apply step_untouched | apply IH].
Qed.

(** X4.  No sequence of frame callbacks, play/pause clicks, resets and
    speed changes shows an alert, starts a download, issues a request,
    touches a class list or replaces or clears the record. *)
Theorem animation_is_local (es : list Event) (w : World) :
  kolamData (run Number_toString es w) = kolamData w /\
  alerts (run Number_toString es w) = alerts w /\
  downloads (run Number_toString es w) = downloads w /\
  requests (run Number_toString es w) = requests w /\
  classes (run Number_toString es w) = classes w.
Proof. exact (run_untouched es w). Qed.

(** ** Upload: the listeners and the answer *)

(** X5.  A drop always takes the drag-over highlight off the upload
    area.  It sends a file for analysis exactly when a file was dropped
    whose type starts with [image/]; the upload indicator is then shown
    and the one request sent is the POST of that file.  A drop of
    anything else does no more than leaving the area does.  The file
    picker sends whatever file was chosen, whatever its type. *)
Theorem drop_uploads_images_only (file : option File) (w : World) :
  (("uploadArea", "drag-over") ∉ classes (onDrop file w)) /\
  (forall f : File,
     file = Some f -> String.prefix "image/" (file_type f) = true ->
     requests (onDrop file w) = requests w ++ [analyze_request f] /\
     ("uploadStatus", "hidden") ∉ classes (onDrop file w)) /\
  (file = None \/
   (exists f : File,
      file = Some f /\ String.prefix "image/" (file_type f) = false) ->
   onDrop file w = onDragLeave w /\ requests (onDrop file w) = requests w) /\
  (forall f : File,
     requests (onFileInputChange (Some f) w)
     = requests w ++ [analyze_request f] /\
     ("uploadStatus", "hidden") ∉ classes (onFileInputChange (Some f) w)).
Proof.
  split; [|split; [|split]].
  - unfold onDrop. cbv zeta. destruct file as [f|]; [case_match|];
      unfold handleFileUpload; simpl; set_solver.
  - intros f -> Hp. unfold onDrop. cbv zeta. rewrite Hp.
    unfold handleFileUpload. simpl. split; [reflexivity | set_solver].
  - intros [->|(f & -> & Hp)]; unfold onDrop; cbv zeta;
      [|rewrite Hp]; split; reflexivity.
  - intros f. unfold onFileInputChange, handleFileUpload. simpl.
    split; [reflexivity | set_solver].
Qed.

Lemma initializeCanvas_none (w : World) :
  ctx w = None -> initializeCanvas w = w.
Proof. unfold initializeCanvas. intros ->. reflexivity. Qed.

Lemma drawGridDots_logs (w : World) :
  is_Some (ctx w) ->
  console (drawGridDots w) = console w /\
  uncaught (drawGridDots w) = uncaught w /\
  fileInputValue (drawGridDots w) = fileInputValue w.
Proof.
  intros [c Hc]. unfold drawGridDots. rewrite Hc.
  destruct (kolamData w); repeat split.
Qed.

Lemma initializeCanvas_logs (w : World) :
  console (initializeCanvas w) = console w /\
  uncaught (initializeCanvas w) = uncaught w /\
  fileInputValue (initializeCanvas w) = fileInputValue w.
Proof.
  unfold initializeCanvas. destruct (ctx w) as [c|]; [|repeat split].
  cbv zeta.
  match goal with |- context [drawGridDots ?x] =>
    assert (Hx : is_Some (ctx x)) by (simpl; eauto);
    pose proof (drawGridDots_logs x Hx) as H;
    set (w1 := drawGridDots x) in *
  end.
  clearbody w1. simpl in *. exact H.
Qed.

Lemma initializeCanvas_text (w : World) :
  textContent (initializeCanvas w)
  = match ctx w with
    | Some _ => <["playIcon" := glyph_play]> (textContent w)
    | None => textContent w
    end.
Proof.
  unfold initializeCanvas. destruct (ctx w) as [c|]; [|reflexivity].
  cbv zeta.
  match goal with |- context [drawGridDots ?x] =>
    destruct (drawGridDots_frame x) as (_ & _ & _ & _ & Ht & _);
    set (w1 := drawGridDots x) in *
  end.
  clearbody w1. simpl in *. rewrite Ht. reflexivity.
Qed.

Lemma initializeCanvas_state_none (w : World) :
  ctx w = None ->
  animationState (initializeCanvas w) = animationState w /\
  ctx (initializeCanvas w) = None.
Proof. intros H. rewrite (initializeCanvas_none w H). auto. Qed.

(** The world [displayResults] hands to [initializeCanvas]. *)
Lemma displayResults_normal (w : World) (r : PatternRecord) :
  kolamData w = Some r ->
  exists w1 : World,
    displayResults Number_toString w = Normal (initializeCanvas w1) /\
    kolamData w1 = Some r /\
    ctx w1 = ctx w /\ animationState w1 = animationState w /\
    lastFrameTime w1 = lastFrameTime w /\
    pendingFrames w1 = pendingFrames w /\ nextFrameId w1 = nextFrameId w /\
    alerts w1 = alerts w /\ downloads w1 = downloads w /\
    requests w1 = requests w /\ console w1 = console w /\
    uncaught w1 = uncaught w /\ fileInputValue w1 = fileInputValue w /\
    classes w1
    = (classes w ∖ {[ ("uploadScreen", "active") ]})
      ∪ {[ ("resultsScreen", "active") ]} /\
    textContent w1
    = <["totalPoints" :=
          Number_toString (Number.of_Z (Z.of_nat (length (dots (grid r)))))]>
      (<["gridDimensions" := times_text Number_toString (dimensions (grid r))]>
      (<["gridType" := grid_type (grid r)]>
      (<["rSquared" := Number_toString (r_squared (equations r))]>
      (<["domain" :=
           "[" +:+ Number_toString (fst (domain (equations r))) +:+ ", "
           +:+ Number_toString (snd (domain (equations r))) +:+ "]"]>
      (<["yEquation" := y_function (equations r)]>
      (<["xEquation" := x_function (equations r)]>
      (<["complexity" := complexity r]>
      (<["gridSize" := times_text Number_toString (dimensions (grid r))]>
      (<["symmetry" := symmetry r]>
      (<["patternType" := type r]> (textContent w))))))))))).
Proof.
  intros Hk. unfold displayResults. cbv zeta.
  change (kolamData (addClass "resultsScreen" "active"
                       (removeClass "uploadScreen" "active" w)))
    with (kolamData w).
  rewrite Hk. eexists. split; [reflexivity|].
  simpl. rewrite Hk. repeat split; reflexivity.
Qed.

(** X6.  When the analysis answers [success: true] with a record, the
    record becomes the one on display, the results screen replaces the
    upload screen, and the eleven text fields show the record's values.
    Nothing is alerted, requested, downloaded or logged, the speed and
    the frame baseline stay, and the upload indicator is not hidden
    again.  A frame callback that is pending stays pending.  With a
    canvas the picture is cleared and the grid dots drawn, the cursor
    is rewound and playback is off with the play glyph shown; without
    one the animation state and the play glyph are not touched. *)
Theorem upload_success_presents
    (w : World) (result : AnalyzeResult) (r : PatternRecord) :
  analyze_success result = true ->
  analyze_data result = Some r ->
  let w' := handleFileUpload_then Number_toString (Fulfilled result) w in
  kolamData w' = Some r /\
  (textContent w' !! "patternType" = Some (type r) /\
   textContent w' !! "symmetry" = Some (symmetry r) /\
   textContent w' !! "gridSize"
   = Some (times_text Number_toString (dimensions (grid r))) /\
   textContent w' !! "complexity" = Some (complexity r) /\
   textContent w' !! "xEquation" = Some (x_function (equations r)) /\
   textContent w' !! "yEquation" = Some (y_function (equations r)) /\
   textContent w' !! "domain"
   = Some ("[" +:+ Number_toString (fst (domain (equations r))) +:+ ", "
           +:+ Number_toString (snd (domain (equations r))) +:+ "]") /\
   textContent w' !! "rSquared"
   = Some (Number_toString (r_squared (equations r))) /\
   textContent w' !! "gridType" = Some (grid_type (grid r)) /\
   textContent w' !! "gridDimensions"
   = Some (times_text Number_toString (dimensions (grid r))) /\
   textContent w' !! "totalPoints"
   = Some (Number_toString
             (Number.of_Z (Z.of_nat (length (dots (grid r))))))) /\
  (classes w'
   = (classes w ∖ {[ ("uploadScreen", "active") ]})
     ∪ {[ ("resultsScreen", "active") ]} /\
   (("uploadStatus", "hidden") ∈ classes w'
    <-> ("uploadStatus", "hidden") ∈ classes w)) /\
  (alerts w' = alerts w /\ requests w' = requests w /\
   downloads w' = downloads w /\ console w' = console w /\
   uncaught w' = uncaught w) /\
  (pendingFrames w' = pendingFrames w /\
   animationId (animationState w') = animationId (animationState w) /\
   speed (animationState w') = speed (animationState w) /\
   lastFrameTime w' = lastFrameTime w) /\
  match ctx w with
  | Some c =>
    cursor w' = (0, 0) /\ playing w' = false /\
    playIcon w' = Some glyph_play /\
    surface w'
    = Canvas.painted c ++ clear_paint c :: dot_paints c (dots (grid r))
  | None =>
    animationState w' = animationState w /\ playIcon w' = playIcon w /\
    ctx w' = None
  end.
Proof.
  intros Hs Hd w'. subst w'. unfold handleFileUpload_then. rewrite Hs, Hd.
  destruct (displayResults_normal (with_kolamData (Some r) w) r eq_refl)
    as (w1 & -> & Hk & Hc & Ha & Hl & Hp & Hn & Hal & Hdl & Hrq & Hco & Hun
        & Hfi & Hcl & Htx).
  simpl in Hc, Ha, Hl, Hp, Hn, Hal, Hdl, Hrq, Hco, Hun, Hfi, Hcl, Htx.
  destruct (initializeCanvas_frame w1) as (Ik & Ip & In' & Iid & Isp & Il).
  destruct (initializeCanvas_untouched w1) as (_ & Ial & Idl & Irq & Icl).
  destruct (initializeCanvas_logs w1) as (Ico & Iun & _).
  pose proof (initializeCanvas_text w1) as Itx.
  set (w2 := initializeCanvas w1) in *.
  assert (Hlook : forall k : string,
             k <> "playIcon" -> textContent w2 !! k = textContent w1 !! k).
  { intros k Hne. rewrite Itx. destruct (ctx w1); [|reflexivity].
    rewrite lookup_insert_ne; [reflexivity | congruence]. }
  split; [congruence|].
  split.
  { repeat split; (rewrite Hlook; [|discriminate]); rewrite Htx;
      simplify_map_eq; reflexivity. }
  split.
  { rewrite Icl, Hcl. split; [reflexivity | set_solver]. }
  split; [repeat split; congruence|].
  split; [repeat split; congruence|].
  destruct (ctx w) as [c|] eqn:Hcw.
  - destruct (initializeCanvas_cursor w1 c Hc) as (C1 & C2 & C3).
    repeat split; [exact C1 | exact C2 | exact C3 |].
    fold w2. unfold w2. rewrite (initializeCanvas_surface w1 c Hc).
    unfold redrawn. rewrite Hk. reflexivity.
  - unfold w2. rewrite (initializeCanvas_none w1 Hc).
    unfold playIcon. rewrite Ha, Htx, Hc.
    repeat split. simplify_map_eq. reflexivity.
Qed.

(** X7.  The [catch] block of the upload.  When the request or the
    parsing fails, the connection alert is shown, the error is logged,
    the indicator is hidden, and the record, the texts, the canvas and
    the animation are left alone.  When the answer says [success: true]
    but carries no record, the record on display is lost, the results
    screen is shown all the same, no text field is written, and the
    same connection alert is shown. *)
Theorem upload_catch_block (w : World) :
  (forall reason : string,
     let w' := handleFileUpload_then Number_toString (Rejected reason) w in
     alerts w' = alerts w ++ [connect_alert] /\
     console w' = console w ++ ["Upload error:"] /\
     classes w' = classes w ∪ {[ ("uploadStatus", "hidden") ]} /\
     kolamData w' = kolamData w /\
     textContent w' = textContent w /\ ctx w' = ctx w /\
     animationState w' = animationState w /\
     pendingFrames w' = pendingFrames w /\
     requests w' = requests w /\ downloads w' = downloads w) /\
  (forall result : AnalyzeResult,
     analyze_success result = true ->
     analyze_data result = None ->
     let w' := handleFileUpload_then Number_toString (Fulfilled result) w in
     kolamData w' = None /\
     alerts w' = alerts w ++ [connect_alert] /\
     console w' = console w ++ ["Upload error:"] /\
     classes w'
     = ((classes w ∖ {[ ("uploadScreen", "active") ]})
        ∪ {[ ("resultsScreen", "active") ]})
       ∪ {[ ("uploadStatus", "hidden") ]} /\
     textContent w' = textContent w /\ ctx w' = ctx w /\
     animationState w' = animationState w /\
     pendingFrames w' = pendingFrames w /\
     requests w' = requests w /\ downloads w' = downloads w).
Proof.
  split.
  - intros reason w'. subst w'. simpl. repeat split.
  - intros result Hs Hd w'. subst w'.
    unfold handleFileUpload_then. rewrite Hs, Hd.
    unfold displayResults. cbv zeta. simpl. repeat split.
Qed.

(** X8.  An upload that is answered while the animation is playing
    stops playback but does not cancel the frame callback that is
    pending.  If that callback runs next it does nothing.  If play is
    clicked first and the click is throttled, a second callback is
    scheduled beside it: two frame callbacks are then pending. *)
Theorem upload_during_playback
    (w : World) (result : AnalyzeResult) (r : PatternRecord) (h : Z) :
  pendingFrames w = {[ h ]} -> h < nextFrameId w ->
  is_Some (ctx w) ->
  analyze_success result = true -> analyze_data result = Some r ->
  let w' := handleFileUpload_then Number_toString (Fulfilled result) w in
  pendingFrames w' = {[ h ]} /\ playing w' = false /\
  (forall ts : num,
     let w1 := step Number_toString (EvFrame h ts) w' in
     pendingFrames w1 = ∅ /\ playing w1 = false /\
     cursor w1 = (0, 0) /\ surface w1 = surface w' /\
     lastFrameTime w1 = lastFrameTime w) /\
  (throttled (Number.of_Z 0) w = true ->
   let w1 := togglePlayPause w' in
   pendingFrames w1 = {[ h; nextFrameId w ]} /\
   size (pendingFrames w1) = 2%nat /\ playing w1 = true).
Proof.
  intros Hp Hlt [c Hc] Hs Hd w'. subst w'.
  unfold handleFileUpload_then. rewrite Hs, Hd.
  destruct (displayResults_normal (with_kolamData (Some r) w) r eq_refl)
    as (w1 & -> & Hk1 & Hc1 & Ha1 & Hl1 & Hp1 & Hn1 & _).
  simpl in Hc1, Ha1, Hl1, Hp1, Hn1.
  rewrite Hc in Hc1.
  destruct (initializeCanvas_frame w1) as (_ & Ip & In' & _ & Isp & Il).
  destruct (initializeCanvas_cursor w1 c Hc1) as (C1 & C2 & _).
  set (w2 := initializeCanvas w1) in *. clearbody w2.
  rewrite Hp1, Hp in Ip. rewrite Hn1 in In'. rewrite Ha1 in Isp.
  rewrite Hl1 in Il.
  split; [exact Ip|]. split; [exact C2|]. split.
  - intros ts. cbv zeta. unfold step.
    rewrite decide_True by (rewrite Ip; set_solver).
    rewrite animate_paused by exact C2.
    unfold surface, cursor, playing in *. simpl.
    repeat split; try assumption. rewrite Ip. set_solver.
  - intros Hth. cbv zeta.
    assert (Hth2 : throttled (Number.of_Z 0)
                     (setText "playIcon" glyph_pause
                        (set_isPlaying true w2)) = true).
    { unfold throttled in *. simpl. rewrite Isp, Il. exact Hth. }
    unfold togglePlayPause. cbv zeta.
    unfold playing in C2. rewrite C2. simpl negb.
    change (isPlaying (animationState (set_isPlaying true w2))) with true.
    cbv iota.
    rewrite animate_throttled; [|reflexivity|exact Hth2].
    unfold schedule, requestAnimationFrame, playing. simpl.
    rewrite Ip, In'.
    split; [reflexivity|]. split; [|reflexivity].
    rewrite size_union by (apply disjoint_singleton_l, not_elem_of_singleton; lia).
    rewrite !size_singleton. reflexivity.
Qed.

(** ** Back to the upload screen *)

Lemma cancel_pending_logs (w : World) :
  console (cancel_pending w) = console w /\
  uncaught (cancel_pending w) = uncaught w /\
  fileInputValue (cancel_pending w) = fileInputValue w.
Proof. unfold cancel_pending. repeat case_match; repeat split. Qed.

Lemma cancel_pending_drops (w : World) (h : Z) :
  animationId (animationState w) = Some h -> h <> 0 ->
  h ∉ pendingFrames (cancel_pending w).
Proof.
  intros Hid Hh. unfold cancel_pending. rewrite Hid.
  destruct (Z.eqb_spec h 0) as [|_]; [contradiction|].
  simpl. set_solver.
Qed.

Lemma resetApp_frame (w : World) :
  kolamData (resetApp w) = None /\
  alerts (resetApp w) = alerts w /\
  downloads (resetApp w) = downloads w /\
  requests (resetApp w) = requests w /\
  console (resetApp w) = console w /\
  uncaught (resetApp w) = uncaught w.
Proof.
  unfold resetApp. cbv zeta.
  destruct (cancel_pending_untouched w) as (_ & H1 & H2 & H3 & _).
  destruct (cancel_pending_logs w) as (H4 & H5 & _).
  set (w0 := cancel_pending w) in *. clearbody w0. simpl.
  repeat split; assumption.
Qed.

(** X9.  [resetApp] drops the record, rewinds the cursor, turns
    playback off, cancels the frame callback whose handle
    [animationId] holds, shows the upload screen in place of the
    results screen, hides the upload indicator and empties the file
    input.  It writes no text (the play control keeps its glyph), does
    not touch the canvas, the speed or the frame baseline, and alerts,
    requests and downloads nothing.  After it both exports do
    nothing. *)
Theorem resetApp_returns_to_upload (w : World) (now : string) :
  let w' := resetApp w in
  kolamData w' = None /\
  cursor w' = (0, 0) /\ playing w' = false /\
  classes w'
  = ((classes w ∖ {[ ("resultsScreen", "active") ]})
     ∪ {[ ("uploadScreen", "active") ]})
    ∪ {[ ("uploadStatus", "hidden") ]} /\
  fileInputValue w' = "" /\
  (textContent w' = textContent w /\ ctx w' = ctx w /\
   speed (animationState w') = speed (animationState w) /\
   animationId (animationState w') = animationId (animationState w) /\
   lastFrameTime w' = lastFrameTime w) /\
  (alerts w' = alerts w /\ requests w' = requests w /\
   downloads w' = downloads w) /\
  (forall h : Z,
     animationId (animationState w) = Some h -> h <> 0 ->
     h ∉ pendingFrames w') /\
  (frames_tracked w -> pendingFrames w' = ∅) /\
  exportSVG w' = w' /\
  saveEquation Number_toString now w' = w'.
Proof.
  intros w'.
  assert (Hk : kolamData w' = None) by apply resetApp_frame.
  destruct (resetApp_frame w) as (_ & Hal & Hdl & Hrq & _).
  fold w' in Hal, Hdl, Hrq.
  assert (Hexp : exportSVG w' = w' /\
                 saveEquation Number_toString now w' = w').
  { unfold exportSVG, saveEquation. rewrite Hk. split; reflexivity. }
  split; [exact Hk|].
  assert (Hrest :
    cursor w' = (0, 0) /\ playing w' = false /\
    classes w'
    = ((classes w ∖ {[ ("resultsScreen", "active") ]})
       ∪ {[ ("uploadScreen", "active") ]})
      ∪ {[ ("uploadStatus", "hidden") ]} /\
    fileInputValue w' = "" /\
    (textContent w' = textContent w /\ ctx w' = ctx w /\
     speed (animationState w') = speed (animationState w) /\
     animationId (animationState w') = animationId (animationState w) /\
     lastFrameTime w' = lastFrameTime w) /\
    pendingFrames w' = pendingFrames (cancel_pending w)).
  { unfold w', resetApp. cbv zeta.
    destruct (cancel_pending_frame w) as (_ & Ha & _ & Hc & Ht & Hl).
    destruct (cancel_pending_untouched w) as (_ & _ & _ & _ & Hcl).
    set (w0 := cancel_pending w) in *. clearbody w0.
    unfold cursor, playing. simpl. rewrite Ha, Hc, Ht, Hl, Hcl.
    repeat split. }
  destruct Hrest as (R1 & R2 & R3 & R4 & R5 & R6).
  split; [exact R1|]. split; [exact R2|]. split; [exact R3|].
  split; [exact R4|]. split; [exact R5|].
  split; [split; [exact Hal|split; [exact Hrq|exact Hdl]]|].
  split.
  { intros h Hid Hh. rewrite R6. apply cancel_pending_drops; assumption. }
  split; [|exact Hexp].
  intros Htr. rewrite R6. apply cancel_pending_clears, tracked_handle, Htr.
Qed.

(** X10.  An export answer that arrives after [resetApp] finds no
    record to name the file after: although the service answered
    [success: true], nothing is downloaded, the error is logged and
    [Failed to export SVG] is alerted. *)
Theorem export_answer_after_reset (w : World) (result : ExportResult) :
  export_success result = true ->
  let w' := exportSVG_then (Fulfilled result) (resetApp (exportSVG w)) in
  downloads w' = downloads w /\
  alerts w' = alerts w ++ ["Failed to export SVG"] /\
  console w' = console w ++ ["Export error:"] /\
  requests w' = requests (exportSVG w) /\
  kolamData w' = None.
Proof.
  intros Hs w'. subst w'. unfold exportSVG_then. rewrite Hs.
  destruct (resetApp_frame (exportSVG w)) as (Hk & Hal & Hdl & Hrq & Hco & _).
  rewrite Hk.
  assert (He : downloads (exportSVG w) = downloads w /\
               alerts (exportSVG w) = alerts w /\
               console (exportSVG w) = console w).
  { unfold exportSVG. destruct (kolamData w); repeat split. }
  destruct He as (E1 & E2 & E3).
  set (w1 := resetApp (exportSVG w)) in *. clearbody w1.
  unfold export_failed. simpl. rewrite Hal, Hdl, Hco, E1, E2, E3.
  repeat split; assumption.
Qed.

(** ** Speeds that switch the throttle off *)

Lemma ltb_NaN_r (x : num) : Number.ltb x Number.NaN = false.
Proof. destruct x as [?|?| |? ? ?]; reflexivity. Qed.

Lemma ltb_minus_Infinity (x : num) :
  Number.ltb x (S754_infinity true) = false.
Proof. destruct x as [?|[]| |[] ? ?]; reflexivity. Qed.

Lemma ltb_zero_nonneg (x : num) :
  Number.nonneg x = true -> Number.ltb x Number.zero = false.
Proof.
  destruct x as [?|[]| |[] ? ?]; simpl; intros H;
    try discriminate; reflexivity.
Qed.

(** X11.  A speed that is [NaN] (what [parseFloat] gives for a value
    it cannot read) or [-0] makes [frameDelay / speed] a threshold no
    elapsed time is below: every frame is accepted, whatever its
    timestamp.  With speed [Infinity] the threshold is 0, and every
    frame whose timestamp is not before the baseline is accepted. *)
Theorem unthrottled_speeds (w : World) (ts : num) :
  (Number.isNaN (speed (animationState w)) = true ->
   throttled ts w = false) /\
  (speed (animationState w) = S754_zero true -> throttled ts w = false) /\
  (speed (animationState w) = Number.Infinity ->
   Number.nonneg (Number.sub ts (lastFrameTime w)) = true ->
   throttled ts w = false).
Proof.
  unfold throttled. rewrite NumberFacts.frameDelay_value.
  split; [|split].
  - destruct (speed (animationState w)); try discriminate.
    intros _. apply ltb_NaN_r.
  - intros ->. apply ltb_minus_Infinity.
  - intros -> Hn. apply ltb_zero_nonneg, Hn.
Qed.

(** ** Frames that end in an exception *)

(** X12.  An accepted frame while playing ends in a [TypeError] when
    there is no record ([kolamData.paths] is read from [null]), and
    when there is no canvas and the current path has a next point
    ([ctx.strokeStyle] is assigned on [null]).  The error is not
    caught: playback stays on and the glyph stays, the cursor does not
    move, no frame is scheduled, and the timestamp has already become
    the baseline. *)
Theorem animate_type_errors (ts : num) (w : World) :
  playing w = true -> throttled ts w = false ->
  kolamData w = None \/
  (ctx w = None /\
   exists (r : PatternRecord) (p : list Point),
     kolamData w = Some r /\
     js_index (paths r) (currentPathIndex (animationState w)) = Some p /\
     currentPointIndex (animationState w) < Z.of_nat (length p) - 1) ->
  let w' := animate ts w in
  uncaught w' = uncaught w ++ [TypeError] /\
  playing w' = true /\
  pendingFrames w' = pendingFrames w /\
  animationId (animationState w') = animationId (animationState w) /\
  cursor w' = cursor w /\ playIcon w' = playIcon w /\
  lastFrameTime w' = ts.
Proof.
  intros Hp Ht Hwhy w'. subst w'. unfold animate.
  unfold playing in Hp. rewrite Hp, Ht. simpl negb. cbv iota zeta.
  change (kolamData (with_lastFrameTime ts w)) with (kolamData w).
  destruct Hwhy as [Hk|(Hc & r & p & Hk & Hpath & Hlt)]; rewrite Hk.
  - unfold playing, cursor, playIcon. simpl. rewrite Hp. repeat split.
  - change (animationState (with_lastFrameTime ts w))
      with (animationState w).
    rewrite Hpath.
    destruct (Z.ltb_spec (currentPointIndex (animationState w))
                (Z.of_nat (length p) - 1)) as [_|]; [|lia].
    change (ctx (with_lastFrameTime ts w)) with (ctx w). rewrite Hc.
    unfold playing, cursor, playIcon. simpl. rewrite Hp. repeat split.
Qed.

Lemma animate_no_error (r : PatternRecord) (ts : num) (w : World) :
  kolamData w = Some r -> is_Some (ctx w) -> cursor_in_range r w ->
  uncaught (animate ts w) = uncaught w /\ is_Some (ctx (animate ts w)).
Proof.
  intros Hk [c Hc] (Hpath & Hpt & Hlen). unfold animate.
  destruct (negb (isPlaying (animationState w))); [eauto|].
  destruct (throttled ts w); [simpl; eauto|].
  cbv zeta.
  change (kolamData (with_lastFrameTime ts w)) with (kolamData w).
  change (animationState (with_lastFrameTime ts w)) with (animationState w).
  change (ctx (with_lastFrameTime ts w)) with (ctx w).
  rewrite Hk, Hc.
  destruct (js_index (paths r) (currentPathIndex (animationState w)))
    as [currentPath|] eqn:Hcur; [|simpl; eauto].
  destruct (Z.ltb_spec (currentPointIndex (animationState w))
              (Z.of_nat (length currentPath) - 1)) as [Hlt|Hge].
  - destruct (js_index_is_Some currentPath
                (currentPointIndex (animationState w))) as [a Ha]; [lia|].
    destruct (js_index_is_Some currentPath
                (currentPointIndex (animationState w) + 1)) as [b Hb]; [lia|].
    rewrite Ha, Hb. simpl. eauto.
  - case_match; simpl; rewrite Hc; eauto.
Qed.

Lemma step_no_error (r : PatternRecord) (e : Event) (w : World) :
  kolamData w = Some r -> is_Some (ctx w) -> cursor_in_range r w ->
  uncaught (step Number_toString e w) = uncaught w /\
  is_Some (ctx (step Number_toString e w)).
Proof.
  intros Hk Hc Hr. destruct e as [h ts| | |v]; simpl.
  - case_decide; [|auto].
    match goal with |- context [animate ts ?x] =>
      exact (animate_no_error r ts x Hk Hc Hr) end.
  - unfold togglePlayPause. cbv zeta. case_match.
    + match goal with |- context [animate ?t ?x] =>
        exact (animate_no_error r t x Hk Hc Hr) end.
    + match goal with |- context [cancel_pending ?x] =>
        destruct (cancel_pending_logs x) as (_ & -> & _);
        destruct (cancel_pending_frame x) as (_ & _ & _ & -> & _)
      end.
      simpl. auto.
  - split; [|apply resetAnimation_ctx, Hc].
    unfold resetAnimation. cbv zeta.
    match goal with |- context [initializeCanvas ?x] =>
      destruct (initializeCanvas_logs x) as (_ & -> & _) end.
    simpl. apply cancel_pending_logs.
  - auto.
Qed.

(** X13.  With a record on display, a canvas, and the cursor in the
    range the animation keeps it in, no sequence of frame callbacks,
    play/pause clicks, resets and speed changes ends in an uncaught
    exception. *)
Theorem animation_raises_no_error
    (es : list Event) (w : World) (r : PatternRecord) :
  kolamData w = Some r -> is_Some (ctx w) -> cursor_in_range r w ->
  uncaught (run Number_toString es w) = uncaught w.
Proof.
  revert w. induction es as [|e es IH]; intros w Hk Hc Hr; [reflexivity|].
  rewrite run_cons.
  destruct (step_no_error r e w Hk Hc Hr) as [Hu Hc1].
  rewrite IH; [exact Hu| |exact Hc1|].
  - rewrite step_kolamData. exact Hk.
  - apply step_in_range; assumption.
Qed.

(** ** Upload, then export *)

Lemma upload_success_frame
    (w : World) (result : AnalyzeResult) (r : PatternRecord) :
  analyze_success result = true ->
  analyze_data result = Some r ->
  let w' := handleFileUpload_then Number_toString (Fulfilled result) w in
  kolamData w' = Some r /\ alerts w' = alerts w /\
  downloads w' = downloads w /\ requests w' = requests w.
Proof.
  intros Hs Hd w'. subst w'. unfold handleFileUpload_then. rewrite Hs, Hd.
  destruct (displayResults_normal (with_kolamData (Some r) w) r eq_refl)
    as (w1 & -> & Hk & _ & _ & _ & _ & _ & Hal & Hdl & Hrq & _).
  simpl in Hal, Hdl, Hrq.
  destruct (initializeCanvas_untouched w1) as (H1 & H2 & H3 & H4 & _).
  rewrite H1, H2, H3, H4. auto.
Qed.

(** X14.  Whatever the animation controls and frame callbacks did since
    a successful upload, the exports work on the record that upload
    brought: [exportSVG] sends its paths and grid dots, the SVG that
    comes back is saved under the record's id, and [saveEquation]
    saves the text made from the record under the record's id. *)
Theorem exports_follow_upload
    (w : World) (result : AnalyzeResult) (r : PatternRecord)
    (es : list Event) (now : string) :
  analyze_success result = true ->
  analyze_data result = Some r ->
  let w' :=
    run Number_toString es
      (handleFileUpload_then Number_toString (Fulfilled result) w) in
  kolamData w' = Some r /\
  requests (exportSVG w') = requests w ++ [export_request r] /\
  (forall (answer : ExportResult) (svg : string),
     export_success answer = true -> export_svg answer = Some svg ->
     downloads (exportSVG_then (Fulfilled answer) (exportSVG w'))
     = downloads w ++
       [{| filename := "kolam_" +:+ id r +:+ ".svg";
           mime := "image/svg+xml"; content := svg |}]) /\
  downloads (saveEquation Number_toString now w')
  = downloads w ++
    [{| filename := "kolam_equations_" +:+ id r +:+ ".txt";
        mime := "text/plain";
        content := equationData Number_toString now r |}].
Proof.
  intros Hs Hd w'.
  destruct (upload_success_frame w result r Hs Hd) as (Hk & _ & Hdl & Hrq).
  destruct (run_untouched es
              (handleFileUpload_then Number_toString (Fulfilled result) w))
    as (Rk & _ & Rdl & Rrq & _).
  fold w' in Rk, Rdl, Rrq.
  rewrite Hk in Rk. rewrite Hdl in Rdl. rewrite Hrq in Rrq.
  clearbody w'.
  split; [exact Rk|]. split; [|split].
  - unfold exportSVG. rewrite Rk. simpl. rewrite Rrq. reflexivity.
  - intros answer svg Ha Hsvg. unfold exportSVG, exportSVG_then.
    rewrite Rk, Ha. simpl. rewrite Rk, Hsvg. simpl. rewrite Rdl.
    reflexivity.
  - unfold saveEquation. rewrite Rk. simpl. rewrite Rdl. reflexivity.
Qed.

(** ** Reset, then play again *)

Lemma frames_surface_grows (tss : list num) : forall w : World,
  exists more, surface (frames tss w) = surface w ++ more.
Proof.
  induction tss as [|t rest IH]; intros w.
  - exists []. rewrite app_nil_r. reflexivity.
  - rewrite frames_cons. destruct (IH (animate t w)) as [m2 ->].
    destruct (animate_surface_grows t w) as [m1 ->].
    exists (m1 ++ m2). rewrite app_assoc. reflexivity.
Qed.

(** X15.  Reset followed by play replays the whole record on a cleared
    canvas.  After the reset and a play click that is throttled, paced
    timestamps, as many as the record needs, leave on the canvas the
    black rectangle, the grid dots, and then paints whose line
    segments are exactly the pairs of consecutive points of every
    path, in order; the cursor is at the end.  Unless the record has
    no path, playback is off with the play glyph; for a record without
    paths no timestamp is needed, and playback is still on with the
    pause glyph, waiting for its first frame. *)
Theorem replay_after_reset
    (w : World) (r : PatternRecord) (c : Canvas.Context2D)
    (tss : list num) :
  kolamData w = Some r -> ctx w = Some c ->
  throttled (Number.of_Z 0) w = true ->
  paced (Number.div frameDelay (speed (animationState w)))
        (lastFrameTime w) tss ->
  length tss = frames_needed (paths r) ->
  let w' := frames tss (togglePlayPause (resetAnimation w)) in
  (exists more : list Canvas.Paint,
     surface w'
     = Canvas.painted c ++
       clear_paint c :: dot_paints c (dots (grid r)) ++ more /\
     strokes more = all_segments (paths r)) /\
  cursor w' = (Z.of_nat (length (paths r)), 0) /\
  (paths r <> [] ->
   playing w' = false /\ playIcon w' = Some glyph_play) /\
  (paths r = [] ->
   playing w' = true /\ playIcon w' = Some glyph_pause).
Proof.
  intros Hk Hc Hth Hpaced Hlen w'.
  destruct (resetAnimation_cursor w) as (Hcur & Hpl & _).
  destruct (resetAnimation_frames w) as (_ & _ & Hk0 & Hsp0 & Hl0).
  pose proof (resetAnimation_surface w c Hc) as Hsf.
  pose proof (resetAnimation_ctx w (ex_intro _ c Hc)) as Hc0.
  set (w0 := resetAnimation w) in *.
  assert (Hstart : togglePlayPause w0
                   = schedule (setText "playIcon" glyph_pause
                                 (set_isPlaying true w0))).
  { unfold togglePlayPause. cbv zeta. unfold playing in Hpl. rewrite Hpl.
    simpl negb.
    change (isPlaying (animationState (set_isPlaying true w0))) with true.
    cbv iota. apply animate_throttled; [reflexivity|].
    unfold throttled in *. simpl. rewrite Hsp0, Hl0. exact Hth. }
  set (w1 := togglePlayPause w0) in *.
  assert (F : kolamData w1 = Some r /\ playing w1 = true /\
              is_Some (ctx w1) /\ cursor w1 = (0, 0) /\
              surface w1 = redrawn w c /\
              speed (animationState w1) = speed (animationState w) /\
              lastFrameTime w1 = lastFrameTime w /\
              playIcon w1 = Some glyph_pause).
  { rewrite Hstart. clearbody w0.
    unfold cursor, playing, surface, playIcon in *. simpl.
    rewrite Hk0, Hk. injection Hcur as -> ->.
    split; [reflexivity|]. split; [reflexivity|]. split; [exact Hc0|].
    split; [reflexivity|]. split; [exact Hsf|]. split; [exact Hsp0|].
    split; [exact Hl0 | apply lookup_insert_eq]. }
  clearbody w1. clear Hstart.
  destruct F as (Hk1 & Hp1 & Hc1 & Hcur1 & Hsf1 & Hsp1 & Hl1 & Hic1).
  destruct (paths r) as [|p todo] eqn:Hpaths.
  { apply length_zero_iff_nil in Hlen. subst tss. subst w'.
    change (frames [] w1) with w1.
    split.
    { exists []. rewrite Hsf1. unfold redrawn. rewrite Hk, app_nil_r.
      split; reflexivity. }
    split; [exact Hcur1|].
    split; [intros Hne; contradiction | intros _; auto]. }
  destruct (frames_play r tss w1 [] todo p 0%nat Hpaths Hk1 Hp1 Hc1 Hcur1)
    as (Hs & Hcu & Hpl' & Hic).
  { rewrite Hsp1, Hl1. exact Hpaced. }
  { rewrite Hlen, Nat.sub_0_r. reflexivity. }
  fold w' in Hs, Hcu, Hpl', Hic.
  destruct (frames_surface_grows tss w1) as [more Hmore].
  fold w' in Hmore. clearbody w'.
  rewrite Hpaths in Hcu.
  split; [|split; [exact Hcu | split; [auto | discriminate]]].
  exists more. rewrite Hmore, Hsf1. unfold redrawn. rewrite Hk.
  split; [rewrite <- app_assoc; reflexivity|].
  rewrite Hmore, strokes_app in Hs. apply app_inv_head in Hs.
  exact Hs.
Qed.
End Properties.

(** * The properties at the sample data *)

(** The record with paths [[[0,0],[10,0]], [[5,5]]]: playing it to the
    end paints, on top of the redraw, exactly the segment from [0,0] to
    [10,0] with its highlight, passes the one-point path without
    painting, and ends stopped with the play glyph and nothing pending. *)
Example sample_playback :
  cursor sample_complete = (2, 0) /\
  playing sample_complete = false /\
  playIcon sample_complete = Some glyph_play /\
  pendingFrames sample_complete = ∅ /\
  exists p1 p2 : Canvas.Pen,
    surface sample_complete
    = surface (sample_loaded sample_record) ++
      [Canvas.Stroke p1
         [Canvas.MoveTo (Number.of_Z 0) (Number.of_Z 0);
          Canvas.LineTo (Number.of_Z 10) (Number.of_Z 0)];
       Canvas.Fill p2
         [Canvas.Arc (Number.of_Z 10) (Number.of_Z 0) (Number.of_Z 6)
            (Number.of_Z 0) two_pi]].
Proof.
  split; [vm_compute; reflexivity|]. split; [vm_compute; reflexivity|].
  split; [vm_compute; reflexivity|]. split; [vm_compute; reflexivity|].
  do 2 eexists. vm_compute. reflexivity.
Qed.

Lemma animate_accepted_frame_witness :
  playing sample_playing = true /\
  throttled (Number.of_Z 100) sample_playing = false /\
  kolamData sample_playing = Some sample_record /\
  0 <= currentPointIndex (animationState sample_playing) /\
  lastFrameTime (animate (Number.of_Z 100) sample_playing) = Number.of_Z 100 /\
  cursor (animate (Number.of_Z 100) sample_playing) = (0, 1) /\
  playing (animate (Number.of_Z 100) sample_playing) = true.
Proof.
  assert (H1 : playing sample_playing = true) by (vm_compute; reflexivity).
  assert (H2 : throttled (Number.of_Z 100) sample_playing = false)
    by (vm_compute; reflexivity).
  assert (H3 : kolamData sample_playing = Some sample_record)
    by (vm_compute; reflexivity).
  assert (H4 : 0 <= currentPointIndex (animationState sample_playing))
    by (vm_compute; discriminate).
  destruct (animate_accepted_frame sample_playing (Number.of_Z 100)
              sample_record H1 H2 H3 H4) as (Hb & Hdraw & _).
  assert (Hc : exists c, ctx sample_playing = Some c) by (vm_compute; eauto).
  destruct Hc as [c Hc].
  assert (H5 : js_index (paths sample_record)
                 (currentPathIndex (animationState sample_playing))
               = Some [pt 0 0; pt 10 0]) by (vm_compute; reflexivity).
  assert (H6 : currentPointIndex (animationState sample_playing)
               < Z.of_nat (length [pt 0 0; pt 10 0]) - 1)
    by (vm_compute; reflexivity).
  destruct (Hdraw [pt 0 0; pt 10 0] c H5 H6 Hc) as
    (s & e & p1 & p2 & _ & _ & _ & _ & _ & _ & _ & _ & _ & _ & _ & Hcur & Hp & _).
  refine (conj H1 (conj H2 (conj H3 (conj H4 (conj Hb (conj _ Hp)))))).
  rewrite Hcur. vm_compute. reflexivity.
Defined.

(** C1, the claim as written, fails where no current path exists: after
    a play click on the finished animation the machine is playing with
    the path index equal to the number of paths; the accepted frame
    leaves the path index where it is instead of advancing it. *)
Lemma animate_no_current_path_counterexample :
  playing sample_replayed = true /\
  throttled (Number.of_Z 400) sample_replayed = false /\
  js_index (paths sample_record)
    (currentPathIndex (animationState sample_replayed)) = None /\
  currentPathIndex (animationState sample_replayed) = 2 /\
  currentPathIndex
    (animationState (animate (Number.of_Z 400) sample_replayed)) = 2 /\
  currentPathIndex
    (animationState (animate (Number.of_Z 400) sample_replayed))
  <> currentPathIndex (animationState sample_replayed) + 1.
Proof. vm_compute. repeat split; try reflexivity. discriminate. Qed.

Lemma animate_throttle_witness :
  playing sample_playing = true /\
  throttled (Number.of_Z 16) sample_playing = true /\
  surface (animate (Number.of_Z 16) sample_playing) = surface sample_playing /\
  cursor (animate (Number.of_Z 16) sample_playing) = cursor sample_playing /\
  lastFrameTime (animate (Number.of_Z 16) sample_playing)
  = lastFrameTime sample_playing /\
  Number.ltb Number.zero (speed (animationState sample_playing)) = true /\
  Number.isFinite (Number.of_Z 100) = true /\
  Number.isFinite (lastFrameTime sample_playing) = true /\
  throttled (Number.of_Z 100) sample_playing = false /\
  Number.leb (Number.div frameDelay (speed (animationState sample_playing)))
    (Number.sub (Number.of_Z 100) (lastFrameTime sample_playing)) = true.
Proof.
  assert (H1 : playing sample_playing = true) by (vm_compute; reflexivity).
  assert (H2 : throttled (Number.of_Z 16) sample_playing = true)
    by (vm_compute; reflexivity).
  assert (H3 : Number.ltb Number.zero (speed (animationState sample_playing))
               = true) by (vm_compute; reflexivity).
  assert (H4 : Number.isFinite (Number.of_Z 100) = true)
    by (vm_compute; reflexivity).
  assert (H5 : Number.isFinite (lastFrameTime sample_playing) = true)
    by (vm_compute; reflexivity).
  assert (H6 : throttled (Number.of_Z 100) sample_playing = false)
    by (vm_compute; reflexivity).
  destruct animate_throttle as (Hthr & Hmin & _).
  destruct (Hthr sample_playing (Number.of_Z 16) H1 H2)
    as (_ & Hs & Hc & Hl & _).
  destruct (Hmin sample_playing (Number.of_Z 100) H1 H3 H4 H5) as (Hiff & _).
  exact (conj H1 (conj H2 (conj Hs (conj Hc (conj Hl (conj H3 (conj H4
           (conj H5 (conj H6 (proj1 Hiff H6)))))))))).
Defined.

Lemma resetAnimation_restarts_witness :
  animationId (animationState sample_midway) = Some 2 /\
  frames_tracked sample_midway /\
  kolamData sample_midway = Some sample_record /\
  is_Some (ctx sample_midway) /\
  cursor sample_midway = (0, 1) /\
  cursor (resetAnimation sample_midway) = (0, 0) /\
  playing (resetAnimation sample_midway) = false /\
  pendingFrames (resetAnimation sample_midway) = ∅ /\
  (2 ∉ pendingFrames (resetAnimation sample_midway)) /\
  exists extra : list Canvas.Paint,
    surface
      (run sample_toString
         [EvFrame 3 (Number.of_Z 500); EvFrame 4 (Number.of_Z 760)]
         (togglePlayPause (resetAnimation sample_midway)))
    = surface (resetAnimation sample_midway) ++ extra /\
    starts_with_segment (pt 0 0) (pt 10 0) extra /\
    throttled (Number.of_Z 0) sample_midway = true /\
    throttled (Number.of_Z 500) sample_midway = false /\
    cursor
      (step sample_toString
         (EvFrame (nextFrameId sample_midway) (Number.of_Z 500))
         (togglePlayPause (resetAnimation sample_midway))) = (0, 1).
Proof.
  assert (H1 : animationId (animationState sample_midway) = Some 2)
    by (vm_compute; reflexivity).
  assert (H2 : frames_tracked sample_midway).
  { split; [vm_compute; reflexivity|]. right. exists 2.
    split; [vm_compute; reflexivity|].
    split; [exact H1|]. split; [discriminate | vm_compute; reflexivity]. }
  assert (H3 : kolamData sample_midway = Some sample_record)
    by (vm_compute; reflexivity).
  assert (H4 : is_Some (ctx sample_midway)) by (vm_compute; eauto).
  assert (H5 : cursor sample_midway = (0, 1)) by (vm_compute; reflexivity).
  assert (H6 : paths sample_record = (pt 0 0 :: pt 10 0 :: []) :: [[pt 5 5]])
    by reflexivity.
  assert (H7 : frames_only (fun _ => True)
                 [EvFrame 3 (Number.of_Z 500); EvFrame 4 (Number.of_Z 760)]).
  { repeat constructor. }
  assert (H8 : throttled (Number.of_Z 0) sample_midway = true)
    by (vm_compute; reflexivity).
  assert (H9 : throttled (Number.of_Z 500) sample_midway = false)
    by (vm_compute; reflexivity).
  destruct (resetAnimation_restarts sample_toString sample_midway)
    as (Hcur & Hplay & _ & _ & Hcancel & Hnone & _ & _ & Hnext & Hfirst).
  destruct (Hnext sample_record (pt 0 0) (pt 10 0) [] [[pt 5 5]] _ H3 H4 H6 H7)
    as (extra & Hextra & Hseg & _).
  destruct (Hfirst sample_record (pt 0 0) (pt 10 0) [] [[pt 5 5]] H3 H4 H6)
    as (_ & Hwait).
  destruct (Hwait H8) as (_ & _ & _ & _ & Hframe).
  destruct (Hframe (Number.of_Z 500) H9) as (_ & Hmoved & _).
  split; [exact H1|]. split; [exact H2|]. split; [exact H3|].
  split; [exact H4|]. split; [exact H5|]. split; [exact Hcur|].
  split; [exact Hplay|]. split; [exact (Hnone H2)|].
  split; [apply (Hcancel 2 H1); discriminate|].
  exists extra. split; [exact Hextra|]. split; [exact Hseg|].
  split; [exact H8|]. split; [exact H9 | exact Hmoved].
Defined.

(** C3, the claim as written, fails where a frame is pending that
    [animationId] no longer holds: two files are sent before the first
    answer arrives, play is clicked after the first answer (frame 1),
    the second answer stops playback without cancelling that frame,
    and play is clicked again (frame 2).  Reset then cancels frame 2
    only; frame 1 is still pending. *)
Lemma reset_leaves_frame_counterexample :
  pendingFrames sample_two_pending = {[ 1; 2 ]} /\
  animationId (animationState sample_two_pending) = Some 2 /\
  pendingFrames (resetAnimation sample_two_pending) = {[ 1 ]} /\
  1 ∈ pendingFrames (resetAnimation sample_two_pending).
Proof.
  assert (H : pendingFrames (resetAnimation sample_two_pending) = {[ 1 ]})
    by (vm_compute; reflexivity).
  split; [vm_compute; reflexivity|]. split; [vm_compute; reflexivity|].
  split; [exact H|]. rewrite H. set_solver.
Qed.

Lemma cursor_stays_in_range_witness :
  kolamData (sample_loaded sample_record) = Some sample_record /\
  cursor (sample_loaded sample_record) = (0, 0) /\
  (0 <= currentPathIndex (animationState sample_complete)
     <= Z.of_nat (length (paths sample_record))) /\
  0 <= currentPointIndex (animationState sample_complete).
Proof.
  assert (H1 : kolamData (sample_loaded sample_record) = Some sample_record)
    by (vm_compute; reflexivity).
  assert (H2 : cursor (sample_loaded sample_record) = (0, 0))
    by (vm_compute; reflexivity).
  destruct (cursor_stays_in_range sample_toString sample_record
              (sample_loaded sample_record) sample_three_frames H1 H2)
    as (_ & Hpath & Hpoint & _).
  exact (conj H1 (conj H2 (conj Hpath Hpoint))).
Defined.

(** C4, the claim as written, fails on an empty path: once the cursor
    is on the empty second path, the point index 0 is outside
    [0 .. currentPath.length - 1], which is the empty range
    [0 .. -1]. *)
Lemma cursor_range_empty_path_counterexample :
  kolamData sample_on_empty_path = Some sample_record_empty_path /\
  js_index (paths sample_record_empty_path)
    (currentPathIndex (animationState sample_on_empty_path)) = Some [] /\
  currentPointIndex (animationState sample_on_empty_path) = 0 /\
  ~ (0 <= currentPointIndex (animationState sample_on_empty_path)
       <= Z.of_nat (length ([] : list Point)) - 1).
Proof.
  assert (H : currentPointIndex (animationState sample_on_empty_path) = 0)
    by (vm_compute; reflexivity).
  split; [vm_compute; reflexivity|]. split; [vm_compute; reflexivity|].
  split; [exact H|]. rewrite H. simpl. lia.
Qed.

Lemma upload_failure_surfaced_witness :
  analyze_success sample_failure = false /\
  analyze_error sample_failure = Some "No kolam pattern found" /\
  alerts (handleFileUpload_then sample_toString (Fulfilled sample_failure)
            sample_midway)
  = alerts sample_midway ++ ["Error analyzing image: No kolam pattern found"] /\
  kolamData (handleFileUpload_then sample_toString (Fulfilled sample_failure)
               sample_midway)
  = kolamData sample_midway /\
  requests (handleFileUpload_then sample_toString (Fulfilled sample_failure)
              sample_midway)
  = requests sample_midway.
Proof.
  destruct (upload_failure_surfaced sample_toString sample_midway
              sample_failure "No kolam pattern found" eq_refl eq_refl)
    as (Ha & _ & Hr & Hk & _).
  exact (conj eq_refl (conj eq_refl (conj Ha (conj Hk Hr)))).
Defined.

Lemma togglePlayPause_transitions_witness :
  (playing (sample_loaded sample_record) = false /\
   throttled (Number.of_Z 0) (sample_loaded sample_record) = true /\
   playing (togglePlayPause (sample_loaded sample_record)) = true /\
   pendingFrames (togglePlayPause (sample_loaded sample_record))
   = pendingFrames (sample_loaded sample_record)
     ∪ {[ nextFrameId (sample_loaded sample_record) ]}) /\
  (playing sample_playing = true /\
   frames_tracked sample_playing /\
   playing (togglePlayPause sample_playing) = false /\
   pendingFrames (togglePlayPause sample_playing) = ∅) /\
  (playing sample_complete = false /\
   kolamData sample_complete = Some sample_record /\
   js_index (paths sample_record)
     (currentPathIndex (animationState sample_complete)) = None /\
   throttled (Number.of_Z 0) sample_complete = true /\
   throttled (Number.of_Z 400) sample_complete = false /\
   playing (togglePlayPause sample_complete) = true /\
   playing
     (step sample_toString
        (EvFrame (nextFrameId sample_complete) (Number.of_Z 400))
        (togglePlayPause sample_complete)) = false /\
   cursor
     (step sample_toString
        (EvFrame (nextFrameId sample_complete) (Number.of_Z 400))
        (togglePlayPause sample_complete)) = cursor sample_complete).
Proof.
  assert (A1 : playing (sample_loaded sample_record) = false)
    by (vm_compute; reflexivity).
  assert (A2 : throttled (Number.of_Z 0) (sample_loaded sample_record) = true)
    by (vm_compute; reflexivity).
  assert (B1 : playing sample_playing = true) by (vm_compute; reflexivity).
  assert (B2 : frames_tracked sample_playing).
  { split; [vm_compute; reflexivity|]. right. exists 1.
    split; [vm_compute; reflexivity|].
    split; [vm_compute; reflexivity|].
    split; [discriminate | exact B1]. }
  assert (C1 : playing sample_complete = false) by (vm_compute; reflexivity).
  assert (C2 : kolamData sample_complete = Some sample_record)
    by (vm_compute; reflexivity).
  assert (C3 : js_index (paths sample_record)
                 (currentPathIndex (animationState sample_complete)) = None)
    by (vm_compute; reflexivity).
  assert (C4 : throttled (Number.of_Z 0) sample_complete = true)
    by (vm_compute; reflexivity).
  assert (C5 : throttled (Number.of_Z 400) sample_complete = false)
    by (vm_compute; reflexivity).
  destruct (togglePlayPause_transitions sample_toString
              (sample_loaded sample_record)) as (Ha & _).
  destruct (Ha A1) as (_ & Ha2).
  destruct (Ha2 A2) as (Ha3 & _ & _ & _ & _ & Ha4 & _).
  destruct (togglePlayPause_transitions sample_toString sample_playing)
    as (_ & Hb & _).
  destruct (Hb B1) as (Hb1 & _ & _ & _ & _ & _ & Hb2).
  destruct (togglePlayPause_transitions sample_toString sample_complete)
    as (_ & _ & Hc & _).
  destruct (Hc sample_record (Number.of_Z 400) C1 C2 C3 C4)
    as (Hc1 & _ & Hc2).
  destruct (Hc2 C5) as (Hc3 & _ & Hc4 & _).
  exact (conj (conj A1 (conj A2 (conj Ha3 Ha4)))
           (conj (conj B1 (conj B2 (conj Hb1 (Hb2 B2))))
              (conj C1 (conj C2 (conj C3 (conj C4 (conj C5 (conj Hc1
                 (conj Hc3 Hc4))))))))).
Defined.

(** C6, the claim as written, fails at the end of the animation: with
    every path finished and playback stopped, a play click sets
    [isPlaying], shows the pause glyph and leaves a frame pending. *)
Lemma toggle_at_complete_counterexample :
  playing sample_complete = false /\
  cursor sample_complete = (Z.of_nat (length (paths sample_record)), 0) /\
  playing (togglePlayPause sample_complete) = true /\
  playIcon (togglePlayPause sample_complete) = Some glyph_pause /\
  pendingFrames (togglePlayPause sample_complete) = {[ 4 ]}.
Proof. repeat split; vm_compute; reflexivity. Qed.

Lemma speed_outside_precondition_witness :
  (speed (animationState sample_zero_speed) = Number.zero /\
   frames_only
     (fun ts =>
        Number.isFinite (Number.sub ts (lastFrameTime sample_zero_speed))
        = true)
     [EvFrame 1 (Number.of_Z 100); EvFrame 2 (Number.of_Z 100000)] /\
   playing sample_zero_speed = true /\
   cursor
     (run sample_toString
        [EvFrame 1 (Number.of_Z 100); EvFrame 2 (Number.of_Z 100000)]
        sample_zero_speed)
   = cursor sample_zero_speed) /\
  (Number.ltb (speed (animationState sample_negative_speed)) Number.zero
   = true /\
   Number.nonneg
     (Number.sub (Number.of_Z 16) (lastFrameTime sample_negative_speed))
   = true /\
   throttled (Number.of_Z 16) sample_negative_speed = false).
Proof.
  assert (Z1 : speed (animationState sample_zero_speed) = Number.zero)
    by (vm_compute; reflexivity).
  assert (Z2 : frames_only
                 (fun ts =>
                    Number.isFinite
                      (Number.sub ts (lastFrameTime sample_zero_speed))
                    = true)
                 [EvFrame 1 (Number.of_Z 100); EvFrame 2 (Number.of_Z 100000)]).
  { repeat constructor; vm_compute; reflexivity. }
  assert (Z3 : playing sample_zero_speed = true) by (vm_compute; reflexivity).
  assert (N1 : Number.ltb (speed (animationState sample_negative_speed))
                 Number.zero = true) by (vm_compute; reflexivity).
  assert (N2 : Number.nonneg
                 (Number.sub (Number.of_Z 16)
                    (lastFrameTime sample_negative_speed)) = true)
    by (vm_compute; reflexivity).
  destruct (speed_outside_precondition sample_toString) as (Hz & Hn & _).
  destruct (Hz sample_zero_speed _ Z1 Z2) as (Hcur & _).
  split.
  - split; [exact Z1|]. split; [exact Z2|]. split; [exact Z3 | exact Hcur].
  - split; [exact N1|]. split; [exact N2|].
    exact (Hn sample_negative_speed (Number.of_Z 16) N1 N2).
Defined.

(** C7, the claim as written, fails for a negative speed: at speed -1
    the play click's own call of [animate], at elapsed time 0, is
    accepted and draws the first segment, and the frame 16 time units
    later is accepted too; the cursor advances at every callback. *)
Lemma negative_speed_counterexample :
  Number.leb (speed (animationState sample_negative_speed)) Number.zero
  = true /\
  cursor sample_negative_speed = (0, 0) /\
  cursor (togglePlayPause sample_negative_speed) = (0, 1) /\
  nextFrameId sample_negative_speed ∈
    pendingFrames (togglePlayPause sample_negative_speed) /\
  cursor
    (step sample_toString
       (EvFrame (nextFrameId sample_negative_speed) (Number.of_Z 16))
       (togglePlayPause sample_negative_speed)) = (1, 0).
Proof.
  split; [vm_compute; reflexivity|]. split; [vm_compute; reflexivity|].
  split; [vm_compute; reflexivity|]. split; [|vm_compute; reflexivity].
  replace (pendingFrames (togglePlayPause sample_negative_speed))
    with ({[ nextFrameId sample_negative_speed ]} : gset Z)
    by (vm_compute; reflexivity).
  set_solver.
Qed.



Lemma saveEquation_contract_witness :
  kolamData (sample_loaded sample_record) = Some sample_record /\
  id sample_record = "abc123" /\
  requests (saveEquation sample_toString "2/11/2026, 09:00:00"
              (sample_loaded sample_record))
  = requests (sample_loaded sample_record) /\
  exists d : Download,
    downloads (saveEquation sample_toString "2/11/2026, 09:00:00"
                 (sample_loaded sample_record))
    = downloads (sample_loaded sample_record) ++ [d] /\
    filename d = "kolam_equations_abc123.txt" /\
    occurs_in "3*cos(t) + cos(3*t)" (content d).
Proof.
  assert (H1 : kolamData (sample_loaded sample_record) = Some sample_record)
    by (vm_compute; reflexivity).
  destruct (saveEquation_contract sample_toString "2/11/2026, 09:00:00"
              (sample_loaded sample_record) sample_record H1)
    as (Hr & d & Hd & _ & _ & _ & Hx & _ & _ & _ & _ & _ & _ & _ & _ & Hname).
  split; [exact H1|]. split; [reflexivity|]. split; [exact Hr|].
  exists d. split; [exact Hd|]. split; [exact (Hname eq_refl) | exact Hx].
Defined.

Lemma exports_without_record_witness :
  kolamData (script_start (Some sample_canvas)) = None /\
  exportSVG (script_start (Some sample_canvas))
  = script_start (Some sample_canvas) /\
  saveEquation sample_toString "2/11/2026, 09:00:00"
    (script_start (Some sample_canvas))
  = script_start (Some sample_canvas).
Proof.
  destruct (exports_without_record sample_toString
              (script_start (Some sample_canvas)) "2/11/2026, 09:00:00"
              eq_refl) as (H1 & H2 & _).
  exact (conj eq_refl (conj H1 H2)).
Defined.

(** ** The further properties at the sample data *)

Lemma animation_draws_every_segment_witness :
  kolamData sample_playing = Some sample_record /\
  cursor sample_playing = (0, 0) /\
  length sample_timestamps = frames_needed (paths sample_record) /\
  strokes (surface (frames sample_timestamps sample_playing))
  = strokes (surface sample_playing) ++ all_segments (paths sample_record) /\
  cursor (frames sample_timestamps sample_playing)
  = (Z.of_nat (length (paths sample_record)), 0).
Proof.
  assert (H1 : kolamData sample_playing = Some sample_record)
    by (vm_compute; reflexivity).
  assert (H2 : playing sample_playing = true) by (vm_compute; reflexivity).
  assert (H3 : is_Some (ctx sample_playing)) by (vm_compute; eauto).
  assert (H4 : cursor sample_playing = (0, 0)) by (vm_compute; reflexivity).
  assert (H5 : paced
                 (Number.div frameDelay (speed (animationState sample_playing)))
                 (lastFrameTime sample_playing) sample_timestamps)
    by (vm_compute; repeat split).
  assert (H6 : length sample_timestamps = frames_needed (paths sample_record))
    by (vm_compute; reflexivity).
  destruct (animation_draws_every_segment sample_playing sample_record
              sample_timestamps H1 H2 H3 H4 H5 H6) as (Hs & Hc & _).
  exact (conj H1 (conj H4 (conj H6 (conj Hs Hc)))).
Defined.

Lemma one_pending_frame_witness :
  (size
     (pendingFrames
        (run sample_toString sample_three_frames
           (handleFileUpload_then sample_toString
              (Fulfilled (sample_success sample_record))
              (handleFileUpload sample_file
                 (script_start (Some sample_canvas)))))) <= 1)%nat.
Proof.
  destruct (one_pending_frame sample_toString (Some sample_canvas)
              sample_file (Fulfilled (sample_success sample_record))
              sample_three_frames) as (H & _).
  exact H.
Defined.

Lemma cursor_never_goes_back_witness :
  Forall (fun e => e <> EvReset) sample_three_frames /\
  cursor_le (cursor (sample_loaded sample_record))
    (cursor (run sample_toString sample_three_frames
               (sample_loaded sample_record))).
Proof.
  assert (H : Forall (fun e => e <> EvReset) sample_three_frames)
    by (repeat constructor; discriminate).
  exact (conj H
           (cursor_never_goes_back sample_toString sample_three_frames
              (sample_loaded sample_record) H)).
Defined.

Lemma drop_uploads_images_only_witness :
  (String.prefix "image/" (file_type sample_file) = true /\
   requests (onDrop (Some sample_file)
               (onDragOver (script_start (Some sample_canvas))))
   = requests (onDragOver (script_start (Some sample_canvas)))
     ++ [analyze_request sample_file]) /\
  (String.prefix "image/" (file_type sample_text_file) = false /\
   requests (onDrop (Some sample_text_file)
               (onDragOver (script_start (Some sample_canvas))))
   = requests (onDragOver (script_start (Some sample_canvas)))).
Proof.
  assert (H1 : String.prefix "image/" (file_type sample_file) = true)
    by (vm_compute; reflexivity).
  assert (H2 : String.prefix "image/" (file_type sample_text_file) = false)
    by (vm_compute; reflexivity).
  destruct (drop_uploads_images_only (Some sample_file)
              (onDragOver (script_start (Some sample_canvas))))
    as (_ & Himg & _).
  destruct (Himg sample_file eq_refl H1) as (Hreq & _).
  destruct (drop_uploads_images_only (Some sample_text_file)
              (onDragOver (script_start (Some sample_canvas))))
    as (_ & _ & Hother & _).
  destruct (Hother (or_intror (ex_intro _ sample_text_file (conj eq_refl H2))))
    as (_ & Hnone).
  exact (conj (conj H1 Hreq) (conj H2 Hnone)).
Defined.

Lemma upload_success_presents_witness :
  analyze_success (sample_success sample_record) = true /\
  analyze_data (sample_success sample_record) = Some sample_record /\
  kolamData
    (handleFileUpload_then sample_toString
       (Fulfilled (sample_success sample_record))
       (handleFileUpload sample_file (script_start (Some sample_canvas))))
  = Some sample_record /\
  textContent
    (handleFileUpload_then sample_toString
       (Fulfilled (sample_success sample_record))
       (handleFileUpload sample_file (script_start (Some sample_canvas))))
  !! "patternType" = Some (type sample_record).
Proof.
  destruct (upload_success_presents sample_toString
              (handleFileUpload sample_file
                 (script_start (Some sample_canvas)))
              (sample_success sample_record) sample_record eq_refl eq_refl)
    as (Hk & (Ht & _) & _).
  exact (conj eq_refl (conj eq_refl (conj Hk Ht))).
Defined.

Lemma upload_catch_block_witness :
  analyze_success sample_success_no_data = true /\
  analyze_data sample_success_no_data = None /\
  kolamData sample_midway = Some sample_record /\
  kolamData
    (handleFileUpload_then sample_toString
       (Fulfilled sample_success_no_data) sample_midway) = None /\
  alerts
    (handleFileUpload_then sample_toString
       (Fulfilled sample_success_no_data) sample_midway)
  = alerts sample_midway ++ [connect_alert].
Proof.
  assert (H0 : kolamData sample_midway = Some sample_record)
    by (vm_compute; reflexivity).
  destruct (upload_catch_block sample_toString sample_midway) as (_ & H).
  destruct (H sample_success_no_data eq_refl eq_refl) as (Hk & Ha & _).
  exact (conj eq_refl (conj eq_refl (conj H0 (conj Hk Ha)))).
Defined.

Lemma upload_during_playback_witness :
  pendingFrames sample_playing = {[ 1 ]} /\
  throttled (Number.of_Z 0) sample_playing = true /\
  pendingFrames
    (handleFileUpload_then sample_toString
       (Fulfilled (sample_success sample_record_empty_path)) sample_playing)
  = {[ 1 ]} /\
  size
    (pendingFrames
       (togglePlayPause
          (handleFileUpload_then sample_toString
             (Fulfilled (sample_success sample_record_empty_path))
             sample_playing))) = 2%nat.
Proof.
  assert (H1 : pendingFrames sample_playing = {[ 1 ]})
    by (vm_compute; reflexivity).
  assert (H2 : 1 < nextFrameId sample_playing) by (vm_compute; reflexivity).
  assert (H3 : is_Some (ctx sample_playing)) by (vm_compute; eauto).
  assert (H4 : throttled (Number.of_Z 0) sample_playing = true)
    by (vm_compute; reflexivity).
  destruct (upload_during_playback sample_toString sample_playing
              (sample_success sample_record_empty_path)
              sample_record_empty_path 1 H1 H2 H3 eq_refl eq_refl)
    as (Hp & _ & _ & Hclick).
  destruct (Hclick H4) as (_ & Hsize & _).
  exact (conj H1 (conj H4 (conj Hp Hsize))).
Defined.

Lemma resetApp_returns_to_upload_witness :
  kolamData sample_midway = Some sample_record /\
  frames_tracked sample_midway /\
  kolamData (resetApp sample_midway) = None /\
  pendingFrames (resetApp sample_midway) = ∅ /\
  exportSVG (resetApp sample_midway) = resetApp sample_midway.
Proof.
  assert (H0 : kolamData sample_midway = Some sample_record)
    by (vm_compute; reflexivity).
  assert (H1 : frames_tracked sample_midway).
  { split; [vm_compute; reflexivity|]. right. exists 2.
    split; [vm_compute; reflexivity|].
    split; [vm_compute; reflexivity|].
    split; [discriminate | vm_compute; reflexivity]. }
  destruct (resetApp_returns_to_upload sample_toString sample_midway
              "1/1/2026, 12:00:00 PM")
    as (Hk & _ & _ & _ & _ & _ & _ & _ & Hp & He & _).
  exact (conj H0 (conj H1 (conj Hk (conj (Hp H1) He)))).
Defined.

Lemma export_answer_after_reset_witness :
  export_success sample_export_ok = true /\
  downloads
    (exportSVG_then (Fulfilled sample_export_ok)
       (resetApp (exportSVG sample_midway)))
  = downloads sample_midway /\
  alerts
    (exportSVG_then (Fulfilled sample_export_ok)
       (resetApp (exportSVG sample_midway)))
  = alerts sample_midway ++ ["Failed to export SVG"].
Proof.
  destruct (export_answer_after_reset sample_midway sample_export_ok eq_refl)
    as (Hd & Ha & _).
  exact (conj eq_refl (conj Hd Ha)).
Defined.

Lemma unthrottled_speeds_witness :
  Number.isNaN (speed (animationState sample_nan_speed)) = true /\
  throttled (Number.of_Z 1) sample_nan_speed = false.
Proof.
  assert (H : Number.isNaN (speed (animationState sample_nan_speed)) = true)
    by (vm_compute; reflexivity).
  destruct (unthrottled_speeds sample_nan_speed (Number.of_Z 1))
    as (Hnan & _).
  exact (conj H (Hnan H)).
Defined.

Lemma animate_type_errors_witness :
  playing sample_no_record = true /\
  throttled (Number.of_Z 100) sample_no_record = false /\
  kolamData sample_no_record = None /\
  uncaught (animate (Number.of_Z 100) sample_no_record)
  = uncaught sample_no_record ++ [TypeError] /\
  playing (animate (Number.of_Z 100) sample_no_record) = true /\
  pendingFrames (animate (Number.of_Z 100) sample_no_record)
  = pendingFrames sample_no_record.
Proof.
  assert (H1 : playing sample_no_record = true) by (vm_compute; reflexivity).
  assert (H2 : throttled (Number.of_Z 100) sample_no_record = false)
    by (vm_compute; reflexivity).
  assert (H3 : kolamData sample_no_record = None)
    by (vm_compute; reflexivity).
  destruct (animate_type_errors (Number.of_Z 100) sample_no_record H1 H2
              (or_introl H3)) as (Hu & Hp & Hf & _).
  exact (conj H1 (conj H2 (conj H3 (conj Hu (conj Hp Hf))))).
Defined.

Lemma animation_raises_no_error_witness :
  kolamData (sample_loaded sample_record) = Some sample_record /\
  cursor_in_range sample_record (sample_loaded sample_record) /\
  uncaught
    (run sample_toString (sample_three_frames ++ [EvReset; EvPlayPause])
       (sample_loaded sample_record))
  = uncaught (sample_loaded sample_record).
Proof.
  assert (H1 : kolamData (sample_loaded sample_record) = Some sample_record)
    by (vm_compute; reflexivity).
  assert (H2 : is_Some (ctx (sample_loaded sample_record)))
    by (vm_compute; eauto).
  assert (H3 : cursor_in_range sample_record (sample_loaded sample_record)).
  { apply start_in_range. vm_compute. reflexivity. }
  exact (conj H1 (conj H3
           (animation_raises_no_error sample_toString
              (sample_three_frames ++ [EvReset; EvPlayPause])
              (sample_loaded sample_record) sample_record H1 H2 H3))).
Defined.

Lemma exports_follow_upload_witness :
  analyze_success (sample_success sample_record) = true /\
  analyze_data (sample_success sample_record) = Some sample_record /\
  requests
    (exportSVG
       (run sample_toString sample_three_frames
          (handleFileUpload_then sample_toString
             (Fulfilled (sample_success sample_record))
             (handleFileUpload sample_file
                (script_start (Some sample_canvas))))))
  = requests (handleFileUpload sample_file (script_start (Some sample_canvas)))
    ++ [export_request sample_record].
Proof.
  destruct (exports_follow_upload sample_toString
              (handleFileUpload sample_file
                 (script_start (Some sample_canvas)))
              (sample_success sample_record) sample_record
              sample_three_frames "1/1/2026, 12:00:00 PM" eq_refl eq_refl)
    as (_ & Hr & _).
  exact (conj eq_refl (conj eq_refl Hr)).
Defined.

Lemma replay_after_reset_witness :
  kolamData sample_midway = Some sample_record /\
  ctx sample_midway = Some sample_midway_canvas /\
  cursor sample_midway = (0, 1) /\
  throttled (Number.of_Z 0) sample_midway = true /\
  (exists more : list Canvas.Paint,
     surface
       (frames sample_later_timestamps
          (togglePlayPause (resetAnimation sample_midway)))
     = Canvas.painted sample_midway_canvas ++
       clear_paint sample_midway_canvas ::
       dot_paints sample_midway_canvas (dots (grid sample_record)) ++ more /\
     strokes more = all_segments (paths sample_record)) /\
  cursor
    (frames sample_later_timestamps
       (togglePlayPause (resetAnimation sample_midway)))
  = (Z.of_nat (length (paths sample_record)), 0).
Proof.
  assert (H1 : kolamData sample_midway = Some sample_record)
    by (vm_compute; reflexivity).
  assert (H2 : ctx sample_midway = Some sample_midway_canvas)
    by (vm_compute; reflexivity).
  assert (H4 : throttled (Number.of_Z 0) sample_midway = true)
    by (vm_compute; reflexivity).
  assert (H5 : paced
                 (Number.div frameDelay (speed (animationState sample_midway)))
                 (lastFrameTime sample_midway) sample_later_timestamps)
    by (vm_compute; repeat split).
  assert (H6 : length sample_later_timestamps
               = frames_needed (paths sample_record))
    by (vm_compute; reflexivity).
  assert (H7 : cursor sample_midway = (0, 1)) by (vm_compute; reflexivity).
  destruct (replay_after_reset sample_midway sample_record
              sample_midway_canvas sample_later_timestamps
              H1 H2 H4 H5 H6) as (Hs & Hc & _).
  exact (conj H1 (conj H2 (conj H7 (conj H4 (conj Hs Hc))))).
Defined.
